(** * biosys5.1.py: sample registry, control classifier, plate topology and
      Baroni-Urbani-Buser similarity, embedded in Rocq

    The Python module is embedded function by function.  Python objects that
    are mutated in place ([Diatom_Sample]) become records that are passed
    and returned; the list of samples is the store.  A Python exception is a
    value of [exn] carried by the error monad [result].  Python [float]s are
    IEEE 754 binary64 numbers, embedded as Rocq's primitive floats with the
    same rounding; Python [int]s are [Z].  Text is ASCII, one character per
    byte, and [lower] and [upper] change the 26 letters only. *)

From Stdlib Require Import ZArith Lia Floats Ascii String.
From stdpp Require Import base option list strings pretty gmap.

Local Open Scope string_scope.
Local Open Scope list_scope.
Local Open Scope Z_scope.

(** ** Exceptions and the error monad *)

Inductive exn : Set :=
  | ValueError | TypeError | IndexError | KeyError | AttributeError
  | NameError | UnboundLocalError | ZeroDivisionError | OverflowError
  | StatisticsError.

Global Instance exn_eq_dec : EqDecision exn.
Proof. solve_decision. Defined.

Inductive result (A : Type) : Type :=
  | Ok (a : A)
  | Raise (e : exn).
Global Arguments Ok {A} a.
Global Arguments Raise {A} e.

Global Instance result_ret : MRet result := fun A a => Ok a.
Global Instance result_bind : MBind result := fun A B f m =>
  match m with
  | Ok a => f a
  | Raise e => Raise e
  end.

(** [try: body except E: handler] for one exception class [E]. *)
Definition try_except {A} (body : result A) (caught : exn -> bool)
    (handler : result A) : result A :=
  match body with
  | Ok a => Ok a
  | Raise e => if caught e then handler else Raise e
  end.

Definition is_ValueError (e : exn) : bool := bool_decide (e = ValueError).

(** [UnboundLocalError] is a subclass of [NameError]. *)
Definition is_NameError (e : exn) : bool :=
  bool_decide (e = NameError) || bool_decide (e = UnboundLocalError).

Definition is_UnboundLocalError (e : exn) : bool :=
  bool_decide (e = UnboundLocalError).

(** A local variable of a Python function: unbound until first assigned. *)
Inductive local (A : Type) : Type :=
  | Unbound
  | Bound (v : A).
Global Arguments Unbound {A}.
Global Arguments Bound {A} v.

Definition read_local {A} (x : local A) : result A :=
  match x with
  | Unbound => Raise UnboundLocalError
  | Bound v => Ok v
  end.

(** ** Python strings *)

Definition lower_ascii (c : ascii) : ascii :=
  let n := N_of_ascii c in
  if ((65 <=? n) && (n <=? 90))%N then ascii_of_N (n + 32) else c.

Definition upper_ascii (c : ascii) : ascii :=
  let n := N_of_ascii c in
  if ((97 <=? n) && (n <=? 122))%N then ascii_of_N (n - 32) else c.

Fixpoint str_map (f : ascii -> ascii) (s : string) : string :=
  match s with
  | EmptyString => EmptyString
  | String c s' => String (f c) (str_map f s')
  end.

Fixpoint str_filter (f : ascii -> bool) (s : string) : string :=
  match s with
  | EmptyString => EmptyString
  | String c s' => if f c then String c (str_filter f s') else str_filter f s'
  end.

(** [s.lower()] and [s.upper()]. *)
Definition lower (s : string) : string := str_map lower_ascii s.
Definition upper (s : string) : string := str_map upper_ascii s.

(** [s.replace(".", "")]. *)
Definition remove_dots (s : string) : string :=
  str_filter (fun c => negb (Ascii.eqb c ".")) s.

(** [s.split(".")]: the pieces between the dots, never an empty list. *)
Fixpoint split_dot_go (cur : string) (s : string) : list string :=
  match s with
  | EmptyString => [String.rev cur]
  | String c s' =>
      if Ascii.eqb c "." then String.rev cur :: split_dot_go EmptyString s'
      else split_dot_go (String c cur) s'
  end.
Definition split_dot (s : string) : list string := split_dot_go EmptyString s.

(** [s.rfind("S")]: index of the last capital S, or -1. *)
Fixpoint rfind_S_go (i : Z) (last : Z) (s : string) : Z :=
  match s with
  | EmptyString => last
  | String c s' => rfind_S_go (i + 1) (if Ascii.eqb c "S" then i else last) s'
  end.
Definition rfind_S (s : string) : Z := rfind_S_go 0 (-1) s.

(** [s[0:n]] for [0 <= n]. *)
Definition str_take (n : Z) (s : string) : string := substring 0 (Z.to_nat n) s.

(** [s[i]] for [0 <= i]: IndexError past the end. *)
Definition str_index (s : string) (i : nat) : result ascii :=
  match String.get i s with
  | Some c => Ok c
  | None => Raise IndexError
  end.

(** The ASCII characters that [str.strip] and [str.split] count as
    whitespace: tab, line feed, vertical tab, form feed, carriage return,
    the four separators 28 to 31, and space. *)
Definition is_py_space (c : ascii) : bool :=
  let n := N_of_ascii c in
  (((9 <=? n) && (n <=? 13)) || ((28 <=? n) && (n <=? 32)))%N.

(** Removal of the leading, and of the leading and trailing, characters
    that pass [space]. *)
Fixpoint lstrip_with (space : ascii -> bool) (s : string) : string :=
  match s with
  | EmptyString => EmptyString
  | String c s' => if space c then lstrip_with space s' else s
  end.
Definition strip_with (space : ascii -> bool) (s : string) : string :=
  String.rev (lstrip_with space (String.rev (lstrip_with space s))).

(** [s.strip()]. *)
Definition strip (s : string) : string := strip_with is_py_space s.

(** [s.split()]: the non-empty words between runs of whitespace.  [cur] is
    the word being read, in reverse. *)
Fixpoint split_go (cur : string) (s : string) : list string :=
  match s with
  | EmptyString =>
      match cur with
      | EmptyString => []
      | _ => [String.rev cur]
      end
  | String c s' =>
      if is_py_space c then
        match cur with
        | EmptyString => split_go EmptyString s'
        | _ => String.rev cur :: split_go EmptyString s'
        end
      else split_go (String c cur) s'
  end.
Definition split (s : string) : list string := split_go EmptyString s.

(** [sub in s]. *)
Fixpoint str_contains (sub s : string) : bool :=
  String.prefix sub s ||
  match s with
  | EmptyString => false
  | String _ s' => str_contains sub s'
  end.

(** [int(s)] on a string: optional surrounding whitespace (for ASCII text
    the six characters of C's [isspace]: tab to carriage return, and space),
    an optional sign, then decimal digits in which single underscores may
    separate digits.  There is no bound on the number of digits. *)
Definition digit_of_ascii (c : ascii) : option Z :=
  let n := N_of_ascii c in
  if ((48 <=? n) && (n <=? 57))%N then Some (Z.of_N n - 48) else None.

Fixpoint parse_digits (acc : Z) (after_digit : bool) (s : string) : option Z :=
  match s with
  | EmptyString => if after_digit then Some acc else None
  | String c s' =>
      match digit_of_ascii c with
      | Some dgt => parse_digits (10 * acc + dgt) true s'
      | None =>
          if Ascii.eqb c "_" && after_digit then parse_digits acc false s'
          else None
      end
  end.

Definition parse_int (s : string) : option Z :=
  match strip_with Ascii.is_space s with
  | String "+" r => parse_digits 0 false r
  | String "-" r => Z.opp <$> parse_digits 0 false r
  | t => parse_digits 0 false t
  end.

Definition int_of_str (s : string) : result Z :=
  match parse_int s with
  | Some z => Ok z
  | None => Raise ValueError
  end.

(** ** Raw cell values of the metadata sheet

    A cell is absent ([None]), text, an integer, or the float NaN that
    pandas puts in an empty cell. *)

Inductive pyval : Type :=
  | PyNone
  | PyStr (s : string)
  | PyInt (z : Z)
  | PyNaN.

Global Instance pyval_eq_dec : EqDecision pyval.
Proof. solve_decision. Defined.

(** Truth value, as tested by [if x:]. *)
Definition truthy (v : pyval) : bool :=
  match v with
  | PyNone => false
  | PyStr s => negb (bool_decide (s = ""))
  | PyInt z => negb (z =? 0)
  | PyNaN => true
  end.

(** [str(x)]. *)
Definition py_str (v : pyval) : string :=
  match v with
  | PyNone => "None"
  | PyStr s => s
  | PyInt z => pretty z
  | PyNaN => "nan"
  end.

(** [int(x)]. *)
Definition py_int (v : pyval) : result Z :=
  match v with
  | PyNone => Raise TypeError
  | PyStr s => int_of_str s
  | PyInt z => Ok z
  | PyNaN => Raise ValueError
  end.

(** [x.split()]: only text has the method. *)
Definition py_split (v : pyval) : result (list string) :=
  match v with
  | PyStr s => Ok (split s)
  | _ => Raise AttributeError
  end.

(** ** Module-level values *)

Definition no_value : string := "no_value".

Definition control_regions : list string :=
  ["Blanks"; "Positives"; "Gblocks"; "NTCs"; "Unknowns"; "TR"].

Definition community_analysis_to_keep_list : list string := ["all"].

Definition batch_num_dict : gmap string string :=
  list_to_map
    [("Run_1", "25-01-19"); ("Run_2", "15-01-19"); ("Run_3", "18-01-19");
     ("Run_4", "21-01-19"); ("Run_5", "18-01-19"); ("Run_6", "24-01-19");
     ("Run_7", "28-01-19"); ("Run_8", "31-01-19"); ("Run_9", "04-02-19");
     ("Run_10", "07-02-19"); ("Run_11", "12-02-19"); ("Run_12", "15-02-19");
     ("Run_13", "23-02-19"); ("Run_14", "28-03-19"); ("Run_15", "19-04-19");
     ("Run_16", "23-04-19"); ("Run_17", "17-05-19")].

(** ** get_initials, get_capital *)

Definition capitalise_word (word : string) : string :=
  match word with
  | EmptyString => EmptyString
  | String c rest => String (upper_ascii c) (lower rest)
  end.

Definition initial_of_word (word : string) : string :=
  match word with
  | EmptyString => EmptyString
  | String c _ => String (upper_ascii c) EmptyString
  end.

Definition get_initials_words (words_list : list string) : string :=
  foldl (fun initials word => initials +:+ initial_of_word word) "" words_list.

Definition get_capital_words (word_list : list string) : string :=
  strip (foldl (fun words_return word =>
                  words_return +:+ capitalise_word word +:+ " ") "" word_list).

(** On a [str] argument. *)
Definition get_capital (s : string) : string := get_capital_words (split s).

(** On a raw cell: [split] fails on a value that is not text. *)
Definition get_initials_raw (v : pyval) : result string :=
  words_list ← py_split v; Ok (get_initials_words words_list).
Definition get_capital_raw (v : pyval) : result string :=
  word_list ← py_split v; Ok (get_capital_words word_list).

(** ** Abundance tables

    [otu_slice] is the two-column frame a sample owns: the taxon column
    PrefTaxon and one count column, whose header is [slice_col]. *)

Record otu_slice : Type := mk_slice {
  slice_col : string;
  slice_rows : list (string * Z)
}.

(** The value of a 64-bit signed integer after an overflow: the
    representative of [z] modulo [2^64] between [-2^63] and [2^63 - 1]. *)
Definition wrap_int64 (z : Z) : Z := (z + 2 ^ 63) mod 2 ^ 64 - 2 ^ 63.

(** [frame[key].sum()] for a key that is not the taxon header: the sum of
    the count column when [key] is its header, KeyError otherwise.  The
    count column is an int64 column and its sum is an int64 too: it wraps
    around instead of growing. *)
Definition column_sum (frame : otu_slice) (key : string) : result Z :=
  if bool_decide (key = slice_col frame)
  then Ok (wrap_int64 (foldr Z.add 0 (snd <$> slice_rows frame)))
  else Raise KeyError.

(** [frame.columns = ["PrefTaxon", name]]. *)
Definition rename_slice (name : string) (frame : otu_slice) : otu_slice :=
  mk_slice name (slice_rows frame).

(** ** class Diatom_Sample

    [sim] is the int [0] at construction and a float once assigned.
    [plate_loc] is [None] for the sentinel string and [Some (row, col)] for
    the list [[row, col]].  [sur_samples] and [plate] are attributes that do
    not exist until assigned: [None] is the missing attribute. *)

Inductive pynum : Type :=
  | NumInt (z : Z)
  | NumFloat (f : float).

Record Diatom_Sample : Type := mk_sample {
  folder : string;
  sampleid : string;
  siteid : string;
  area : string;
  region : string;
  reg_area : option string;
  prn : pyval;
  sitename : string;
  sampledate : pyval;
  barcode : pyval;
  batch_num : string;
  count : Z;
  pass_fail : string;
  analysis_date : string;
  otu_tab : option otu_slice;
  sim : pynum;
  sim_sample : string;
  note : string;
  plate_loc : option (Z * Z);
  sur_samples : option (list (Z * Z));
  plate : option string
}.

Definition with_folder (v : string) (s : Diatom_Sample) : Diatom_Sample :=
  mk_sample v (sampleid s) (siteid s) (area s) (region s) (reg_area s) (prn s)
    (sitename s) (sampledate s) (barcode s) (batch_num s) (count s)
    (pass_fail s) (analysis_date s) (otu_tab s) (sim s) (sim_sample s)
    (note s) (plate_loc s) (sur_samples s) (plate s).

Definition with_sampleid (v : string) (s : Diatom_Sample) : Diatom_Sample :=
  mk_sample (folder s) v (siteid s) (area s) (region s) (reg_area s) (prn s)
    (sitename s) (sampledate s) (barcode s) (batch_num s) (count s)
    (pass_fail s) (analysis_date s) (otu_tab s) (sim s) (sim_sample s)
    (note s) (plate_loc s) (sur_samples s) (plate s).

Definition with_region (v : string) (s : Diatom_Sample) : Diatom_Sample :=
  mk_sample (folder s) (sampleid s) (siteid s) (area s) v (reg_area s) (prn s)
    (sitename s) (sampledate s) (barcode s) (batch_num s) (count s)
    (pass_fail s) (analysis_date s) (otu_tab s) (sim s) (sim_sample s)
    (note s) (plate_loc s) (sur_samples s) (plate s).

Definition with_batch_num (v : string) (s : Diatom_Sample) : Diatom_Sample :=
  mk_sample (folder s) (sampleid s) (siteid s) (area s) (region s) (reg_area s)
    (prn s) (sitename s) (sampledate s) (barcode s) v (count s)
    (pass_fail s) (analysis_date s) (otu_tab s) (sim s) (sim_sample s)
    (note s) (plate_loc s) (sur_samples s) (plate s).

Definition with_count (v : Z) (s : Diatom_Sample) : Diatom_Sample :=
  mk_sample (folder s) (sampleid s) (siteid s) (area s) (region s) (reg_area s)
    (prn s) (sitename s) (sampledate s) (barcode s) (batch_num s) v
    (pass_fail s) (analysis_date s) (otu_tab s) (sim s) (sim_sample s)
    (note s) (plate_loc s) (sur_samples s) (plate s).

Definition with_pass_fail (v : string) (s : Diatom_Sample) : Diatom_Sample :=
  mk_sample (folder s) (sampleid s) (siteid s) (area s) (region s) (reg_area s)
    (prn s) (sitename s) (sampledate s) (barcode s) (batch_num s) (count s)
    v (analysis_date s) (otu_tab s) (sim s) (sim_sample s)
    (note s) (plate_loc s) (sur_samples s) (plate s).

Definition with_analysis_date (v : string) (s : Diatom_Sample) : Diatom_Sample :=
  mk_sample (folder s) (sampleid s) (siteid s) (area s) (region s) (reg_area s)
    (prn s) (sitename s) (sampledate s) (barcode s) (batch_num s) (count s)
    (pass_fail s) v (otu_tab s) (sim s) (sim_sample s)
    (note s) (plate_loc s) (sur_samples s) (plate s).

Definition with_otu_tab (v : option otu_slice) (s : Diatom_Sample) : Diatom_Sample :=
  mk_sample (folder s) (sampleid s) (siteid s) (area s) (region s) (reg_area s)
    (prn s) (sitename s) (sampledate s) (barcode s) (batch_num s) (count s)
    (pass_fail s) (analysis_date s) v (sim s) (sim_sample s)
    (note s) (plate_loc s) (sur_samples s) (plate s).

Definition with_note (v : string) (s : Diatom_Sample) : Diatom_Sample :=
  mk_sample (folder s) (sampleid s) (siteid s) (area s) (region s) (reg_area s)
    (prn s) (sitename s) (sampledate s) (barcode s) (batch_num s) (count s)
    (pass_fail s) (analysis_date s) (otu_tab s) (sim s) (sim_sample s)
    v (plate_loc s) (sur_samples s) (plate s).

Definition with_plate_loc (v : option (Z * Z)) (s : Diatom_Sample) : Diatom_Sample :=
  mk_sample (folder s) (sampleid s) (siteid s) (area s) (region s) (reg_area s)
    (prn s) (sitename s) (sampledate s) (barcode s) (batch_num s) (count s)
    (pass_fail s) (analysis_date s) (otu_tab s) (sim s) (sim_sample s)
    (note s) v (sur_samples s) (plate s).

Definition with_sur_samples (v : option (list (Z * Z))) (s : Diatom_Sample)
    : Diatom_Sample :=
  mk_sample (folder s) (sampleid s) (siteid s) (area s) (region s) (reg_area s)
    (prn s) (sitename s) (sampledate s) (barcode s) (batch_num s) (count s)
    (pass_fail s) (analysis_date s) (otu_tab s) (sim s) (sim_sample s)
    (note s) (plate_loc s) v (plate s).

Definition with_plate (v : option string) (s : Diatom_Sample) : Diatom_Sample :=
  mk_sample (folder s) (sampleid s) (siteid s) (area s) (region s) (reg_area s)
    (prn s) (sitename s) (sampledate s) (barcode s) (batch_num s) (count s)
    (pass_fail s) (analysis_date s) (otu_tab s) (sim s) (sim_sample s)
    (note s) (plate_loc s) (sur_samples s) v.

(** *** __init__: the identifier rules *)

(** [self.folder]. *)
Definition init_folder (folder : pyval) : result string :=
  if truthy folder then
    try_except (z ← py_int folder; Ok (pretty z)) is_ValueError
               (Ok (py_str folder))
  else Ok no_value.

(** [self.sampleid], given the folder already stored. *)
Definition init_sampleid (sampleid : pyval) (self_folder : string) : result string :=
  if truthy sampleid then
    try_except (z ← int_of_str (remove_dots (py_str sampleid)); Ok (pretty z))
               is_ValueError (Ok (py_str sampleid))
  else Ok ("F" +:+ self_folder).

(** [self.siteid]: the conversion is not guarded. *)
Definition init_siteid (siteid : pyval) : result string :=
  if truthy siteid then
    z ← int_of_str (remove_dots (py_str siteid)); Ok (pretty z)
  else Ok no_value.

Definition init_area (area : pyval) : string :=
  if truthy area then get_capital (py_str area) else no_value.

Definition init_region (region : pyval) : string :=
  if truthy region then
    if bool_decide (region = PyStr "nan") then no_value
    else get_capital (py_str region)
  else no_value.

(** [self.reg_area] is assigned only when [self.region] is empty and
    [self.area] is not the sentinel; otherwise the attribute is not set. *)
Definition init_reg_area (region area : pyval) (self_region self_area : string)
    : result (option string) :=
  if negb (bool_decide (self_region = "")) || bool_decide (self_area = no_value)
  then Ok None
  else
    initials ← get_initials_raw region;
    capital ← get_capital_raw area;
    Ok (Some (initials +:+ "-" +:+ capital)).

Definition init_prn (prn : pyval) : result pyval :=
  if truthy prn then
    try_except (z ← py_int prn; Ok (PyInt z)) is_ValueError (Ok prn)
  else Ok (PyStr no_value).

Definition is_letter_or_space (c : ascii) : bool :=
  let n := N_of_ascii c in
  (((65 <=? n) && (n <=? 90)) || ((97 <=? n) && (n <=? 122)) || (n =? 32))%N.

(** [regex.sub('', sitename)] with the TypeError of a non-text value caught. *)
Definition init_sitename (sitename : pyval) : string :=
  if truthy sitename then
    match sitename with
    | PyStr s => str_filter is_letter_or_space s
    | _ => no_value
    end
  else no_value.

Definition init_passthrough (v : pyval) : pyval :=
  if truthy v then v else PyStr no_value.

(** [Diatom_Sample(sampleid, siteid, area, region, prn, sitename, sampledate,
    barcode, folder)]. *)
Definition Diatom_Sample_init
    (sampleid siteid area region prn sitename sampledate barcode folder : pyval)
    : result Diatom_Sample :=
  self_folder ← init_folder folder;
  self_sampleid ← init_sampleid sampleid self_folder;
  self_siteid ← init_siteid siteid;
  let self_area := init_area area in
  let self_region := init_region region in
  self_reg_area ← init_reg_area region area self_region self_area;
  self_prn ← init_prn prn;
  Ok {| folder := self_folder;
        sampleid := self_sampleid;
        siteid := self_siteid;
        area := self_area;
        region := self_region;
        reg_area := self_reg_area;
        prn := self_prn;
        sitename := init_sitename sitename;
        sampledate := init_passthrough sampledate;
        barcode := init_passthrough barcode;
        batch_num := no_value;
        count := 0;
        pass_fail := "Unsuccessful";
        analysis_date := no_value;
        otu_tab := None;
        sim := NumInt 0;
        sim_sample := no_value;
        note := "";
        plate_loc := None;
        sur_samples := None;
        plate := None |}.

(** *** assign_results *)

Definition run_date (batch : string) : string :=
  match batch_num_dict !! batch with
  | Some date => date
  | None => "Run metadata has not been set"
  end.

Definition assign_results (self : Diatom_Sample) (otus : otu_slice)
    (batch_num : string) : Diatom_Sample :=
  let self := with_otu_tab (Some otus) self in
  let self :=
    match column_sum otus (folder self) with
    | Ok count => with_count count self
    | Raise _ => with_count 0 self
    end in
  let self :=
    if 3000 <=? count self then with_pass_fail "Successful" self else self in
  if negb (bool_decide (batch_num = "")) then
    let run := default "" (head (split_dot batch_num)) in
    with_analysis_date (run_date run) (with_batch_num run self)
  else
    with_analysis_date no_value (with_batch_num no_value self).

(** *** with_analysis_date *)

Definition set_analysis_date (self : Diatom_Sample) : Diatom_Sample :=
  if bool_decide (batch_num self = no_value) then with_analysis_date no_value self
  else with_analysis_date (run_date (batch_num self)) self.

(** *** sort_control

    [self.folder.lower()[0]] raises IndexError on an empty folder. *)

Definition sort_control (self : Diatom_Sample) : result Diatom_Sample :=
  if bool_decide (region self = "Control") then
    let s_loc := rfind_S (folder self) in
    let self :=
      if s_loc =? -1 then self
      else with_folder (str_take s_loc (folder self)) self in
    let self := with_sampleid (folder self +:+ "_" +:+ batch_num self) self in
    first ← str_index (lower (folder self)) 0;
    let self :=
      if Ascii.eqb first "b" then with_region "Blanks" self
      else if Ascii.eqb first "n" then with_region "NTCs" self
      else if Ascii.eqb first "p" then with_region "Positives" self
      else if Ascii.eqb first "g" then with_region "Gblocks" self
      else if Ascii.eqb first "t" then with_region "TR" self
      else with_sampleid ("F" +:+ folder self) (with_region "Unknowns" self) in
    Ok (with_folder (upper (folder self)) self)
  else Ok self.

(** *** assign_surrounding_samples, assign_most_sim_sample, amend_sample_note *)

Definition assign_surrounding_samples (self : Diatom_Sample)
    (sur_coords : list (Z * Z)) (row col : Z) (sheet_name : string)
    : Diatom_Sample :=
  let self :=
    match sur_coords with
    | [] => self
    | _ :: _ => with_sur_samples (Some sur_coords) self
    end in
  let self :=
    if negb (row =? 0) && negb (col =? 0)
    then with_plate_loc (Some (row, col)) self else self in
  if negb (bool_decide (sheet_name = "")) then with_plate (Some sheet_name) self
  else self.

Definition assign_most_sim_sample (self : Diatom_Sample) (sim : float)
    (sample : string) : Diatom_Sample :=
  mk_sample (folder self) (sampleid self) (siteid self) (area self)
    (region self) (reg_area self) (prn self) (sitename self)
    (sampledate self) (barcode self) (batch_num self) (count self)
    (pass_fail self) (analysis_date self) (otu_tab self) (NumFloat sim) sample
    (note self) (plate_loc self) (sur_samples self) (plate self).

Definition amend_sample_note (self : Diatom_Sample) (new_note : string)
    : Diatom_Sample :=
  if bool_decide (note self = "") then with_note new_note self
  else with_note (note self +:+ "," +:+ new_note) self.

(** ** import_otu_tables_main

    [otu_file] is one tab-separated file as read by [import_otus]: its name,
    the PrefTaxon column and the count columns with their headers, which are
    taken to be distinct. *)

Record otu_file : Type := mk_file {
  file_name : string;
  taxa : list string;
  columns : list (string * list Z)
}.

(** The renaming of one header (the [new_headers] dictionary): a header
    without a usable second part is kept as it is (IndexError caught). *)
Definition new_header (header : string) : string :=
  match split_dot header with
  | String first rest0 :: rest =>
      let head0 := String first rest0 in
      if bool_decide (String (lower_ascii first) "" ∈ ["b"; "n"; "p"; "g"; "t"; "u"])
      then match rest with
           | head1 :: _ => head0 +:+ head1
           | [] => header
           end
      else head0
  | _ => header
  end.

(** [df = otus[["PrefTaxon"]].copy(); df[header] = otus[header].copy()]. *)
Definition slice_of (otus : otu_file) (header : string) (values : list Z)
    : otu_slice :=
  mk_slice header (zip (taxa otus) values).

(** The inner loop over [sample_list] for one header: every sample whose
    folder is the header is claimed; it receives the results unless its
    count already exceeds 3000. *)
Definition claim_header (otus : otu_file) (header : string) (values : list Z)
    (sample : Diatom_Sample) : Diatom_Sample :=
  if bool_decide (header = folder sample) then
    if count sample >? 3000 then sample
    else assign_results sample (slice_of otus header values) (file_name otus)
  else sample.

Definition claimed (header : string) (sample_list : list Diatom_Sample) : bool :=
  bool_decide (Exists (fun sample => header = folder sample) sample_list).

(** First loop over the headers: returns the samples and [headers_added]. *)
Fixpoint assign_headers (otus : otu_file) (headers : list (string * list Z))
    (sample_list : list Diatom_Sample) (headers_added : list string)
    : list Diatom_Sample * list string :=
  match headers with
  | [] => (sample_list, headers_added)
  | (header, values) :: rest =>
      let headers_added :=
        if claimed header sample_list then (headers_added ++ [header])
        else headers_added in
      assign_headers otus rest (claim_header otus header values <$> sample_list)
                     headers_added
  end.

(** A column no sample claimed becomes a control sample. *)
Definition control_sample (otus : otu_file) (header : string) (values : list Z)
    : result Diatom_Sample :=
  sample ← Diatom_Sample_init PyNone PyNone PyNone (PyStr "Control") PyNone
                              PyNone PyNone PyNone (PyStr header);
  let sample := assign_results sample (slice_of otus header values)
                               (file_name otus) in
  sample ← sort_control sample;
  Ok (with_otu_tab (rename_slice (sampleid sample) <$> otu_tab sample) sample).

(** Second loop over the headers. *)
Fixpoint add_controls (otus : otu_file) (headers : list (string * list Z))
    (headers_added : list string) (sample_list : list Diatom_Sample)
    : result (list Diatom_Sample) :=
  match headers with
  | [] => Ok sample_list
  | (header, values) :: rest =>
      if bool_decide (header ∈ headers_added)
      then add_controls otus rest headers_added sample_list
      else
        sample ← control_sample otus header values;
        add_controls otus rest headers_added (sample_list ++ [sample])
  end.

Definition import_one_file (otus : otu_file) (sample_list : list Diatom_Sample)
    : result (list Diatom_Sample) :=
  let headers := prod_map new_header id <$> columns otus in
  let '(sample_list, headers_added) := assign_headers otus headers sample_list [] in
  add_controls otus headers headers_added sample_list.

Fixpoint import_otu_tables_main (files : list otu_file)
    (sample_list : list Diatom_Sample) : result (list Diatom_Sample) :=
  match files with
  | [] => Ok sample_list
  | otus :: rest =>
      sample_list ← import_one_file otus sample_list;
      import_otu_tables_main rest sample_list
  end.

(** ** get_surrounding_coords *)

Definition get_surrounding_coords (row col : Z) : list (Z * Z) :=
  let surround_rows :=
    if row =? 0 then [row; row + 1]
    else if row =? 7 then [row - 1; row]
    else [row - 1; row; row + 1] in
  let surround_cols :=
    if col =? 1 then [col; col + 1]
    else if col =? 12 then [col - 1; col]
    else [col - 1; col; col + 1] in
  sur_row ← surround_rows; sur_col ← surround_cols; [(sur_row, sur_col)].

(** ** baroni_urbani_buser_coefficient

    The argument is the merged frame of two samples with PrefTaxon dropped:
    one row per taxon with the count of sample 0 and of sample 1. *)

Definition table2 : Type := list (string * Z * Z).

(** [pd.merge(left, right, on="PrefTaxon")] of two slices: inner join on
    the taxon, in the order of the left rows. *)
Definition pd_merge (left right : otu_slice) : table2 :=
  '(taxon, count_0) ← slice_rows left;
  '(taxon', count_1) ← slice_rows right;
  if bool_decide (taxon = taxon') then [(taxon, count_0, count_1)] else [].

(** [if count > 1: count = 1]. *)
Definition binarize (count : Z) : Z := if count >? 1 then 1 else count.

(** One turn of the loop over the rows, on the counters [(a, b, c, d)]. *)
Definition tally_row (acc : Z * Z * Z * Z) (row : string * Z * Z)
    : Z * Z * Z * Z :=
  let '(a, b, c, d) := acc in
  let count_0 := binarize (snd (fst row)) in
  let count_1 := binarize (snd row) in
  if count_0 =? count_1 then
    if count_0 =? 1 then (a + 1, b, c, d) else (a, b, c, d + 1)
  else if count_0 >? count_1 then (a, b + 1, c, d)
  else if count_0 <? count_1 then (a, b, c + 1, d)
  else acc.

Definition bub_counts (df : table2) : Z * Z * Z * Z :=
  foldl tally_row (0, 0, 0, 0) df.

(** Conversion of an int operand to float: the nearest double, ties to
    even; OverflowError when the int is too large for a double. *)
Definition float_of_int (n : Z) : result float :=
  match binary_normalize prec emax n 0 false with
  | S754_infinity _ => Raise OverflowError
  | x => Ok (SF2Prim x)
  end.

(** [math.sqrt]. *)
Definition math_sqrt (x : float) : result float :=
  if (x <? 0)%float then Raise ValueError else Ok (PrimFloat.sqrt x).

(** [x + n] for a float [x] and an int [n]. *)
Definition float_add_int (x : float) (n : Z) : result float :=
  y ← float_of_int n; Ok (x + y)%float.

(** [float((sqrt(a*d) + a) / (sqrt(a*d) + a + b + c))]. *)
Definition bub_value (a b c d : Z) : result float :=
  ad ← float_of_int (a * d);
  root ← math_sqrt ad;
  numerator ← float_add_int root a;
  den ← float_add_int root a;
  den ← float_add_int den b;
  den ← float_add_int den c;
  if (den =? 0)%float then Raise ZeroDivisionError
  else Ok (numerator / den)%float.

Definition baroni_urbani_buser_coefficient (df : table2) : result float :=
  let '(a, b, c, d) := bub_counts df in bub_value a b c d.

(** The frame with its two sample columns exchanged. *)
Definition swap_columns (df : table2) : table2 :=
  (fun row => (fst (fst row), snd row, snd (fst row))) <$> df.

(** Presence after binarisation, and the two patterns of the module's
    self-test ([dif] and [same]). *)
Definition present (count : Z) : Prop := binarize count = 1.

Definition disjoint_presence (df : table2) : Prop :=
  Forall (fun row => ~ (present (snd (fst row)) /\ present (snd row))) df.

Definition identical_presence (df : table2) : Prop :=
  Forall (fun row => present (snd (fst row)) <-> present (snd row)) df.

Definition nonneg_counts (df : table2) : Prop :=
  Forall (fun row => 0 <= snd (fst row) /\ 0 <= snd row) df.

(** A positive normal double at most [2^(K+53)]: 53 mantissa bits, positive
    sign, exponent between -52 and [K].  Every double in [1, 2^1024) has
    this shape. *)
Definition normal64 (K : Z) (x : spec_float) : Prop :=
  exists (m : positive) (e : Z),
    x = S754_finite false m e /\ Z.pos (digits2_pos m) = 53 /\ -52 <= e <= K.

(** The double that is exactly the int [n], for [0 <= n < 2^53]: positive
    zero, or a 53-bit mantissa [m] and an exponent [e <= 0] with
    [m = n * 2^(-e)]. *)
Definition exact64 (n : Z) (x : spec_float) : Prop :=
  (n = 0 /\ x = S754_zero false)
  \/ exists (m : positive) (e : Z),
       x = S754_finite false m e /\ Z.pos (digits2_pos m) = 53 /\ -52 <= e <= 0
       /\ Z.pos m = n * 2 ^ (- e).

(** ** perform_similarity_checks *)

Definition is_successful (sample : Diatom_Sample) : bool :=
  bool_decide (pass_fail sample = "Successful").

(** The [try] block for one candidate that passed.  [None]: nothing was
    scored (different plates, a missing attribute caught as AttributeError,
    or no frame on the candidate).  [Some (neighbour, similarity)]: the
    pair was scored, [neighbour] telling whether the candidate's plate
    location is among the centre's surrounding coordinates. *)
Definition score_pair (sample_cent sample_sur : Diatom_Sample)
    : result (option (bool * float)) :=
  match plate sample_cent, plate sample_sur with
  | Some plate_cent, Some plate_sur =>
      if negb (bool_decide (plate_cent = plate_sur)) then Ok None
      else
        match sur_samples sample_cent with
        | None => Ok None
        | Some coords =>
            let neighbour :=
              match plate_loc sample_sur with
              | Some loc => bool_decide (loc ∈ coords)
              | None => false
              end in
            match otu_tab sample_sur with
            | None => Ok None
            | Some sur_df =>
                cent_df ← match otu_tab sample_cent with
                          | Some cent_df => Ok cent_df
                          | None => Raise TypeError
                          end;
                similarity ← baroni_urbani_buser_coefficient
                               (pd_merge cent_df sur_df);
                Ok (Some (neighbour, similarity))
            end
        end
  | _, _ => Ok None
  end.

(** The running values [(sim_all, highest_sim, most_sim_sample)]. *)
Definition record_score (acc : list float * float * string)
    (scored : option (bool * float)) (sample_sur : Diatom_Sample)
    : list float * float * string :=
  match scored with
  | None => acc
  | Some (neighbour, similarity) =>
      let '(sim_all, highest_sim, most_sim_sample) := acc in
      if neighbour && (highest_sim <? similarity)%float
      then ((sim_all ++ [similarity]), similarity, folder sample_sur)
      else ((sim_all ++ [similarity]), highest_sim, most_sim_sample)
  end.

(** The inner loop over [sample_list] for the centre at position [cent].
    The samples of the list are distinct objects, so [sample_cent ==
    sample_sur] holds exactly at the centre's own position. *)
Fixpoint scan_candidates (cent : nat) (sample_cent : Diatom_Sample) (pos : nat)
    (candidates : list Diatom_Sample) (acc : list float * float * string)
    : result (list float * float * string) :=
  match candidates with
  | [] => Ok acc
  | sample_sur :: rest =>
      if bool_decide (cent = pos) then
        scan_candidates cent sample_cent (S pos) rest acc
      else if negb (is_successful sample_sur) then
        scan_candidates cent sample_cent (S pos) rest acc
      else
        scored ← score_pair sample_cent sample_sur;
        scan_candidates cent sample_cent (S pos) rest
                        (record_score acc scored sample_sur)
  end.

(** The outer loop, over the positions of the list.  The list is returned
    as the loop left it, also when an exception stops the loop. *)
Fixpoint score_centres (positions : list nat) (sample_list : list Diatom_Sample)
    (sim_all : list float) : result (list float) * list Diatom_Sample :=
  match positions with
  | [] => (Ok sim_all, sample_list)
  | cent :: rest =>
      match sample_list !! cent with
      | None => score_centres rest sample_list sim_all
      | Some sample_cent =>
          if negb (is_successful sample_cent) then
            score_centres rest sample_list sim_all
          else
            match scan_candidates cent sample_cent 0 sample_list
                                  (sim_all, 0%float, "") with
            | Raise e => (Raise e, sample_list)
            | Ok (sim_all, highest_sim, most_sim_sample) =>
                score_centres rest
                  (<[cent := assign_most_sim_sample sample_cent highest_sim
                                                    most_sim_sample]> sample_list)
                  sim_all
            end
      end
  end.

(** [statistics.mean] and [statistics.stdev] as far as the caller depends
    on them: the value is only printed, the exception is not caught. *)
Definition stat_mean (data : list float) : result unit :=
  if bool_decide (length data < 1)%nat then Raise StatisticsError else Ok ().
Definition stat_stdev (data : list float) : result unit :=
  if bool_decide (length data < 2)%nat then Raise StatisticsError else Ok ().

(** One row of the BUB_coefficient sheet, with the value of [sim] as the
    sample holds it (in the frame pandas stores a column that mixes the int
    0 with floats as floats, so that the int 0 is written as 0.0). *)
Record sim_row : Type := mk_sim_row {
  FolderNumber : string;
  Most_Similar_Sample : string;
  BUB_Co : pynum;
  Plate : string
}.

Definition sim_sheet (sample_list : list Diatom_Sample) : list sim_row :=
  (fun sample => mk_sim_row (folder sample) (sim_sample sample) (sim sample)
                            (default " " (plate sample))) <$> sample_list.

(** Returns the sheet written to the writer, or the exception raised, and
    the sample list as the call left it. *)
Definition perform_similarity_checks (sample_list : list Diatom_Sample)
    : result (list sim_row) * list Diatom_Sample :=
  match score_centres (seq 0 (length sample_list)) sample_list [] with
  | (Raise e, sample_list) => (Raise e, sample_list)
  | (Ok sim_all, sample_list) =>
      (_ ← stat_mean sim_all; _ ← stat_stdev sim_all; Ok (sim_sheet sample_list),
       sample_list)
  end.

(** ** Merged frames and the exports

    [dataframe] is a frame with the PrefTaxon column and any number of count
    columns: the headers of the count columns, and one row per taxon.  A
    variable that holds a frame may also hold [None] (the [otu_tab] of a
    sample without results). *)

Record dataframe : Type := mk_df {
  df_cols : list string;
  df_rows : list (string * list Z)
}.

Definition frame_of_slice (frame : otu_slice) : dataframe :=
  mk_df [slice_col frame] ((fun row => (fst row, [snd row])) <$> slice_rows frame).

(** [pd.merge(left, right, on="PrefTaxon")] of two frames whose count
    columns have different headers (pandas renames a header that occurs on
    both sides, with the suffixes _x and _y); TypeError when an operand is
    [None]. *)
Definition pd_merge_frames (left right : option dataframe) : result dataframe :=
  match left, right with
  | Some lhs, Some rhs =>
      Ok (mk_df (df_cols lhs ++ df_cols rhs)
            ('(taxon, xs) ← df_rows lhs;
             '(taxon', ys) ← df_rows rhs;
             if bool_decide (taxon = taxon') then [(taxon, (xs ++ ys))] else []))
  | _, _ => Raise TypeError
  end.

(** [try: interim_df = tab; main_df = pd.merge(main_df, interim_df,
    on="PrefTaxon") except NameError: main_df = tab]. *)
Definition merge_or_start (main_df : local (option dataframe))
    (tab : option dataframe) : result (local (option dataframe)) :=
  try_except
    (main ← read_local main_df;
     merged ← pd_merge_frames main tab;
     Ok (Bound (Some merged)))
    is_NameError
    (Ok (Bound tab)).

(** [format_df]: rows whose taxon contains "batch_num" are dropped, then rows
    that are zero in every column; AttributeError on [None]. *)
Definition format_df (df : option dataframe) : result dataframe :=
  match df with
  | None => Raise AttributeError
  | Some df =>
      Ok (mk_df (df_cols df)
            (List.filter
               (fun row => negb (str_contains "batch_num" (fst row))
                           && existsb (fun v => negb (v =? 0)) (snd row))
               (df_rows df)))
  end.

(** A sheet of the output workbook: the frame, under the siteid and
    sampleid header rows that [add_biosys_headers] puts on top (none for a
    control region). *)
Record sheet : Type := mk_sheet {
  sheet_name : string;
  biosys_headers : gmap string (string * string);
  sheet_body : dataframe
}.

Definition frame_of (sample : Diatom_Sample) : option dataframe :=
  frame_of_slice <$> otu_tab sample.

(** The closing [try: df = format_df(main_df) ... df.to_excel(writer, ...)
    except UnboundLocalError: print(...)] of a region: the writer with the new
    sheet, or the unchanged writer and the diagnostic. *)
Definition export_region (region : string) (main_df : local (option dataframe))
    (biosys_siteid_dict : gmap string (string * string)) (writer : list sheet)
    : result (list sheet * list string) :=
  try_except
    (main ← read_local main_df;
     df ← format_df main;
     Ok ((writer ++ [mk_sheet region biosys_siteid_dict df]), []))
    is_UnboundLocalError
    (Ok (writer, ["    Region " +:+ region +:+ " had no passing samples."])).

(** The loop of a control region ([reg] is the function's [region]). *)
Fixpoint merge_control_region (reg : string) (samples_otus : list Diatom_Sample)
    (main_df : local (option dataframe)) : result (local (option dataframe)) :=
  match samples_otus with
  | [] => Ok main_df
  | sample :: rest =>
      if bool_decide (region sample = reg) && (3000 <=? count sample)
      then main_df ← merge_or_start main_df (frame_of sample);
           merge_control_region reg rest main_df
      else merge_control_region reg rest main_df
  end.

(** The loop of a sampled region, which also fills [biosys_siteid_dict]. *)
Fixpoint merge_site_region (reg : string) (samples_otus : list Diatom_Sample)
    (biosys_siteid_dict : gmap string (string * string))
    (main_df : local (option dataframe))
    : result (gmap string (string * string) * local (option dataframe)) :=
  match samples_otus with
  | [] => Ok (biosys_siteid_dict, main_df)
  | sample :: rest =>
      if bool_decide (region sample = reg) && (3000 <=? count sample)
      then
        let biosys_siteid_dict :=
          <[folder sample := (siteid sample, sampleid sample)]> biosys_siteid_dict in
        main_df ← merge_or_start main_df (frame_of sample);
        merge_site_region reg rest biosys_siteid_dict main_df
      else merge_site_region reg rest biosys_siteid_dict main_df
  end.

(** The TR region.  [sample_original_fn] is a local variable: the branch for
    a folder whose third character is neither 3 nor 4 assigns another name
    ([sample_orignal_fn]) and leaves it as it was. *)
Definition tr_original_fn (tr_folder : string) (sample_original_fn : local string)
    : result (local string) :=
  third ← str_index tr_folder 2;
  if Ascii.eqb third "3" then Ok (Bound (substring 2 6 tr_folder))
  else if Ascii.eqb third "4" then Ok (Bound (substring 2 7 tr_folder))
  else Ok sample_original_fn.

Fixpoint merge_tr_originals (samples_og : list Diatom_Sample)
    (sample_original_fn : local string) (main_df : local (option dataframe))
    : result (local (option dataframe)) :=
  match samples_og with
  | [] => Ok main_df
  | sample_og :: rest =>
      original ← read_local sample_original_fn;
      if bool_decide (folder sample_og = original)
         && negb (bool_decide (region sample_og = "TR"))
         && (count sample_og >? 1)
      then
        main ← read_local main_df;
        merged ← pd_merge_frames main (frame_of sample_og);
        merge_tr_originals rest sample_original_fn (Bound (Some merged))
      else merge_tr_originals rest sample_original_fn main_df
  end.

Fixpoint merge_tr_region (samples_otus samples_tr : list Diatom_Sample)
    (sample_original_fn : local string) (main_df : local (option dataframe))
    : result (local (option dataframe)) :=
  match samples_tr with
  | [] => Ok main_df
  | sample_tr :: rest =>
      if bool_decide (region sample_tr = "TR") && (3000 <=? count sample_tr)
      then
        sample_original_fn ← tr_original_fn (folder sample_tr) sample_original_fn;
        main_df ← merge_or_start main_df (frame_of sample_tr);
        main_df ← merge_tr_originals samples_otus sample_original_fn main_df;
        merge_tr_region samples_otus rest sample_original_fn main_df
      else merge_tr_region samples_otus rest sample_original_fn main_df
  end.

(** [filter_otus_by_region(region, samples_otus, writer, control_regions)]:
    the writer after the call and the lines printed, of which the first is
    the region itself ([print(region)] opens the function).  The branch for
    the sentinel region reads the undefined global [metadata_list]. *)
Definition filter_otus_by_region (reg : string) (samples_otus : list Diatom_Sample)
    (writer : list sheet) (control_regions : list string)
    : result (list sheet * list string) :=
  let printed := [reg] in
  '(writer, diagnostics) ←
    (if bool_decide (reg = no_value) then Raise NameError
     else if bool_decide (reg = "TR") then
       main_df ← merge_tr_region samples_otus samples_otus Unbound Unbound;
       export_region reg main_df ∅ writer
     else if bool_decide (reg ∈ control_regions) then
       main_df ← merge_control_region reg samples_otus Unbound;
       export_region reg main_df ∅ writer
     else
       '(biosys_siteid_dict, main_df) ← merge_site_region reg samples_otus ∅ Unbound;
       export_region reg main_df biosys_siteid_dict writer);
  Ok (writer, printed ++ diagnostics).

(** *** community_analysis_export *)

Definition full_keep_list : list string :=
  ["Anglian"; "Midlands"; "South West"; "Southern"; "North West"; "North East";
   "Thames"; "Unknowns"; "Blanks"; "Positives"; "Gblocks"; "NTCs"; "TR";
   "Aberdeen"; "Perth"; "Eurocentrl"; "Dingwall"; "Dumfries"; "Galashiels";
   "Bowlblank"].

(** The loop over the samples.  For a control region the sample's frame gets
    the sample id as the header of its count column before it is merged. *)
Fixpoint merge_community (samples_otus : list Diatom_Sample)
    (keep_list control_regions : list string)
    (main_df : local (option dataframe)) : result (local (option dataframe)) :=
  match samples_otus with
  | [] => Ok main_df
  | sample :: rest =>
      if (1 <=? count sample) && bool_decide (region sample ∈ keep_list) then
        if bool_decide (region sample ∈ control_regions) then
          tab ← match otu_tab sample with
                | Some tab => Ok (rename_slice (sampleid sample) tab)
                | None => Raise AttributeError
                end;
          main_df ← merge_or_start main_df (Some (frame_of_slice tab));
          merge_community rest keep_list control_regions main_df
        else
          main_df ← merge_or_start main_df (frame_of sample);
          merge_community rest keep_list control_regions main_df
      else merge_community rest keep_list control_regions main_df
  end.

(** [df.transpose()]: one row per count column. *)
Record transposed : Type := mk_transposed {
  t_taxa : list string;
  t_samples : list (string * list Z)
}.

Definition transpose (df : dataframe) : transposed :=
  mk_transposed (fst <$> df_rows df)
    (imap (fun i col => (col, (fun row => default 0 (snd row !! i)) <$> df_rows df))
          (df_cols df)).

(** Returns the sheet written to otus_all.xlsx. *)
Definition community_analysis_export (samples_otus : list Diatom_Sample)
    (keep_list control_regions : list string) : result transposed :=
  first ← match keep_list with
          | first :: _ => Ok first
          | [] => Raise IndexError
          end;
  let keep_list := if bool_decide (first = "all") then full_keep_list else keep_list in
  main_df ← merge_community samples_otus keep_list control_regions Unbound;
  main ← read_local main_df;
  df ← format_df main;
  Ok (transpose df).

(** ** get_region_list *)

Definition get_region_list (sample_list : list Diatom_Sample) : list string :=
  let regions_all := region <$> sample_list in
  let region_unique :=
    foldl (fun region_unique region =>
             if bool_decide (region ∈ region_unique) then region_unique
             else region_unique ++ [region])
          [] regions_all in
  filter (fun x => x <> "nan") region_unique.

(** ** main: the exports

    The loop [for region in region_list: filter_otus_by_region(...)] on the
    writer, then the community export.  The lines printed are collected in
    order. *)

Fixpoint export_regions (region_list : list string) (samples_otus : list Diatom_Sample)
    (writer : list sheet) (control_regions : list string)
    : result (list sheet * list string) :=
  match region_list with
  | [] => Ok (writer, [])
  | reg :: rest =>
      '(writer, printed) ← filter_otus_by_region reg samples_otus writer control_regions;
      '(writer, printed') ← export_regions rest samples_otus writer control_regions;
      Ok (writer, printed ++ printed')
  end.

(** The end of [main], from the registry [samples_otus] on: the workbook
    sheets, the diagnostics and the community sheet. *)
Definition main_exports (samples_otus : list Diatom_Sample) (writer : list sheet)
    : result (list sheet * list string * transposed) :=
  let region_list := get_region_list samples_otus in
  '(writer, printed) ← export_regions region_list samples_otus writer control_regions;
  community ← community_analysis_export samples_otus community_analysis_to_keep_list
                                         control_regions;
  Ok (writer, printed, community).

(** ** import_metadata_ea, import_metadata_sepa

    A row of the metadata sheet, with the columns the function selects. *)

Record ea_row : Type := mk_ea_row {
  ea_Region : pyval;
  ea_Area : pyval;
  ea_SiteID : pyval;
  ea_WaterBody : pyval;
  ea_SiteName : pyval;
  ea_SampleId : pyval;
  ea_Barcode_R : pyval;
  ea_PRN : pyval;
  ea_Folder : pyval;
  ea_SampleDate : pyval
}.

Definition ea_sample (row : ea_row) : result Diatom_Sample :=
  Diatom_Sample_init (ea_SampleId row) (ea_SiteID row) (ea_Area row) (ea_Region row)
                     (ea_PRN row) (ea_SiteName row) (ea_SampleDate row)
                     (ea_Barcode_R row) (ea_Folder row).

Fixpoint import_metadata_ea (rows : list ea_row) : result (list Diatom_Sample) :=
  match rows with
  | [] => Ok []
  | row :: rest =>
      diatom_sample_info ← ea_sample row;
      samples_list ← import_metadata_ea rest;
      Ok (diatom_sample_info :: samples_list)
  end.

Record sepa_row : Type := mk_sepa_row {
  sepa_region : pyval;
  sepa_site_name : pyval;
  sepa_sepa_num : pyval;
  sepa_sample_date : pyval
}.

Definition sepa_sample (row : sepa_row) : result Diatom_Sample :=
  sepa_num ← try_except (z ← py_int (sepa_sepa_num row); Ok (pretty z)) is_ValueError
                        (Ok (py_str (sepa_sepa_num row)));
  let region := get_capital (py_str (sepa_region row)) in
  let site_name := py_str (sepa_site_name row) in
  let sample_date := py_str (sepa_sample_date row) in
  Diatom_Sample_init (PyStr sepa_num) (PyStr "1") (PyStr "area") (PyStr region)
                     (PyStr sepa_num) (PyStr site_name) (PyStr sample_date)
                     (PyStr sepa_num) (PyStr sepa_num).

Fixpoint import_metadata_sepa (rows : list sepa_row) : result (list Diatom_Sample) :=
  match rows with
  | [] => Ok []
  | row :: rest =>
      diatom_sample_info ← sepa_sample row;
      samples_list ← import_metadata_sepa rest;
      Ok (diatom_sample_info :: samples_list)
  end.

(** ** import_extraction_sheets

    [plate_sheet] is one sheet of the extraction workbook as the loops read
    it after [set_index]: its name and, row by row, the cells under the
    column labels 1, 2, ... (the layout of a plate sheet: the first column
    holds the row letters and becomes the index, the header row holds the
    column numbers).  A sheet without rows is the empty sheet that the
    function skips. *)

Record plate_sheet : Type := mk_plate {
  plate_name : string;
  plate_cells : list (list pyval)
}.

(** [str(int(cell)).upper().strip()], or the same on [str(cell)] when
    [int] raises ValueError. *)
Definition samplesheet_id (cell : pyval) : result string :=
  try_except (z ← py_int cell; Ok (strip (upper (pretty z)))) is_ValueError
             (Ok (strip (upper (py_str cell)))).

(** The body of the loop over [samples] for one cell: a sample whose folder
    is the cell's id gets its plate data when it has no plate attribute yet
    (AttributeError caught), and a note when it has a plate. *)
Definition locate_sample (sheet_name : string) (row col : Z)
    (sur_coords : list (Z * Z)) (id : string) (sample : Diatom_Sample)
    : Diatom_Sample :=
  if bool_decide (folder sample = id) then
    match plate sample with
    | Some on_plate =>
        if negb (bool_decide (on_plate = ""))
        then amend_sample_note sample ("Sample also found on " +:+ sheet_name)
        else sample
    | None => assign_surrounding_samples sample sur_coords row col sheet_name
    end
  else sample.

(** The loop over the columns of one row, [col] being the label of the
    first cell of [cells]. *)
Fixpoint scan_plate_row (sheet_name : string) (row col : Z) (cells : list pyval)
    (samples : list Diatom_Sample) : result (list Diatom_Sample) :=
  match cells with
  | [] => Ok samples
  | cell :: rest =>
      id ← samplesheet_id cell;
      let sur_coords := get_surrounding_coords row col in
      scan_plate_row sheet_name row (col + 1) rest
                     (locate_sample sheet_name row col sur_coords id <$> samples)
  end.

(** The loop over the rows, [row] being the position of the first row of
    [rows]. *)
Fixpoint scan_plate_rows (sheet_name : string) (row : Z) (rows : list (list pyval))
    (samples : list Diatom_Sample) : result (list Diatom_Sample) :=
  match rows with
  | [] => Ok samples
  | cells :: rest =>
      samples ← scan_plate_row sheet_name row 1 cells samples;
      scan_plate_rows sheet_name (row + 1) rest samples
  end.

(** The loop over the sheets.  An exception ends the program: [main]
    catches FileNotFoundError only. *)
Fixpoint import_extraction_sheets (sheets : list plate_sheet)
    (samples : list Diatom_Sample) : result (list Diatom_Sample) :=
  match sheets with
  | [] => Ok samples
  | sheet :: rest =>
      samples ← (if bool_decide (plate_cells sheet = []) then Ok samples
                 else scan_plate_rows (plate_name sheet) 0 (plate_cells sheet) samples);
      import_extraction_sheets rest samples
  end.

(** ** save_sample_info

    The text written to the interim file inter.text, line by line, before
    pandas reads it back. *)

Definition newline : string := String (ascii_of_nat 10) "".

Definition sample_info_header : string :=
  "SampleID,SiteID,Region,Area,PRN,Site Name,Sample Date,Barcode,Date of analysis,"
  +:+ "BatchNum,Sequence Counts,Pass/Fail,FolderNumber,Notes" +:+ newline.

Definition sample_info_line (sample : Diatom_Sample) : string :=
  sampleid sample +:+ "," +:+ siteid sample +:+ "," +:+ region sample +:+ "," +:+
  area sample +:+ "," +:+ py_str (prn sample) +:+ "," +:+ sitename sample +:+ "," +:+
  py_str (sampledate sample) +:+ "," +:+ py_str (barcode sample) +:+ "," +:+
  analysis_date sample +:+ "," +:+ batch_num sample +:+ "," +:+
  pretty (count sample) +:+ "," +:+ pass_fail sample +:+ "," +:+
  folder sample +:+ "," +:+ note sample +:+ newline.

Definition save_sample_info_interim (sample_list : list Diatom_Sample) : list string :=
  sample_info_header
  :: (sample_info_line <$> filter (fun sample => region sample <> "Control") sample_list).

(** ** Proof-side predicates and reference inputs *)

(** [updated s s']: [s'] is [s], possibly after assign_most_sim_sample. *)
Definition updated (s s' : Diatom_Sample) : Prop :=
  s' = s \/ exists (x : float) (name : string), s' = assign_most_sim_sample s x name.

(** The exceptions of the pairwise loop: never StatisticsError. *)
Definition scoring_exn (e : exn) : Prop :=
  e = OverflowError \/ e = ValueError \/ e = ZeroDivisionError \/ e = TypeError.

(** Every character of the string passes the test. *)
Fixpoint str_forall (f : ascii -> bool) (s : string) : bool :=
  match s with
  | EmptyString => true
  | String c s' => f c && str_forall f s'
  end.

(** Text of ASCII characters only: every character code is below 128. *)
Definition ascii_text (s : string) : Prop :=
  str_forall (fun c => (N_of_ascii c <? 128)%N) s = true.

(** The characters of a printed int. *)
Definition is_int_char (c : ascii) : bool :=
  match digit_of_ascii c with
  | Some _ => true
  | None => Ascii.eqb c "-"
  end.

(** The last character of a string. *)
Fixpoint str_last (s : string) : option ascii :=
  match s with
  | EmptyString => None
  | String c EmptyString => Some c
  | String _ s' => str_last s'
  end.

(** A frame with one taxon in both samples, one only in sample 0, thirteen
    only in sample 1 and three in neither. *)
Definition lopsided_frame : table2 :=
  [("t", 4, 9); ("t", 2, 0)] ++ replicate 13 ("t", 0, 6) ++ replicate 3 ("t", 0, 0).

(** A blank of run 3 as the import loop holds it before [sort_control]. *)
Definition blank_B12S3 : Diatom_Sample :=
  {| folder := "B12S3"; sampleid := "FB12S3"; siteid := no_value; area := no_value;
     region := "Control"; reg_area := None; prn := PyStr no_value;
     sitename := no_value; sampledate := PyStr no_value; barcode := PyStr no_value;
     batch_num := "Run_3"; count := 12; pass_fail := "Unsuccessful";
     analysis_date := "18-01-19";
     otu_tab := Some (mk_slice "B12S3" [("EC", 12)]); sim := NumInt 0;
     sim_sample := no_value; note := ""; plate_loc := None; sur_samples := None;
     plate := None |}.

(** Sample 5 of the metadata sheet (region Anglian). *)
Definition sample_5 : result Diatom_Sample :=
  Diatom_Sample_init (PyInt 101) (PyInt 7) (PyStr "north") (PyStr "anglian")
    (PyInt 7) (PyStr "River Wensum") (PyStr "01/02/19") (PyStr "BC1") (PyInt 5).

(** Two runs that both have a column for folder 5: the first sums to
    exactly 3000, the second to 10. *)
Definition run_3 : otu_file :=
  mk_file "Run_3.tsv" ["EC"; "IE"] [("5.S12", [2999; 1])].
Definition run_4 : otu_file :=
  mk_file "Run_4.tsv" ["EC"; "IE"] [("5.S40", [4; 6])].

(** The registry after the import of [files], and its counts and verdicts. *)
Definition registry_after (files : list otu_file) : result (list Diatom_Sample) :=
  s ← sample_5; import_otu_tables_main files [s].

Definition verdicts (registry : result (list Diatom_Sample))
    : result (list (Z * string)) :=
  match registry with
  | Ok sample_list => Ok ((fun s => (count s, pass_fail s)) <$> sample_list)
  | Raise e => Raise e
  end.

(** Both exports on a registry of one sample: the sheet of its region and
    the community sheet. *)
Definition export_both (registry : result Diatom_Sample)
    : result (list sheet * list string) * result transposed :=
  match registry with
  | Ok s =>
      (filter_otus_by_region (region s) [s] [] control_regions,
       community_analysis_export [s] community_analysis_to_keep_list control_regions)
  | Raise e => (Raise e, Raise e)
  end.

(** A sample as the pipeline holds it before the similarity pass: built by
    the constructor, given its results and, when [well] is given, its place
    on a plate sheet. *)
Definition lab_sample (folder_number : Z) (rows : list (string * Z))
    (well : option (string * Z * Z)) : result Diatom_Sample :=
  match Diatom_Sample_init (PyInt (100 + folder_number)) (PyInt 7) (PyStr "north")
          (PyStr "anglian") (PyInt 7) (PyStr "River Wensum") (PyStr "01/02/19")
          (PyStr "BC1") (PyInt folder_number) with
  | Ok s =>
      let s := assign_results s (mk_slice (pretty folder_number) rows) "Run_3.tsv" in
      Ok match well with
         | Some (sheet_name, row, col) =>
             assign_surrounding_samples s (get_surrounding_coords row col) row col
                                        sheet_name
         | None => s
         end
  | Raise e => Raise e
  end.

(** All the values, or the first exception. *)
Fixpoint collect {A} (items : list (result A)) : result (list A) :=
  match items with
  | [] => Ok []
  | item :: rest =>
      match item, collect rest with
      | Ok a, Ok l => Ok (a :: l)
      | Raise e, _ => Raise e
      | _, Raise e => Raise e
      end
  end.

(** Samples 11 and 12 in adjacent wells of Plate1, sharing three taxa, with
    a fourth only in sample 11; sample 13 next to them, which failed; sample
    14 alone on Plate2. *)
Definition plate_registry : list Diatom_Sample :=
  Eval vm_compute in
    match collect
            [lab_sample 11 [("t1", 2000); ("t2", 1500); ("t3", 800); ("t4", 5)]
                        (Some ("Plate1", 3, 6));
             lab_sample 12 [("t1", 1800); ("t2", 1900); ("t3", 700); ("t4", 0)]
                        (Some ("Plate1", 3, 7));
             lab_sample 13 [("t1", 30); ("t2", 20); ("t3", 0); ("t4", 0)]
                        (Some ("Plate1", 3, 8));
             lab_sample 14 [("t1", 2500); ("t2", 2500); ("t3", 0); ("t4", 0)]
                        (Some ("Plate2", 3, 6))] with
    | Ok sample_list => sample_list
    | Raise _ => []
    end.

(** Samples 11 and 12 in adjacent wells of Plate1, both passed, whose
    tables have no taxon in common: their merged frame has no row. *)
Definition disjoint_registry : list Diatom_Sample :=
  Eval vm_compute in
    match collect
            [lab_sample 11 [("t1", 2000); ("t2", 1500)] (Some ("Plate1", 3, 6));
             lab_sample 12 [("u1", 1800); ("u2", 1900)] (Some ("Plate1", 3, 7))] with
    | Ok sample_list => sample_list
    | Raise _ => []
    end.

(** Two samples that passed, with no extraction sheet read for them. *)
Definition unplated_registry : list Diatom_Sample :=
  Eval vm_compute in
    match collect
            [lab_sample 11 [("t1", 2000); ("t2", 1500)] None;
             lab_sample 12 [("t1", 1800); ("t2", 1900)] None] with
    | Ok sample_list => sample_list
    | Raise _ => []
    end.

(** A word of [split]: not empty, no whitespace. *)
Definition is_word (w : string) : Prop :=
  w <> "" /\ str_forall (fun c => negb (is_py_space c)) w = true.

(** The words with one space between them. *)
Fixpoint join_words (words : list string) : string :=
  match words with
  | [] => ""
  | [w] => w
  | w :: rest => w +:+ " " +:+ join_words rest
  end.

(** Text that is not empty and holds whitespace only: a truthy cell from
    which [split] gets no word. *)
Definition blank_text (v : pyval) : Prop :=
  exists r : string, v = PyStr r /\ r <> "" /\ str_forall is_py_space r = true.

(** The part of a control's folder that sort_control keeps: the text before
    the last capital S, or the whole folder when there is none. *)
Definition control_prefix (folder : string) : string :=
  if rfind_S folder =? -1 then folder else str_take (rfind_S folder) folder.

Definition no_dot (s : string) : bool :=
  str_forall (fun c => negb (Ascii.eqb c ".")) s.

(** A sample with the fields that assign_results writes blanked: what is
    left identifies the sample and holds its plate and similarity data. *)
Definition without_results (s : Diatom_Sample) : Diatom_Sample :=
  with_otu_tab None
    (with_count 0
       (with_pass_fail "" (with_batch_num "" (with_analysis_date "" s)))).

(** What the import may do to a sample already in the registry: rewrite its
    results, never lower a Successful verdict, and nothing at all once the
    count exceeds 3000. *)
Definition kept (s s' : Diatom_Sample) : Prop :=
  without_results s' = without_results s
  /\ (pass_fail s = "Successful" -> pass_fail s' = "Successful")
  /\ (3000 < count s -> s' = s).

(** The headers of a file after renaming, with their columns. *)
Definition renamed_columns (otus : otu_file) : list (string * list Z) :=
  prod_map new_header id <$> columns otus.

(** A file whose count columns can be told apart after the renaming, none
    of them taking the name of the taxon column. *)
Definition distinct_headers (otus : otu_file) : Prop :=
  NoDup (fst <$> renamed_columns otus)
  /\ "PrefTaxon" ∉ (fst <$> renamed_columns otus).

Global Instance distinct_headers_dec (otus : otu_file) :
  Decision (distinct_headers otus).
Proof. unfold distinct_headers. apply _. Defined.

(** The folder a control sample gets from the header of its column. *)
Definition control_folder (header : string) : string :=
  match init_folder (PyStr header) with
  | Ok self_folder => self_folder
  | Raise _ => header
  end.

(** A column that cannot become a control sample: nothing is left of its
    folder before the last capital S. *)
Definition unusable_control (header : string) : Prop :=
  control_prefix (control_folder header) = "".

(** Reference inputs: the registry of the metadata sheet with sample 5, a
    run in which sample 5 passes with 3500 reads and two columns belong to
    no sample, and the registry after that run. *)
Definition registry_5 : list Diatom_Sample :=
  Eval vm_compute in match sample_5 with Ok s => [s] | Raise _ => [] end.

Definition run_5 : otu_file :=
  mk_file "Run_5.tsv" ["EC"; "IE"]
          [("5.S7", [3499; 1]); ("B12.S3", [12; 0]); ("NTC1.S9", [0; 0])].

(** A run with a column that is the folder of no sample and whose only
    capital S comes first. *)
Definition run_S : otu_file :=
  mk_file "Run_6.tsv" ["EC"; "IE"] [("5.S3", [40; 2]); ("S1.S9", [7; 0])].

Definition registry_after_run_5 : list Diatom_Sample :=
  Eval vm_compute in
    match import_one_file run_5 registry_5 with Ok l => l | Raise _ => [] end.

(** A metadata row the constructor accepts: the site id is absent or reads
    as an integer once its dots are removed, and it is not the case that
    the region is blank text while the area is a number or NaN. *)
Definition ea_row_accepted (row : ea_row) : Prop :=
  ~ (truthy (ea_SiteID row) = true
     /\ parse_int (remove_dots (py_str (ea_SiteID row))) = None)
  /\ ~ (blank_text (ea_Region row) /\ truthy (ea_Area row) = true
        /\ (forall a, ea_Area row <> PyStr a)).

(** Reference inputs: a sheet of two rows, the second with a site id that is
    not a number; a sample of region TR that passed, whose folder has
    neither 3 nor 4 as third character. *)
Definition ea_sheet : list ea_row :=
  [mk_ea_row (PyStr "anglian") (PyStr "north") (PyInt 7) PyNaN (PyStr "River Wensum")
             (PyInt 101) (PyStr "BC1") (PyInt 7) (PyInt 5) (PyStr "01/02/19");
   mk_ea_row (PyStr "thames") (PyStr "west") (PyStr "ABC") PyNaN (PyStr "River Kennet")
             (PyInt 102) (PyStr "BC2") (PyInt 8) (PyInt 6) (PyStr "02/02/19")].

Definition unregioned_registry : list Diatom_Sample :=
  Eval vm_compute in
    match Diatom_Sample_init (PyInt 101) (PyInt 7) (PyStr "north") PyNone (PyInt 7)
                             (PyStr "River Wensum") (PyStr "01/02/19") (PyStr "BC1")
                             (PyInt 5)
    with Ok s => [s] | Raise _ => [] end.

Definition sepa_sheet : list sepa_row :=
  [mk_sepa_row (PyStr "dingwall") (PyStr "River Conon") (PyInt 4401) (PyStr "03/02/19");
   mk_sepa_row PyNaN (PyStr "River Beauly") (PyStr "A17") PyNaN].

Definition tr_sample : Diatom_Sample :=
  {| folder := "TR5"; sampleid := "TR5_Run_3"; siteid := no_value; area := no_value;
     region := "TR"; reg_area := None; prn := PyStr no_value;
     sitename := no_value; sampledate := PyStr no_value; barcode := PyStr no_value;
     batch_num := "Run_3"; count := 4000; pass_fail := "Successful";
     analysis_date := "18-01-19";
     otu_tab := Some (mk_slice "TR5_Run_3" [("EC", 4000)]); sim := NumInt 0;
     sim_sample := no_value; note := ""; plate_loc := None; sur_samples := None;
     plate := None |}.

(** A sample with its note and its plate data blanked. *)
Definition without_location (s : Diatom_Sample) : Diatom_Sample :=
  with_note "" (with_plate_loc None (with_sur_samples None (with_plate None s))).

(** A cell as the loops of import_extraction_sheets visit it: the name of
    its sheet, its row position, its column label and its content. *)
Record plate_cell : Type := mk_cell {
  cell_sheet : string;
  cell_row : Z;
  cell_col : Z;
  cell_value : pyval
}.

(** The cells in the order in which the loops visit them: sheet by sheet,
    row by row from position 0, column by column from label 1. *)
Fixpoint row_cells (sheet_name : string) (row col : Z) (cells : list pyval)
    : list plate_cell :=
  match cells with
  | [] => []
  | cell :: rest =>
      mk_cell sheet_name row col cell :: row_cells sheet_name row (col + 1) rest
  end.

Fixpoint rows_cells (sheet_name : string) (row : Z) (rows : list (list pyval))
    : list plate_cell :=
  match rows with
  | [] => []
  | cells :: rest =>
      row_cells sheet_name row 1 cells ++ rows_cells sheet_name (row + 1) rest
  end.

Definition visited_cells (sheets : list plate_sheet) : list plate_cell :=
  sheet ← sheets; rows_cells (plate_name sheet) 0 (plate_cells sheet).

(** The cell holds the id of the sample: what is read from it is the
    sample's folder. *)
Definition holds_id_of (s : Diatom_Sample) (c : plate_cell) : Prop :=
  samplesheet_id (cell_value c) = Ok (folder s).

(** What the visit of one cell does to one sample. *)
Definition visit (s : Diatom_Sample) (c : plate_cell) : Diatom_Sample :=
  match samplesheet_id (cell_value c) with
  | Ok id =>
      locate_sample (cell_sheet c) (cell_row c) (cell_col c)
                    (get_surrounding_coords (cell_row c) (cell_col c)) id s
  | Raise _ => s
  end.

(** Reference input: a plate sheet with sample 5 in its first row and
    sample 6 in its second row, and the two samples. *)
Definition plate_A : plate_sheet :=
  mk_plate "PlateA" [[PyInt 5; PyNaN]; [PyStr "b12"; PyInt 6]].

Definition registry_5_6 : list Diatom_Sample :=
  Eval vm_compute in
    match collect [lab_sample 5 [("t1", 2000)] None; lab_sample 6 [("t1", 1800)] None]
    with Ok sample_list => sample_list | Raise _ => [] end.

(** [sur] is a scored neighbour of the centre [c] with coefficient [x]: both
    are on the same plate, the location of [sur] is among the surrounding
    coordinates of [c], and [x] is the coefficient of their merged tables. *)
Definition scored_neighbour (c sur : Diatom_Sample) (x : float) : Prop :=
  exists (on_plate : string) (coords : list (Z * Z)) (loc : Z * Z)
         (cent_df sur_df : otu_slice),
    plate c = Some on_plate /\ plate sur = Some on_plate
    /\ sur_samples c = Some coords /\ plate_loc sur = Some loc /\ loc ∈ coords
    /\ otu_tab c = Some cent_df /\ otu_tab sur = Some sur_df
    /\ baroni_urbani_buser_coefficient (pd_merge cent_df sur_df) = Ok x.

(** A sheet in which every cell holds a value. *)
Definition no_empty_object (sheet : plate_sheet) : Prop :=
  Forall (Forall (fun cell => cell <> PyNone)) (plate_cells sheet).

(** Reference input: a sample whose folder has a lower-case letter, and a
    sheet that names it in upper case. *)
Definition sample_ab1 : Diatom_Sample :=
  {| folder := "ab1"; sampleid := "101"; siteid := "7"; area := "North";
     region := "Anglian"; reg_area := None; prn := PyInt 7;
     sitename := "River Wensum"; sampledate := PyStr "01/02/19";
     barcode := PyStr "BC1"; batch_num := no_value; count := 0;
     pass_fail := "Unsuccessful"; analysis_date := no_value; otu_tab := None;
     sim := NumInt 0; sim_sample := no_value; note := ""; plate_loc := None;
     sur_samples := None; plate := None |}.

Definition plate_B : plate_sheet :=
  mk_plate "PlateB" [[PyStr "ab1"; PyStr "AB1"]].

Global Instance present_dec (count : Z) : Decision (present count).
Proof. unfold present. apply _. Defined.

(** The number of rows of a frame that pass a test on the two counts. *)
Definition count_rows (P : Z -> Z -> Prop) `{!forall x y, Decision (P x y)}
    (df : list (string * Z * Z)) : Z :=
  Z.of_nat (length (filter (fun row => P (snd (fst row)) (snd row)) df)).

(** Reference input: two tables over the same four taxa. *)
Definition slice_11 : otu_slice :=
  mk_slice "11" [("t1", 2000); ("t2", 1500); ("t3", 800); ("t4", 5)].
Definition slice_12 : otu_slice :=
  mk_slice "12" [("t1", 1800); ("t2", 1900); ("t3", 0); ("t4", 0)].

(** The number of commas of a text: one less than the number of fields a
    reader of comma-separated values sees in it. *)
Fixpoint count_commas (s : string) : Z :=
  match s with
  | EmptyString => 0
  | String c s' => (if Ascii.eqb c "," then 1 else 0) + count_commas s'
  end.

(** The texts of a sample that go into its line, apart from the count. *)
Definition sample_info_texts (sample : Diatom_Sample) : list string :=
  [sampleid sample; siteid sample; region sample; area sample; py_str (prn sample);
   sitename sample; py_str (sampledate sample); py_str (barcode sample);
   analysis_date sample; batch_num sample; pass_fail sample; folder sample;
   note sample].

(** A sample that the export of region [reg] takes: it is of the region and
    has at least 3000 reads. *)
Definition exported_in (reg : string) (s : Diatom_Sample) : Prop :=
  region s = reg /\ 3000 <= count s.

Global Instance exported_in_dec (reg : string) (s : Diatom_Sample) :
  Decision (exported_in reg s).
Proof. unfold exported_in. apply _. Defined.

(** The headers of the count columns that the export of region [reg]
    merges, in the order of the registry. *)
Definition exported_headers (reg : string) (samples_otus : list Diatom_Sample)
    : list string :=
  slice_col <$> omap otu_tab (filter (exported_in reg) samples_otus).

(** * Proofs *)

(** ** Binary64 arithmetic on doubles of magnitude at least one

    The operations of the coefficient are followed on the specification of
    the primitive floats ([SpecFloat]): conversion of a positive int,
    addition, square root and division keep the [normal64] shape, which
    excludes zero, NaN and the infinities. *)

Module Binary64.


Lemma digits2_pos_bounds (p : positive) :
  2 ^ (Z.pos (digits2_pos p) - 1) <= Z.pos p < 2 ^ Z.pos (digits2_pos p).
Proof.
  induction p as [p IH|p IH|]; cbn [digits2_pos].
  - rewrite Pos2Z.inj_succ, Z.pow_succ_r by lia.
    replace (Z.succ (Z.pos (digits2_pos p)) - 1) with (Z.succ (Z.pos (digits2_pos p) - 1)) by lia.
    rewrite Z.pow_succ_r by lia. lia.
  - rewrite Pos2Z.inj_succ, Z.pow_succ_r by lia.
    replace (Z.succ (Z.pos (digits2_pos p)) - 1) with (Z.succ (Z.pos (digits2_pos p) - 1)) by lia.
    rewrite Z.pow_succ_r by lia. lia.
  - cbn. lia.
Qed.

Lemma digits2_pos_unique (p : positive) (k : Z) :
  2 ^ (k - 1) <= Z.pos p < 2 ^ k -> Z.pos (digits2_pos p) = k.
Proof.
  intros [Hlo Hhi]. pose proof (digits2_pos_bounds p) as [Dlo Dhi].
  assert (0 < k).
  { destruct (Z_lt_le_dec 0 k) as [|Hk]; [done|].
    assert (2 ^ k <= 2 ^ 0) by (apply Z.pow_le_mono_r; lia).
    change (2 ^ 0) with 1 in *. lia. }
  destruct (Z_lt_le_dec (Z.pos (digits2_pos p)) k) as [Hlt|Hge].
  - assert (2 ^ Z.pos (digits2_pos p) <= 2 ^ (k - 1)) by (apply Z.pow_le_mono_r; lia). lia.
  - destruct (Z_lt_le_dec k (Z.pos (digits2_pos p))) as [Hlt|Hle]; [|lia].
    assert (2 ^ k <= 2 ^ (Z.pos (digits2_pos p) - 1)) by (apply Z.pow_le_mono_r; lia). lia.
Qed.

Lemma digits2_pos_mono (p q : positive) :
  (p <= q)%positive -> Z.pos (digits2_pos p) <= Z.pos (digits2_pos q).
Proof.
  intros Hpq. pose proof (digits2_pos_bounds p) as [Plo _].
  pose proof (digits2_pos_bounds q) as [_ Qhi].
  destruct (Z_lt_le_dec (Z.pos (digits2_pos q)) (Z.pos (digits2_pos p))) as [Hlt|]; [|done].
  assert (2 ^ Z.pos (digits2_pos q) <= 2 ^ (Z.pos (digits2_pos p) - 1))
    by (apply Z.pow_le_mono_r; lia).
  lia.
Qed.

Lemma digits2_pos_iter_xO (d p : positive) :
  digits2_pos (Pos.iter xO p d) = (digits2_pos p + d)%positive.
Proof.
  revert p. induction d as [d IH|d IH|]; intros p; cbn [Pos.iter digits2_pos].
  - rewrite !IH. lia.
  - rewrite !IH. lia.
  - lia.
Qed.

Lemma iter_xO_ge (d p : positive) : (p <= Pos.iter xO p d)%positive.
Proof.
  revert p. induction d as [d IH|d IH|]; intros p; cbn [Pos.iter].
  - etrans; [apply IH|]. etrans; [apply IH|]. lia.
  - etrans; [apply IH|]. apply IH.
  - lia.
Qed.

(** Right shifts of the rounding record. *)
Lemma shr_1_digits (s : shr_record) :
  Zdigits2 (shr_m (shr_1 s)) = Z.max 0 (Zdigits2 (shr_m s) - 1).
Proof.
  destruct s as [m r t]. unfold shr_1.
  destruct m as [|[p|p|]|[p|p|]]; cbn [shr_m Zdigits2 digits2_pos]; lia.
Qed.

Lemma shr_1_nonneg (s : shr_record) : 0 <= shr_m s -> 0 <= shr_m (shr_1 s).
Proof.
  destruct s as [m r t]. unfold shr_1.
  destruct m as [|[p|p|]|[p|p|]]; cbn [shr_m]; lia.
Qed.

Lemma iter_shr_1_digits (n : positive) (s : shr_record) :
  Zdigits2 (shr_m (SpecFloat.iter_pos shr_1 n s)) = Z.max 0 (Zdigits2 (shr_m s) - Z.pos n).
Proof.
  revert s. induction n as [n IH|n IH|]; intros s; cbn [SpecFloat.iter_pos].
  - rewrite !IH, shr_1_digits. lia.
  - rewrite !IH. lia.
  - apply shr_1_digits.
Qed.

Lemma iter_shr_1_nonneg (n : positive) (s : shr_record) :
  0 <= shr_m s -> 0 <= shr_m (SpecFloat.iter_pos shr_1 n s).
Proof.
  revert s. induction n as [n IH|n IH|]; intros s Hs; cbn [SpecFloat.iter_pos].
  - by apply IH, IH, shr_1_nonneg.
  - by apply IH, IH.
  - by apply shr_1_nonneg.
Qed.

Lemma shr_record_of_loc_m (m : Z) (l : location) : shr_m (shr_record_of_loc m l) = m.
Proof. by destruct l as [|[]]. Qed.

(** First normalisation step: a mantissa of at least 53 bits is cut to exactly 53. *)
Lemma shr_fexp_cut (mx : positive) (ex : Z) (l : location) :
  53 <= Z.pos (digits2_pos mx) ->
  -52 <= Z.pos (digits2_pos mx) + ex - 53 ->
  exists (m : positive) (r : shr_record),
    shr_fexp prec emax (Z.pos mx) ex l = (r, Z.pos (digits2_pos mx) + ex - 53)
    /\ shr_m r = Z.pos m /\ Z.pos (digits2_pos m) = 53.
Proof.
  intros Hd He. unfold shr_fexp, fexp, SpecFloat.emin, emax, prec.
  cbn [Zdigits2].
  rewrite Z.max_l by lia.
  destruct (Z.pos (digits2_pos mx) + ex - 53 - ex) as [|n|n] eqn:Hn; cbn [shr]; try lia.
  - exists mx, (shr_record_of_loc (Z.pos mx) l).
    rewrite shr_record_of_loc_m. split_and!; [f_equal; lia|done|lia].
  - set (r := SpecFloat.iter_pos shr_1 n (shr_record_of_loc (Z.pos mx) l)).
    assert (Hdig : Zdigits2 (shr_m r) = 53).
    { unfold r. rewrite iter_shr_1_digits, shr_record_of_loc_m. cbn [Zdigits2]. lia. }
    assert (Hpos : 0 <= shr_m r).
    { unfold r. apply iter_shr_1_nonneg. by rewrite shr_record_of_loc_m. }
    destruct (shr_m r) as [|m|m] eqn:Hm; cbn [Zdigits2] in Hdig; try lia.
    exists m, r. split_and!; [f_equal; lia|done|done].
Qed.

Lemma round_nearest_even_cases (m : Z) (l : location) :
  round_nearest_even m l = m \/ round_nearest_even m l = m + 1.
Proof. destruct l as [|[]]; cbn; [auto..| |auto]; destruct (Z.even m); auto. Qed.

Lemma binary_round_aux_normal (mx : positive) (ex : Z) (l : location) (K : Z) :
  53 <= Z.pos (digits2_pos mx) ->
  -52 <= Z.pos (digits2_pos mx) + ex - 53 ->
  Z.pos (digits2_pos mx) + ex - 52 <= K -> K <= 971 ->
  normal64 K (binary_round_aux prec emax false (Z.pos mx) ex l).
Proof.
  intros Hd He HK HK'. unfold binary_round_aux.
  destruct (shr_fexp_cut mx ex l Hd He) as (m & r & -> & Hm & Hdm).
  rewrite Hm.
  set (e1 := Z.pos (digits2_pos mx) + ex - 53) in *.
  pose proof (digits2_pos_bounds m) as Hb. rewrite Hdm in Hb.
  destruct (round_nearest_even_cases (Z.pos m) (loc_of_shr_record r)) as [->| ->].
  - destruct (shr_fexp_cut m e1 loc_Exact) as (m2 & r2 & -> & Hm2 & Hdm2); [lia..|].
    rewrite Hm2. rewrite Hdm.
    replace (53 + e1 - 53 <=? emax - prec) with true
      by (symmetry; apply Z.leb_le; unfold emax, prec; lia).
    exists m2, (53 + e1 - 53). split_and!; [done|done|lia|lia].
  - change (Z.pos m + 1) with (Z.pos (m + 1)).
    destruct (Z_lt_le_dec (Z.pos (m + 1)) (2 ^ 53)) as [Hlt|Hge].
    + assert (Hd1 : Z.pos (digits2_pos (m + 1)) = 53) by (apply digits2_pos_unique; lia).
      destruct (shr_fexp_cut (m + 1) e1 loc_Exact) as (m2 & r2 & -> & Hm2 & Hdm2); [lia..|].
      rewrite Hm2, Hd1.
      replace (53 + e1 - 53 <=? emax - prec) with true
        by (symmetry; apply Z.leb_le; unfold emax, prec; lia).
      exists m2, (53 + e1 - 53). split_and!; [done|done|lia|lia].
    + assert (Hd1 : Z.pos (digits2_pos (m + 1)) = 54) by (apply digits2_pos_unique; lia).
      destruct (shr_fexp_cut (m + 1) e1 loc_Exact) as (m2 & r2 & -> & Hm2 & Hdm2); [lia..|].
      rewrite Hm2, Hd1.
      replace (54 + e1 - 53 <=? emax - prec) with true
        by (symmetry; apply Z.leb_le; unfold emax, prec; lia).
      exists m2, (54 + e1 - 53). split_and!; [done|done|lia|lia].
Qed.

Lemma normal64_valid (K : Z) (x : spec_float) :
  K <= 971 -> normal64 K x -> valid_binary x = true.
Proof.
  intros HK (m & e & -> & Hd & He). cbn [SpecFloat.valid_binary].
  unfold bounded, canonical_mantissa, fexp, SpecFloat.emin, emax, prec.
  rewrite Hd. apply andb_true_intro; split; [apply Z.eqb_eq|apply Z.leb_le]; lia.
Qed.

Lemma normal64_weaken (K K' : Z) (x : spec_float) :
  K <= K' -> normal64 K x -> normal64 K' x.
Proof. intros HK (m & e & -> & Hd & He). exists m, e. split_and!; [done|done|lia|lia]. Qed.

(** Conversion of a positive integer: [binary_normalize] at exponent 0. *)
Lemma binary_normalize_pos_normal (p : positive) (K : Z) :
  Z.pos (digits2_pos p) - 52 <= K -> 1 <= K -> K <= 971 ->
  normal64 K (binary_normalize prec emax (Z.pos p) 0 false).
Proof.
  intros HK HK1 HK'. cbn [binary_normalize]. unfold binary_round, shl_align.
  unfold fexp, SpecFloat.emin, emax, prec.
  pose proof (Pos2Z.is_pos (digits2_pos p)) as Hp.
  rewrite Z.max_l by lia.
  destruct (Z.pos (digits2_pos p) + 0 - 53 - 0) as [|d|d] eqn:Hd.
  - apply binary_round_aux_normal; lia.
  - apply binary_round_aux_normal; lia.
  - apply binary_round_aux_normal; rewrite ?digits2_pos_iter_xO; lia.
Qed.

Lemma shl_align_digits (m : positive) (e ez : Z) :
  ez <= e ->
  Z.pos (digits2_pos (fst (shl_align m e ez))) = Z.pos (digits2_pos m) + (e - ez).
Proof.
  intros Hle. unfold shl_align.
  destruct (ez - e) as [|d|d] eqn:Hd; cbn [fst]; [lia|lia|].
  rewrite digits2_pos_iter_xO. lia.
Qed.

(** Sum of two normal positive doubles. *)
Lemma SFadd_normal (Kx Ky K : Z) (x y : spec_float) :
  normal64 Kx x -> normal64 Ky y -> Z.max Kx Ky + 2 <= K -> K <= 971 ->
  normal64 K (SFadd prec emax x y).
Proof.
  intros (mx & ex & -> & Hdx & Hex) (my & ey & -> & Hdy & Hey) HK HK'.
  cbn [SFadd cond_Zopp].
  set (ez := Z.min ex ey).
  set (sx := fst (shl_align mx ex ez)). set (sy := fst (shl_align my ey ez)).
  assert (Hsx : Z.pos (digits2_pos sx) = 53 + (ex - ez))
    by (unfold sx; rewrite shl_align_digits, Hdx; lia).
  assert (Hsy : Z.pos (digits2_pos sy) = 53 + (ey - ez))
    by (unfold sy; rewrite shl_align_digits, Hdy; lia).
  change (Z.pos sx + Z.pos sy) with (Z.pos (sx + sy)).
  cbn [binary_normalize]. unfold binary_round.
  pose proof (digits2_pos_mono sx (sx + sy) ltac:(lia)) as Hge1.
  pose proof (digits2_pos_mono sy (sx + sy) ltac:(lia)) as Hge2.
  assert (Hup : Z.pos (digits2_pos (sx + sy)) <= 54 + (Z.max ex ey - ez)).
  { pose proof (digits2_pos_bounds sx) as [_ Hx]. pose proof (digits2_pos_bounds sy) as [_ Hy].
    pose proof (digits2_pos_bounds (sx + sy)) as [Hs _].
    rewrite Hsx in Hx. rewrite Hsy in Hy.
    assert (2 ^ (53 + (ex - ez)) <= 2 ^ (53 + (Z.max ex ey - ez))) by (apply Z.pow_le_mono_r; lia).
    assert (2 ^ (53 + (ey - ez)) <= 2 ^ (53 + (Z.max ex ey - ez))) by (apply Z.pow_le_mono_r; lia).
    assert (Hlt : Z.pos (sx + sy) < 2 ^ (54 + (Z.max ex ey - ez))).
    { replace (54 + (Z.max ex ey - ez)) with (Z.succ (53 + (Z.max ex ey - ez))) by lia.
      rewrite Z.pow_succ_r by lia. lia. }
    destruct (Z_lt_le_dec (54 + (Z.max ex ey - ez)) (Z.pos (digits2_pos (sx + sy)))) as [Hc|]; [|done].
    assert (2 ^ (54 + (Z.max ex ey - ez)) <= 2 ^ (Z.pos (digits2_pos (sx + sy)) - 1))
      by (apply Z.pow_le_mono_r; lia).
    lia. }
  unfold shl_align, fexp, SpecFloat.emin, emax, prec.
  rewrite Z.max_l by lia.
  destruct (Z.pos (digits2_pos (sx + sy)) + ez - 53 - ez) as [|d|d] eqn:Hd; try lia.
  - apply binary_round_aux_normal; lia.
  - apply binary_round_aux_normal; lia.
Qed.

(** Square root of a normal positive double. *)
Lemma SFsqrt_normal (K K' : Z) (x : spec_float) :
  normal64 K x -> K / 2 - 25 <= K' -> K' <= 971 ->
  normal64 K' (SFsqrt prec emax x).
Proof.
  intros (mx & ex & -> & Hdx & Hex) HK HK'.
  cbn [SFsqrt]. unfold SFsqrt_core_binary. cbn [Zdigits2]. rewrite Hdx.
  unfold fexp, SpecFloat.emin, emax, prec. rewrite !Z.div2_div.
  set (e' := Z.min (Z.max ((53 + ex + 1) / 2 - 53) (3 - 1024 - 53)) (ex / 2)).
  assert (He' : e' = ex / 2 - 26) by (unfold e'; Z.div_mod_to_equations; lia).
  assert (Hs : ex - 2 * e' = 52 \/ ex - 2 * e' = 53) by (rewrite He'; Z.div_mod_to_equations; lia).
  pose proof (digits2_pos_bounds mx) as Hb. rewrite Hdx in Hb.
  change (2 ^ (53 - 1)) with 4503599627370496 in Hb.
  change (2 ^ 53) with 9007199254740992 in Hb.
  assert (Hex2 : ex / 2 <= K / 2) by (apply Z.div_le_mono; lia).
  assert (Hgoal : forall m' : Z,
    4503599627370496 * 4503599627370496 <= m' < 9007199254740992 * 9007199254740992 ->
    normal64 K'
      (let '(mz, ez, lz) :=
         (let (q, r) := Z.sqrtrem m' in
          (q, e', if r =? 0 then loc_Exact else loc_Inexact (if r <=? q then Lt else Gt)))
       in binary_round_aux 53 1024 false mz ez lz)).
  { intros m' Hm'. pose proof (Z.sqrtrem_spec m' ltac:(lia)) as Hsq.
    destruct (Z.sqrtrem m') as [q r]. destruct Hsq as [Hq Hr].
    assert (Hqlo : 4503599627370496 <= q) by nia.
    assert (Hqhi : q < 9007199254740992) by nia.
    destruct q as [|q|q]; try lia.
    assert (Hdq : Z.pos (digits2_pos q) = 53) by (apply digits2_pos_unique; cbn; lia).
    apply (binary_round_aux_normal q e' _ K'); Z.div_mod_to_equations; lia. }
  destruct Hs as [Hs|Hs]; rewrite Hs; rewrite Z.shiftl_mul_pow2 by lia; apply Hgoal.
  - change (2 ^ 52) with 4503599627370496. nia.
  - change (2 ^ 53) with 9007199254740992. nia.
Qed.

(** A normal double divided by itself is exactly one. *)
Lemma SFdiv_self_normal (K : Z) (x : spec_float) :
  normal64 K x -> SFdiv prec emax x x = S754_finite false 4503599627370496 (-52).
Proof.
  intros (mx & ex & -> & Hdx & Hex).
  cbn [SFdiv xorb]. unfold SFdiv_core_binary. rewrite !Z.sub_diag.
  change (Z.min (fexp prec emax 0) 0) with (-53).
  change (0 - -53) with 53.
  rewrite Z.shiftl_mul_pow2 by lia.
  assert (Hq : (Z.pos mx * 2 ^ 53) / Z.pos mx = 2 ^ 53)
    by (rewrite Z.mul_comm; apply Z.div_mul; lia).
  assert (Hr : (Z.pos mx * 2 ^ 53) mod Z.pos mx = 0)
    by (rewrite Z.mul_comm; apply Z.mod_mul; lia).
  unfold Z.div in Hq. unfold Z.modulo in Hr.
  destruct (Z.div_eucl (Z.pos mx * 2 ^ 53) (Z.pos mx)) as [q r].
  cbn [fst] in Hq. cbn [snd] in Hr. subst q r.
  replace (new_location (Z.pos mx) 0) with loc_Exact
    by (unfold new_location, new_location_even, new_location_odd; by destruct (Z.even _)).
  reflexivity.
Qed.

End Binary64.

Import Binary64.

(** ** The same facts on the primitive floats *)

Lemma Prim2SF_zero : Prim2SF 0%float = S754_zero false.
Proof. reflexivity. Qed.

Lemma float_of_int_zero : float_of_int 0 = Ok 0%float.
Proof. reflexivity. Qed.

Lemma float_of_int_normal (n k K : Z) :
  1 <= n < 2 ^ k -> k - 52 <= K -> 1 <= K -> K <= 971 ->
  exists f : float, float_of_int n = Ok f /\ normal64 K (Prim2SF f).
Proof.
  intros [Hlo Hhi] HkK HK1 HK. destruct n as [|p|p]; try lia.
  assert (Hd : Z.pos (digits2_pos p) <= k).
  { pose proof (digits2_pos_bounds p) as [Hb _].
    destruct (Z_lt_le_dec k (Z.pos (digits2_pos p))) as [Hc|]; [|done].
    assert (2 ^ k <= 2 ^ (Z.pos (digits2_pos p) - 1)) by (apply Z.pow_le_mono_r; lia).
    lia. }
  pose proof (binary_normalize_pos_normal p K ltac:(lia) HK1 HK) as Hn.
  pose proof (normal64_valid K _ HK Hn) as Hv.
  unfold float_of_int. destruct Hn as (m & e & Hx & Hm & He).
  rewrite Hx in Hv |- *. exists (SF2Prim (S754_finite false m e)).
  split; [done|]. rewrite Prim2SF_SF2Prim by done. by exists m, e.
Qed.

Lemma add_normal (Kx Ky K : Z) (x y : float) :
  normal64 Kx (Prim2SF x) -> normal64 Ky (Prim2SF y) ->
  Z.max Kx Ky + 2 <= K -> K <= 971 ->
  normal64 K (Prim2SF (x + y)).
Proof. intros Hx Hy HK HK'. rewrite add_spec. by eapply SFadd_normal. Qed.

Lemma add_zero_l (K : Z) (y : float) :
  normal64 K (Prim2SF y) -> (0 + y)%float = y.
Proof.
  intros (m & e & Hy & _). apply Prim2SF_inj.
  by rewrite add_spec, Prim2SF_zero, Hy.
Qed.

Lemma add_zero_r (K : Z) (x : float) :
  normal64 K (Prim2SF x) -> (x + 0)%float = x.
Proof.
  intros (m & e & Hx & _). apply Prim2SF_inj.
  by rewrite add_spec, Prim2SF_zero, Hx.
Qed.

Lemma sqrt_normal (K K' : Z) (x : float) :
  normal64 K (Prim2SF x) -> K / 2 - 25 <= K' -> K' <= 971 ->
  normal64 K' (Prim2SF (sqrt x)).
Proof. intros Hx HK HK'. rewrite sqrt_spec. by eapply SFsqrt_normal. Qed.

Lemma ltb_zero_normal (K : Z) (x : float) :
  normal64 K (Prim2SF x) -> (x <? 0)%float = false.
Proof. intros (m & e & Hx & _). by rewrite FloatAxioms.ltb_spec, Prim2SF_zero, Hx. Qed.

Lemma eqb_zero_normal (K : Z) (x : float) :
  normal64 K (Prim2SF x) -> (x =? 0)%float = false.
Proof. intros (m & e & Hx & _). by rewrite FloatAxioms.eqb_spec, Prim2SF_zero, Hx. Qed.

Lemma div_self_normal (K : Z) (x : float) :
  normal64 K (Prim2SF x) -> (x / x)%float = 1%float.
Proof.
  intros Hx. apply Prim2SF_inj. rewrite div_spec.
  by rewrite (SFdiv_self_normal K).
Qed.

Lemma zero_div_normal (K : Z) (x : float) :
  normal64 K (Prim2SF x) -> (0 / x)%float = 0%float.
Proof.
  intros (m & e & Hx & _). apply Prim2SF_inj.
  by rewrite div_spec, Prim2SF_zero, Hx.
Qed.

(** ** The coefficient on given counters *)

Lemma bub_value_no_presence (d : Z) : bub_value 0 0 0 d = Raise ZeroDivisionError.
Proof. unfold bub_value. change (0 * d) with 0. reflexivity. Qed.

Lemma float_add_int_zero (x : float) : float_add_int x 0 = Ok (x + 0)%float.
Proof. reflexivity. Qed.

Lemma float_add_int_normal (x : float) (n : Z) :
  1 <= n < 2 ^ 53 ->
  exists y : float, float_add_int x n = Ok (x + y)%float /\ normal64 1 (Prim2SF y).
Proof.
  intros Hn. destruct (float_of_int_normal n 53 1) as (y & Hy & Hny); [lia..|].
  exists y. split; [|done]. unfold float_add_int. by rewrite Hy.
Qed.

Lemma bub_value_disjoint (b c d : Z) :
  0 <= b < 2 ^ 53 -> 0 <= c < 2 ^ 53 -> 0 < b + c ->
  bub_value 0 b c d = Ok 0%float.
Proof.
  intros Hb Hc Hbc. unfold bub_value. change (0 * d) with 0.
  rewrite float_of_int_zero. cbn [mbind result_bind].
  change (math_sqrt 0) with (Ok 0%float). cbn [mbind result_bind].
  rewrite float_add_int_zero. cbn [mbind result_bind].
  change (0 + 0)%float with 0%float.
  assert (Hfin : forall den : float, normal64 3 (Prim2SF den) ->
    (if (den =? 0)%float then Raise ZeroDivisionError else Ok (0 / den)%float)
    = Ok 0%float).
  { intros den Hden. by rewrite (eqb_zero_normal 3), (zero_div_normal 3). }
  destruct (Z.eq_dec b 0) as [->|Hb0].
  - rewrite float_add_int_zero. cbn [mbind result_bind].
    change (0 + 0)%float with 0%float.
    destruct (float_add_int_normal 0 c) as (fc & -> & Hfc); [lia|].
    cbn [mbind result_bind]. rewrite (add_zero_l 1) by done.
    apply Hfin. by eapply normal64_weaken; [|done].
  - destruct (float_add_int_normal 0 b) as (fb & -> & Hfb); [lia|].
    cbn [mbind result_bind]. rewrite (add_zero_l 1) by done.
    destruct (Z.eq_dec c 0) as [->|Hc0].
    + rewrite float_add_int_zero. cbn [mbind result_bind].
      rewrite (add_zero_r 1) by done.
      apply Hfin. by eapply normal64_weaken; [|done].
    + destruct (float_add_int_normal fb c) as (fc & -> & Hfc); [lia|].
      cbn [mbind result_bind]. apply Hfin.
      by apply (add_normal 1 1).
Qed.

Lemma math_sqrt_normal (K K' : Z) (x : float) :
  normal64 K (Prim2SF x) -> K / 2 - 25 <= K' -> K' <= 971 ->
  exists root : float, math_sqrt x = Ok root /\ normal64 K' (Prim2SF root).
Proof.
  intros Hx HK HK'. exists (sqrt x). unfold math_sqrt.
  rewrite (ltb_zero_normal K) by done. split; [done|]. by eapply sqrt_normal.
Qed.

Lemma bub_value_identical (a d : Z) :
  0 < a < 2 ^ 53 -> 0 <= d < 2 ^ 53 ->
  bub_value a 0 0 d = Ok 1%float.
Proof.
  intros Ha Hd. unfold bub_value.
  assert (Hfin : forall num : float, normal64 4 (Prim2SF num) ->
    (float_add_int num 0 ≫= λ den0, float_add_int den0 0 ≫= λ den1,
       if (den1 =? 0)%float then Raise ZeroDivisionError else Ok (num / den1)%float)
    = Ok 1%float).
  { intros num Hnum. rewrite float_add_int_zero. cbn [mbind result_bind].
    rewrite float_add_int_zero. cbn [mbind result_bind].
    rewrite !(add_zero_r 4 num) by done.
    by rewrite (eqb_zero_normal 4), (div_self_normal 4). }
  destruct (Z.eq_dec d 0) as [->|Hd0].
  - rewrite Z.mul_0_r, float_of_int_zero. cbn [mbind result_bind].
    change (math_sqrt 0) with (Ok 0%float). cbn [mbind result_bind].
    destruct (float_add_int_normal 0 a) as (fa & -> & Hfa); [lia|].
    cbn [mbind result_bind]. rewrite (add_zero_l 1) by done.
    apply Hfin. by eapply normal64_weaken; [|done].
  - assert (Had : 1 <= a * d < 2 ^ 106).
    { change (2 ^ 106) with (2 ^ 53 * 2 ^ 53). nia. }
    destruct (float_of_int_normal (a * d) 106 54) as (fad & -> & Hfad); [lia..|].
    cbn [mbind result_bind].
    destruct (math_sqrt_normal 54 2 fad) as (root & -> & Hroot); [done|done|lia|].
    cbn [mbind result_bind].
    destruct (float_add_int_normal root a) as (fa & -> & Hfa); [lia|].
    cbn [mbind result_bind]. apply Hfin.
    by apply (add_normal 2 1).
Qed.

(** ** Sums and square roots that do not round *)

Lemma pos_iter_xO_value (p n : positive) :
  Z.pos (Pos.iter xO p n) = Z.pos p * 2 ^ Z.pos n.
Proof.
  induction n as [|n IH] using Pos.peano_ind.
  - cbn. lia.
  - rewrite Pos.iter_succ, Pos2Z.inj_succ, Z.pow_succ_r by lia.
    rewrite Pos2Z.inj_xO, IH. lia.
Qed.

Lemma iter_shr_1_exact (n p : positive) :
  SpecFloat.iter_pos shr_1 n (Build_shr_record (Z.pos (Pos.iter xO p n)) false false)
  = Build_shr_record (Z.pos p) false false.
Proof.
  revert p. induction n as [n IH|n IH|]; intros p;
    cbn [SpecFloat.iter_pos Pos.iter shr_1 orb].
  - by rewrite !IH.
  - by rewrite !IH.
  - done.
Qed.

(** A mantissa of exactly 53 bits with nothing to round is kept. *)
Lemma binary_round_aux_exact (m : positive) (e : Z) :
  Z.pos (digits2_pos m) = 53 -> -1074 <= e <= 971 ->
  binary_round_aux prec emax false (Z.pos m) e loc_Exact = S754_finite false m e.
Proof.
  intros Hd He. unfold binary_round_aux, shr_fexp, fexp, SpecFloat.emin, emax, prec.
  cbn [Zdigits2 shr_record_of_loc]. rewrite Hd.
  replace (Z.max (53 + e - 53) (3 - 1024 - 53) - e) with 0 by lia.
  cbn [shr shr_m loc_of_shr_record round_nearest_even Zdigits2 shr_record_of_loc].
  rewrite Hd.
  replace (Z.max (53 + e - 53) (3 - 1024 - 53) - e) with 0 by lia.
  cbn [shr shr_m]. by replace (e <=? 1024 - 53) with true by (symmetry; apply Z.leb_le; lia).
Qed.

(** [binary_normalize] of a mantissa that fits in 53 bits once its
    trailing zeros are dropped: the mantissa is shifted to 53 bits and the
    value is kept. *)
Lemma binary_normalize_exact (s m : positive) (ez : Z) :
  Z.pos (digits2_pos m) = 53 ->
  -1074 <= Z.pos (digits2_pos s) + ez - 53 <= 971 ->
  (Z.pos (digits2_pos s) <= 53 /\ Z.pos m = Z.pos s * 2 ^ (53 - Z.pos (digits2_pos s)))
  \/ (53 < Z.pos (digits2_pos s)
      /\ Z.pos s = Z.pos m * 2 ^ (Z.pos (digits2_pos s) - 53)) ->
  binary_normalize prec emax (Z.pos s) ez false
  = S754_finite false m (Z.pos (digits2_pos s) + ez - 53).
Proof.
  intros Hm He Hcase. cbn [binary_normalize]. unfold binary_round, shl_align.
  unfold fexp, SpecFloat.emin, emax, prec. rewrite Z.max_l by lia.
  destruct (Z.pos (digits2_pos s) + ez - 53 - ez) as [|d|d] eqn:Hd.
  - destruct Hcase as [[_ Hval]|[? _]]; [|lia].
    replace (53 - Z.pos (digits2_pos s)) with 0 in Hval by lia.
    assert (m = s) as -> by lia.
    replace (Z.pos (digits2_pos s) + ez - 53) with ez by lia.
    apply binary_round_aux_exact; lia.
  - destruct Hcase as [[? _]|[_ Hval]]; [lia|].
    replace (Z.pos (digits2_pos s) - 53) with (Z.pos d) in Hval by lia.
    assert (s = Pos.iter xO m d) as Hs.
    { apply Pos2Z.inj. by rewrite pos_iter_xO_value. }
    replace (Z.pos (digits2_pos s) + ez - 53) with (ez + Z.pos d) by lia.
    unfold binary_round_aux, shr_fexp, fexp, SpecFloat.emin, emax, prec.
    cbn [Zdigits2 shr_record_of_loc]. rewrite Z.max_l by lia. rewrite Hd.
    cbn [shr]. subst s. rewrite iter_shr_1_exact.
    cbn [shr_m loc_of_shr_record round_nearest_even Zdigits2 shr_record_of_loc].
    rewrite Hm.
    replace (Z.max (53 + (ez + Z.pos d) - 53) (3 - 1024 - 53) - (ez + Z.pos d)) with 0
      by lia.
    cbn [shr shr_m].
    by replace (ez + Z.pos d <=? 1024 - 53) with true by (symmetry; apply Z.leb_le; lia).
  - destruct Hcase as [[_ Hval]|[? _]]; [|lia].
    replace (53 - Z.pos (digits2_pos s)) with (Z.pos d) in Hval by lia.
    assert (Pos.iter xO s d = m) as ->.
    { apply Pos2Z.inj. by rewrite pos_iter_xO_value. }
    apply binary_round_aux_exact; lia.
Qed.

Lemma digits2_pos_shift (p : positive) (k : Z) (q : positive) :
  0 <= k -> Z.pos q = Z.pos p * 2 ^ k ->
  Z.pos (digits2_pos q) = Z.pos (digits2_pos p) + k.
Proof.
  intros Hk Hq. apply digits2_pos_unique.
  pose proof (digits2_pos_bounds p) as [Hlo Hhi].
  pose proof (Pos2Z.is_pos (digits2_pos p)).
  replace (Z.pos (digits2_pos p) + k - 1) with (Z.pos (digits2_pos p) - 1 + k) by lia.
  rewrite !Z.pow_add_r by lia. rewrite Hq.
  assert (0 < 2 ^ k) by (apply Z.pow_pos_nonneg; lia). nia.
Qed.

(** The value that [binary_normalize] keeps, stated on the int: a positive
    int below [2^53], given with trailing zeros at exponent [ez <= 0]. *)
Lemma binary_normalize_int (s : positive) (ez n : Z) :
  1 <= n < 2 ^ 53 -> -52 <= ez <= 0 -> Z.pos s = n * 2 ^ (- ez) ->
  exact64 n (binary_normalize prec emax (Z.pos s) ez false).
Proof.
  intros Hn Hez Hs. destruct n as [|p|p]; try lia.
  pose proof (digits2_pos_bounds p) as Hb.
  pose proof (Pos2Z.is_pos (digits2_pos p)) as Hdp.
  assert (Z.pos (digits2_pos p) <= 53) as Hd.
  { destruct (Z_lt_le_dec 53 (Z.pos (digits2_pos p))) as [Hc|]; [|done].
    assert (2 ^ 53 <= 2 ^ (Z.pos (digits2_pos p) - 1)) by (apply Z.pow_le_mono_r; lia).
    lia. }
  pose proof (digits2_pos_shift p (- ez) s ltac:(lia) Hs) as Hds.
  set (m := Z.to_pos (Z.pos p * 2 ^ (53 - Z.pos (digits2_pos p)))).
  assert (Z.pos m = Z.pos p * 2 ^ (53 - Z.pos (digits2_pos p))) as Hm.
  { unfold m. rewrite Z2Pos.id; [done|].
    assert (0 < 2 ^ (53 - Z.pos (digits2_pos p))) by (apply Z.pow_pos_nonneg; lia).
    nia. }
  pose proof (digits2_pos_shift p (53 - Z.pos (digits2_pos p)) m ltac:(lia) Hm) as Hdm.
  right. exists m, (Z.pos (digits2_pos p) - 53).
  rewrite (binary_normalize_exact s m ez); [|lia|lia|].
  - split_and!; [f_equal; lia|lia|lia|lia|].
    rewrite Hm. f_equal. f_equal. lia.
  - destruct (Z_le_gt_dec (Z.pos (digits2_pos s)) 53) as [Hle|Hgt]; [left|right].
    + split; [done|]. rewrite Hm, Hs, Hds, <- Z.mul_assoc, <- Z.pow_add_r by lia.
      f_equal. f_equal. lia.
    + split; [lia|]. rewrite Hm, Hs, Hds, <- Z.mul_assoc, <- Z.pow_add_r by lia.
      f_equal. f_equal. lia.
Qed.

Lemma exact64_unique (n : Z) (x y : spec_float) :
  exact64 n x -> exact64 n y -> x = y.
Proof.
  intros [[-> ->]|(m & e & -> & Hdm & He & Hm)] [[Hn ->]|(m' & e' & -> & Hdm' & He' & Hm')];
    [done|nia|subst n; lia|].
  pose proof (digits2_pos_bounds m) as Hb. rewrite Hdm in Hb.
  pose proof (digits2_pos_bounds m') as Hb'. rewrite Hdm' in Hb'.
  change (2 ^ (53 - 1)) with 4503599627370496 in *.
  change (2 ^ 53) with 9007199254740992 in *.
  assert (e = e') as <-.
  { destruct (Z.lt_trichotomy e e') as [Hlt|[?|Hlt]]; [|done|]; exfalso.
    - replace (- e) with (- e' + (e' - e)) in Hm by lia.
      rewrite Z.pow_add_r, Z.mul_assoc, <- Hm' in Hm by lia.
      assert (2 ^ 1 <= 2 ^ (e' - e)) by (apply Z.pow_le_mono_r; lia).
      change (2 ^ 1) with 2 in *. nia.
    - replace (- e') with (- e + (e - e')) in Hm' by lia.
      rewrite Z.pow_add_r, Z.mul_assoc, <- Hm in Hm' by lia.
      assert (2 ^ 1 <= 2 ^ (e - e')) by (apply Z.pow_le_mono_r; lia).
      change (2 ^ 1) with 2 in *. nia. }
  f_equal. lia.
Qed.

Lemma exact64_positive (n : Z) (x : spec_float) :
  exact64 n x -> 0 < n ->
  exists (m : positive) (e : Z),
    x = S754_finite false m e /\ Z.pos (digits2_pos m) = 53 /\ -52 <= e <= 0
    /\ Z.pos m = n * 2 ^ (- e).
Proof. intros [[-> _]|H] Hn; [lia|done]. Qed.

Lemma exact64_valid (n : Z) (x : spec_float) : exact64 n x -> valid_binary x = true.
Proof.
  intros [[_ ->]|(m & e & -> & Hd & He & _)]; [done|].
  apply (normal64_valid 0); [lia|]. exists m, e. split_and!; [done|done|lia|lia].
Qed.

Lemma shl_align_value (m : positive) (e ez : Z) :
  ez <= e -> Z.pos (fst (shl_align m e ez)) = Z.pos m * 2 ^ (e - ez).
Proof.
  intros Hle. unfold shl_align.
  destruct (ez - e) as [|d|d] eqn:Hd; cbn [fst]; try lia.
  - replace (e - ez) with 0 by lia. cbn. lia.
  - rewrite pos_iter_xO_value. f_equal. f_equal. lia.
Qed.

(** The sum of two ints below [2^53] whose sum is below [2^53] too is
    computed exactly. *)
Lemma SFadd_exact (nx ny : Z) (x y : spec_float) :
  exact64 nx x -> exact64 ny y -> 0 <= nx -> 0 <= ny -> nx + ny < 2 ^ 53 ->
  exact64 (nx + ny) (SFadd prec emax x y).
Proof.
  intros [[-> ->]|(mx & ex & -> & Hdx & Hex & Hmx)]
         [[-> ->]|(my & ey & -> & Hdy & Hey & Hmy)] Hx Hy Hsum.
  - by left.
  - cbn [SFadd]. right. by exists my, ey.
  - cbn [SFadd]. rewrite Z.add_0_r. right. by exists mx, ex.
  - cbn [SFadd cond_Zopp].
    set (ez := Z.min ex ey).
    pose proof (shl_align_value mx ex ez ltac:(lia)) as Hsx.
    pose proof (shl_align_value my ey ez ltac:(lia)) as Hsy.
    set (sx := fst (shl_align mx ex ez)) in *.
    set (sy := fst (shl_align my ey ez)) in *.
    change (Z.pos sx + Z.pos sy) with (Z.pos (sx + sy)).
    assert (0 < nx /\ 0 < ny) as [Hx' Hy'].
    { assert (0 < 2 ^ (- ex)) by (apply Z.pow_pos_nonneg; lia).
      assert (0 < 2 ^ (- ey)) by (apply Z.pow_pos_nonneg; lia).
      split; nia. }
    apply binary_normalize_int; [lia|lia|].
    rewrite Pos2Z.inj_add, Hsx, Hsy, Hmx, Hmy, <- !Z.mul_assoc, <- !Z.pow_add_r by lia.
    replace (- ex + (ex - ez)) with (- ez) by lia.
    replace (- ey + (ey - ez)) with (- ez) by lia. lia.
Qed.

(** The square root of a perfect square below [2^53]. *)
Lemma SFsqrt_exact (k : Z) (x : spec_float) :
  0 <= k -> k * k < 2 ^ 53 -> exact64 (k * k) x -> exact64 k (SFsqrt prec emax x).
Proof.
  intros Hk Hkk [[Hk0 ->]|(mx & ex & -> & Hdx & Hex & Hmx)].
  - left. split; [nia|done].
  - assert (0 < k) as Hkpos.
    { assert (0 < 2 ^ (- ex)) by (apply Z.pow_pos_nonneg; lia). nia. }
    cbn [SFsqrt]. unfold SFsqrt_core_binary. cbn [Zdigits2]. rewrite Hdx.
    unfold fexp, SpecFloat.emin, emax, prec. rewrite !Z.div2_div.
    set (e' := Z.min (Z.max ((53 + ex + 1) / 2 - 53) (3 - 1024 - 53)) (ex / 2)).
    assert (He' : e' = ex / 2 - 26) by (unfold e'; Z.div_mod_to_equations; lia).
    assert (Hs : 0 < ex - 2 * e') by (rewrite He'; Z.div_mod_to_equations; lia).
    assert (Heven : - ex + (ex - 2 * e') = 2 * (- e')) by lia.
    assert (He'neg : 0 <= - e') by (rewrite He'; Z.div_mod_to_equations; lia).
    destruct (ex - 2 * e') as [|s|s] eqn:Hse; try lia.
    rewrite Z.shiftl_mul_pow2 by lia.
    assert (Z.pos mx * 2 ^ Z.pos s = (k * 2 ^ (- e')) * (k * 2 ^ (- e'))) as Hsquare.
    { rewrite Hmx, <- Z.mul_assoc, <- Z.pow_add_r, Heven by lia.
      replace (2 * - e') with (- e' + - e') by lia. rewrite Z.pow_add_r by lia. lia. }
    rewrite Hsquare.
    assert (0 < 2 ^ (- e')) as Hpow by (apply Z.pow_pos_nonneg; lia).
    pose proof (Z.sqrtrem_spec ((k * 2 ^ (- e')) * (k * 2 ^ (- e'))) ltac:(nia)) as Hsq.
    destruct (Z.sqrtrem _) as [q r]. destruct Hsq as [Hq Hr].
    assert (q = k * 2 ^ (- e')) as -> by nia.
    assert (r = 0) as -> by lia.
    cbn [Z.eqb].
    set (Q := Z.to_pos (k * 2 ^ (- e'))).
    assert (Z.pos Q = k * 2 ^ (- e')) as HQ by (unfold Q; rewrite Z2Pos.id; nia).
    rewrite <- HQ.
    change (binary_round_aux 53 1024 false (Z.pos Q) e' loc_Exact)
      with (binary_round_aux prec emax false (Z.pos Q) e' loc_Exact).
    destruct k as [|kp|kp]; try lia.
    pose proof (digits2_pos_shift kp (- e') Q He'neg HQ) as HdQ.
    assert (Z.pos (digits2_pos Q) = 53) as HQ53.
    { pose proof (digits2_pos_bounds mx) as Hb. rewrite Hdx in Hb.
      apply digits2_pos_unique. rewrite HQ.
      change (2 ^ (53 - 1)) with 4503599627370496 in *.
      change (2 ^ 53) with 9007199254740992 in *.
      assert (2 ^ Z.pos s = 4503599627370496 \/ 2 ^ Z.pos s = 9007199254740992) as Hps.
      { assert (Z.pos s = 52 \/ Z.pos s = 53) as [->| ->]
          by (rewrite He' in Hse; Z.div_mod_to_equations; lia); [by left|by right]. }
      destruct Hps as [Hps|Hps]; rewrite Hps in Hsquare; nia. }
    rewrite binary_round_aux_exact by (rewrite ?He'; Z.div_mod_to_equations; lia).
    right. exists Q, e'. split_and!; [done|done|..|done].
    + rewrite HQ53 in HdQ. pose proof (Pos2Z.is_pos (digits2_pos kp)).
      assert (Z.pos (digits2_pos kp) <= 27).
      { pose proof (digits2_pos_bounds kp) as [Hlo _].
        destruct (Z_lt_le_dec 27 (Z.pos (digits2_pos kp))) as [Hc|]; [|done].
        assert (2 ^ 27 <= 2 ^ (Z.pos (digits2_pos kp) - 1))
          by (apply Z.pow_le_mono_r; lia).
        change (2 ^ 27) with 134217728 in *.
        change (2 ^ 53) with 9007199254740992 in *. nia. }
      lia.
    + lia.
Qed.

(** ** The same on the primitive floats *)

Lemma float_of_int_exact (n : Z) :
  0 <= n < 2 ^ 53 ->
  exists f : float, float_of_int n = Ok f /\ exact64 n (Prim2SF f).
Proof.
  intros Hn. destruct (Z.eq_dec n 0) as [->|Hn0].
  - exists 0%float. split; [done|]. by left.
  - destruct n as [|p|p]; try lia.
    pose proof (binary_normalize_int p 0 (Z.pos p) ltac:(lia) ltac:(lia)
                  ltac:(cbn; lia)) as Hexact.
    pose proof (exact64_valid _ _ Hexact) as Hvalid.
    unfold float_of_int.
    destruct (exact64_positive _ _ Hexact ltac:(lia)) as (m & e & Hx & _).
    rewrite Hx in Hexact, Hvalid |- *.
    exists (SF2Prim (S754_finite false m e)). split; [done|].
    by rewrite Prim2SF_SF2Prim.
Qed.

Lemma float_add_int_exact (x : float) (nx n : Z) :
  exact64 nx (Prim2SF x) -> 0 <= nx -> 0 <= n -> nx + n < 2 ^ 53 ->
  exists y : float, float_add_int x n = Ok y /\ exact64 (nx + n) (Prim2SF y).
Proof.
  intros Hx Hnx Hn Hsum.
  destruct (float_of_int_exact n ltac:(lia)) as (f & Hf & Hexact).
  exists (x + f)%float. unfold float_add_int. rewrite Hf. split; [done|].
  rewrite add_spec. by apply SFadd_exact.
Qed.

Lemma math_sqrt_exact (k : Z) (x : float) :
  0 <= k -> k * k < 2 ^ 53 -> exact64 (k * k) (Prim2SF x) ->
  exists root : float, math_sqrt x = Ok root /\ exact64 k (Prim2SF root).
Proof.
  intros Hk Hkk Hx. exists (sqrt x). unfold math_sqrt. split.
  - replace (x <? 0)%float with false; [done|].
    rewrite FloatAxioms.ltb_spec, Prim2SF_zero.
    by destruct Hx as [[_ ->]|(m & e & -> & _)].
  - rewrite sqrt_spec. by apply SFsqrt_exact.
Qed.

Lemma eqb_zero_exact (n : Z) (x : float) :
  exact64 n (Prim2SF x) -> 0 <= n -> (x =? 0)%float = bool_decide (n = 0).
Proof.
  intros Hx Hn. rewrite FloatAxioms.eqb_spec, Prim2SF_zero.
  destruct Hx as [[-> ->]|(m & e & -> & _ & He & Hm)]; [done|].
  rewrite bool_decide_eq_false_2; [done|]. intros ->. lia.
Qed.

Lemma exact64_float_unique (n : Z) (x y : float) :
  exact64 n (Prim2SF x) -> exact64 n (Prim2SF y) -> x = y.
Proof. intros Hx Hy. apply Prim2SF_inj. by eapply exact64_unique. Qed.

(** When [a * d] is a perfect square and every int stays below [2^53], no
    operation of the coefficient rounds before the division. *)
Lemma bub_value_exact (a b c d k : Z) :
  0 <= a -> 0 <= b -> 0 <= c -> 0 <= k -> a * d = k * k -> k * k < 2 ^ 53 ->
  k + a + b + c < 2 ^ 53 ->
  (k + a + b + c = 0 /\ bub_value a b c d = Raise ZeroDivisionError)
  \/ (0 < k + a + b + c
      /\ exists num den : float,
           exact64 (k + a) (Prim2SF num) /\ exact64 (k + a + b + c) (Prim2SF den)
           /\ bub_value a b c d = Ok (num / den)%float).
Proof.
  intros Ha Hb Hc Hk Had Hkk Hsum. unfold bub_value. rewrite Had.
  destruct (float_of_int_exact (k * k) ltac:(nia)) as (ad & -> & Hadx).
  cbn [mbind result_bind].
  destruct (math_sqrt_exact k ad Hk Hkk Hadx) as (root & -> & Hroot).
  cbn [mbind result_bind].
  destruct (float_add_int_exact root k a Hroot) as (num & -> & Hnum); [lia..|].
  cbn [mbind result_bind].
  destruct (float_add_int_exact num (k + a) b Hnum) as (den1 & -> & Hden1); [lia..|].
  cbn [mbind result_bind].
  destruct (float_add_int_exact den1 (k + a + b) c Hden1) as (den & -> & Hden); [lia..|].
  cbn [mbind result_bind].
  rewrite (eqb_zero_exact (k + a + b + c) den Hden) by lia.
  destruct (decide (k + a + b + c = 0)) as [Hzero|Hpos].
  - left. by rewrite bool_decide_eq_true_2.
  - right. rewrite bool_decide_eq_false_2 by done. split; [lia|]. by exists num, den.
Qed.

Lemma bub_value_square_symmetric (a b c d k : Z) :
  0 <= a -> 0 <= b -> 0 <= c -> a * d = k * k -> k * k < 2 ^ 53 ->
  Z.abs k + a + b + c < 2 ^ 53 ->
  bub_value a c b d = bub_value a b c d.
Proof.
  intros Ha Hb Hc Had Hkk Hsum.
  assert (a * d = Z.abs k * Z.abs k) as Had' by lia.
  assert (Z.abs k * Z.abs k < 2 ^ 53) as Hkk' by lia.
  destruct (bub_value_exact a b c d (Z.abs k)) as
    [[Hzero ->]|(Hpos & num & den & Hnum & Hden & ->)]; [lia..| |];
    destruct (bub_value_exact a c b d (Z.abs k)) as
      [[Hzero' ->]|(Hpos' & num' & den' & Hnum' & Hden' & ->)]; try lia; [done|].
  replace (Z.abs k + a + c + b) with (Z.abs k + a + b + c) in Hden' by lia.
  by rewrite (exact64_float_unique _ _ _ Hnum' Hnum),
       (exact64_float_unique _ _ _ Hden' Hden).
Qed.

(** ** One exclusive counter is zero *)

Lemma add_zero_r_zero : (0 + 0)%float = 0%float.
Proof. reflexivity. Qed.

(** With [c = 0] or [b = 0] the denominator is the same sum in both orders:
    adding the int 0 changes nothing. *)
Lemma bub_value_one_sided (a b d : Z) :
  0 <= a < 2 ^ 53 -> 0 <= b < 2 ^ 53 -> 0 <= d < 2 ^ 53 ->
  bub_value a 0 b d = bub_value a b 0 d.
Proof.
  intros Ha Hb Hd. unfold bub_value.
  assert (forall x : float,
            Prim2SF x = S754_zero false \/ normal64 4 (Prim2SF x) ->
            (float_add_int x 0 ≫= λ den, float_add_int den b ≫= λ den0,
               if (den0 =? 0)%float then Raise ZeroDivisionError
               else Ok (x / den0)%float)
            = (float_add_int x b ≫= λ den, float_add_int den 0 ≫= λ den0,
                 if (den0 =? 0)%float then Raise ZeroDivisionError
                 else Ok (x / den0)%float)) as Hfin.
  { intros x Hx.
    assert ((x + 0)%float = x) as Hx0.
    { destruct Hx as [Hx|Hx]; [|by apply (add_zero_r 4)].
      apply Prim2SF_inj. by rewrite add_spec, Prim2SF_zero, Hx. }
    rewrite float_add_int_zero. cbn [mbind result_bind]. rewrite Hx0.
    destruct (Z.eq_dec b 0) as [->|Hb0].
    - repeat (rewrite float_add_int_zero; cbn [mbind result_bind]). by rewrite !Hx0.
    - destruct (float_add_int_normal x b) as (fb & -> & Hfb); [lia|].
      cbn [mbind result_bind]. rewrite float_add_int_zero. cbn [mbind result_bind].
      assert ((x + fb + 0)%float = (x + fb)%float) as ->; [|done].
      destruct Hx as [Hx|Hx].
      + assert ((x + fb)%float = fb) as ->.
        { apply Prim2SF_inj. rewrite add_spec, Hx.
          by destruct Hfb as (m & e & -> & _). }
        by apply (add_zero_r 1).
      + apply (add_zero_r 6). by apply (add_normal 4 1). }
  destruct (Z.eq_dec a 0) as [->|Ha0].
  - change (0 * d) with 0. rewrite float_of_int_zero. cbn [mbind result_bind].
    change (math_sqrt 0) with (Ok 0%float). cbn [mbind result_bind].
    rewrite float_add_int_zero. cbn [mbind result_bind].
    change (0 + 0)%float with 0%float. apply Hfin. by left.
  - destruct (Z.eq_dec d 0) as [->|Hd0].
    + rewrite Z.mul_0_r, float_of_int_zero. cbn [mbind result_bind].
      change (math_sqrt 0) with (Ok 0%float). cbn [mbind result_bind].
      destruct (float_add_int_normal 0 a) as (fa & -> & Hfa); [lia|].
      cbn [mbind result_bind]. rewrite (add_zero_l 1) by done.
      apply Hfin. right. by eapply normal64_weaken; [|done].
    + assert (Had : 1 <= a * d < 2 ^ 106).
      { change (2 ^ 106) with (2 ^ 53 * 2 ^ 53). nia. }
      destruct (float_of_int_normal (a * d) 106 54) as (fad & -> & Hfad); [lia..|].
      cbn [mbind result_bind].
      destruct (math_sqrt_normal 54 2 fad) as (root & -> & Hroot); [done|done|lia|].
      cbn [mbind result_bind].
      destruct (float_add_int_normal root a) as (fa & -> & Hfa); [lia|].
      cbn [mbind result_bind]. apply Hfin. right.
      by apply (add_normal 2 1).
Qed.


(** ** The counters of the presence/absence comparison *)

Lemma bub_counts_snoc (df : table2) (row : string * Z * Z) :
  bub_counts (df ++ [row]) = tally_row (bub_counts df) row.
Proof. unfold bub_counts. by rewrite foldl_app. Qed.

Ltac tally_cases :=
  unfold tally_row, present, binarize in *; cbn [fst snd] in *;
  repeat match goal with
         | |- context [?x >? ?y] => destruct (Z.gtb_spec x y)
         | |- context [?x =? ?y] => destruct (Z.eqb_spec x y)
         | |- context [?x <? ?y] => destruct (Z.ltb_spec x y)
         | H : context [?x >? ?y] |- _ => destruct (Z.gtb_spec x y)
         end.

Lemma bub_counts_bounds (df : table2) (a b c d : Z) :
  bub_counts df = (a, b, c, d) ->
  0 <= a /\ 0 <= b /\ 0 <= c /\ 0 <= d /\ a + b + c + d = Z.of_nat (length df).
Proof.
  revert a b c d. induction df as [|row df IH] using rev_ind; intros a b c d.
  - intros [= <- <- <- <-]. cbn. lia.
  - rewrite bub_counts_snoc, length_app, Nat2Z.inj_add.
    destruct (bub_counts df) as [[[a0 b0] c0] d0].
    specialize (IH _ _ _ _ eq_refl). destruct row as [[taxon x] y].
    tally_cases; intros [= <- <- <- <-]; cbn [length]; lia.
Qed.

Lemma bub_counts_disjoint (df : table2) (a b c d : Z) :
  bub_counts df = (a, b, c, d) -> disjoint_presence df -> a = 0.
Proof.
  revert a b c d. induction df as [|row df IH] using rev_ind; intros a b c d.
  - by intros [= <- <- <- <-].
  - rewrite bub_counts_snoc. unfold disjoint_presence. rewrite Forall_app, Forall_singleton.
    destruct (bub_counts df) as [[[a0 b0] c0] d0].
    intros Heq [Hdf Hrow]. specialize (IH _ _ _ _ eq_refl Hdf). subst a0.
    destruct row as [[taxon x] y]. revert Heq Hrow.
    tally_cases; intros [= <- <- <- <-] Hrow; lia.
Qed.

Lemma bub_counts_identical (df : table2) (a b c d : Z) :
  bub_counts df = (a, b, c, d) -> identical_presence df -> nonneg_counts df ->
  b = 0 /\ c = 0.
Proof.
  revert a b c d. induction df as [|row df IH] using rev_ind; intros a b c d.
  - by intros [= <- <- <- <-].
  - rewrite bub_counts_snoc. unfold identical_presence, nonneg_counts.
    rewrite !Forall_app, !Forall_singleton.
    destruct (bub_counts df) as [[[a0 b0] c0] d0].
    intros Heq [Hdf Hrow] [Hnn Hrown].
    destruct (IH _ _ _ _ eq_refl Hdf Hnn) as [-> ->].
    destruct row as [[taxon x] y]. revert Heq Hrow Hrown.
    tally_cases; intros [= <- <- <- <-] Hrow Hrown; lia.
Qed.

Lemma bub_counts_some_present (df : table2) (a b c d : Z) :
  bub_counts df = (a, b, c, d) ->
  Exists (fun row => present (snd (fst row)) \/ present (snd row)) df ->
  0 < a + b + c.
Proof.
  revert a b c d. induction df as [|row df IH] using rev_ind; intros a b c d.
  - intros _ Hex. by apply Exists_nil in Hex.
  - rewrite bub_counts_snoc, Exists_app, Exists_cons, Exists_nil.
    pose proof (bub_counts_bounds df) as Hb.
    destruct (bub_counts df) as [[[a0 b0] c0] d0].
    specialize (Hb _ _ _ _ eq_refl). specialize (IH _ _ _ _ eq_refl).
    destruct row as [[taxon x] y]. intros Heq Hex. revert Heq.
    destruct Hex as [Hex|[Hrow|[]]].
    + specialize (IH Hex). tally_cases; intros [= <- <- <- <-]; lia.
    + revert Hrow. tally_cases; intros Hrow [= <- <- <- <-]; lia.
Qed.

Lemma bub_counts_swap (df : table2) (a b c d : Z) :
  bub_counts df = (a, b, c, d) -> bub_counts (swap_columns df) = (a, c, b, d).
Proof.
  revert a b c d. induction df as [|row df IH] using rev_ind; intros a b c d.
  - by intros [= <- <- <- <-].
  - unfold swap_columns. rewrite fmap_app. cbn [fmap list_fmap].
    fold (swap_columns df). rewrite !bub_counts_snoc.
    destruct (bub_counts df) as [[[a0 b0] c0] d0].
    rewrite (IH _ _ _ _ eq_refl). destruct row as [[taxon x] y].
    tally_cases; intros [= <- <- <- <-]; f_equal; lia.
Qed.

Lemma bub_counts_none_present (df : table2) :
  nonneg_counts df ->
  Forall (fun row => ~ present (snd (fst row)) /\ ~ present (snd row)) df ->
  bub_counts df = (0, 0, 0, Z.of_nat (length df)).
Proof.
  induction df as [|row df IH] using rev_ind; [done|].
  unfold nonneg_counts. rewrite !Forall_app, !Forall_singleton.
  intros [Hnn Hrown] [Hdf Hrow].
  rewrite bub_counts_snoc, (IH Hnn Hdf), length_app, Nat2Z.inj_add.
  destruct row as [[taxon x] y]. cbn [length]. revert Hrow Hrown.
  tally_cases; intros Hrow Hrown; try lia; f_equal; lia.
Qed.

(** ** The coefficient on a frame *)

(** The module's own self-test: [dif] gives 0 and [same] gives 1. *)
Example baroni_self_test :
  baroni_urbani_buser_coefficient [("EC", 1, 0); ("IE", 0, 1)] = Ok 0%float
  /\ baroni_urbani_buser_coefficient [("EC", 1, 1); ("IE", 0, 0)] = Ok 1%float.
Proof. split; reflexivity. Qed.

(** Three taxa present in both samples and one only in sample 0. *)
Example baroni_three_shared_one_exclusive :
  baroni_urbani_buser_coefficient
    [("t1", 12, 7); ("t2", 3, 3); ("t3", 40, 2); ("t4", 5, 0)] = Ok 0.75%float.
Proof. reflexivity. Qed.

(** C1, counterexample: one taxon absent from both columns gives a = b = c
    = 0, and the call raises ZeroDivisionError instead of returning 0. *)
Lemma baroni_degenerate_raises :
  bub_counts [("EC", 0, 0)] = (0, 0, 0, 1)
  /\ baroni_urbani_buser_coefficient [("EC", 0, 0)] = Raise ZeroDivisionError
  /\ baroni_urbani_buser_coefficient [("EC", 0, 0)] <> Ok 0%float.
Proof. split_and!; [reflexivity|reflexivity|discriminate]. Qed.

(** C1, as amended: whenever the comparison yields a = 0, b = 0 and c = 0,
    whatever the number d of taxa absent from both, the function does not
    return: the quotient is 0.0 / 0.0 and ZeroDivisionError is raised. *)
Theorem baroni_no_presence_raises (df : table2) (d : Z) :
  bub_counts df = (0, 0, 0, d) ->
  baroni_urbani_buser_coefficient df = Raise ZeroDivisionError.
Proof.
  intros Hcounts. unfold baroni_urbani_buser_coefficient. rewrite Hcounts.
  apply bub_value_no_presence.
Qed.

Lemma baroni_no_presence_raises_witness :
  baroni_urbani_buser_coefficient [("EC", 0, 0); ("IE", 0, 0)]
  = Raise ZeroDivisionError.
Proof. apply (baroni_no_presence_raises _ 2). reflexivity. Defined.

(** C6, counterexample: two all-absent columns have identical (and disjoint)
    presence patterns and the call raises instead of returning 1 (or 0); and
    on [lopsided_frame] exchanging the columns changes the result. *)
Lemma baroni_not_total_not_symmetric :
  (identical_presence [("EC", 0, 0)] /\ disjoint_presence [("EC", 0, 0)]
   /\ baroni_urbani_buser_coefficient [("EC", 0, 0)] = Raise ZeroDivisionError)
  /\ (baroni_urbani_buser_coefficient lopsided_frame = Ok 0x1.4e670bf05571cp-3%float
      /\ baroni_urbani_buser_coefficient (swap_columns lopsided_frame)
         = Ok 0x1.4e670bf05571dp-3%float
      /\ baroni_urbani_buser_coefficient (swap_columns lopsided_frame)
         <> baroni_urbani_buser_coefficient lopsided_frame).
Proof.
  split; split_and!.
  - apply Forall_singleton. done.
  - apply Forall_singleton. unfold present. cbn. by intros [? _].
  - reflexivity.
  - reflexivity.
  - reflexivity.
  - intros Heq.
    apply (f_equal (fun r => match r with Ok f => Prim2SF f | Raise _ => S754_nan end))
      in Heq.
    vm_compute in Heq. discriminate.
Qed.

(** C6, as amended: on a frame of fewer than 2^53 taxa the function returns
    0.0 for disjoint presence patterns when some taxon is present in one of
    the columns, and 1.0 for identical presence patterns of non-negative
    counts when some taxon is present; when no taxon is present in either
    column it raises ZeroDivisionError, for both orders of the columns.
    Exchanging the two columns exchanges the counters b and c and keeps a
    and d, so the exchanged call evaluates the same quotient with c added
    to the denominator before b.  It returns the same result when b = c,
    when b = 0 or c = 0 (adding the int 0 changes nothing), and, on fewer
    than 2^26 taxa, whenever a * d is a perfect square (in particular when
    a = 0 or d = 0): then no addition rounds. *)
Theorem baroni_disjoint_identical_swap (df : table2) :
  Z.of_nat (length df) < 2 ^ 53 ->
  (disjoint_presence df ->
   Exists (fun row => present (snd (fst row)) \/ present (snd row)) df ->
   baroni_urbani_buser_coefficient df = Ok 0%float)
  /\ (identical_presence df -> nonneg_counts df ->
      Exists (fun row => present (snd (fst row)) \/ present (snd row)) df ->
      baroni_urbani_buser_coefficient df = Ok 1%float)
  /\ (nonneg_counts df ->
      Forall (fun row => ~ present (snd (fst row)) /\ ~ present (snd row)) df ->
      baroni_urbani_buser_coefficient df = Raise ZeroDivisionError
      /\ baroni_urbani_buser_coefficient (swap_columns df) = Raise ZeroDivisionError)
  /\ (forall a b c d : Z, bub_counts df = (a, b, c, d) ->
      bub_counts (swap_columns df) = (a, c, b, d)
      /\ baroni_urbani_buser_coefficient df = bub_value a b c d
      /\ baroni_urbani_buser_coefficient (swap_columns df) = bub_value a c b d
      /\ (b = c \/ b = 0 \/ c = 0
          \/ (Z.of_nat (length df) < 2 ^ 26 /\ exists k : Z, a * d = k * k) ->
          baroni_urbani_buser_coefficient (swap_columns df)
          = baroni_urbani_buser_coefficient df)).
Proof.
  intros Hlen. destruct (bub_counts df) as [[[a b] c] d] eqn:Hcounts.
  pose proof (bub_counts_bounds df a b c d Hcounts) as (Ha & Hb & Hc & Hd & Hsum).
  pose proof (bub_counts_swap df a b c d Hcounts) as Hswap.
  split; [|split; [|split]].
  - intros Hdis Hex.
    pose proof (bub_counts_disjoint df a b c d Hcounts Hdis) as ->.
    pose proof (bub_counts_some_present df 0 b c d Hcounts Hex).
    unfold baroni_urbani_buser_coefficient. rewrite Hcounts.
    apply bub_value_disjoint; lia.
  - intros Hid Hnn Hex.
    pose proof (bub_counts_identical df a b c d Hcounts Hid Hnn) as [-> ->].
    pose proof (bub_counts_some_present df a 0 0 d Hcounts Hex).
    unfold baroni_urbani_buser_coefficient. rewrite Hcounts.
    apply bub_value_identical; lia.
  - intros Hnn Hnone.
    pose proof (bub_counts_none_present df Hnn Hnone) as Hzero.
    rewrite Hcounts in Hzero. injection Hzero as -> -> -> ->.
    unfold baroni_urbani_buser_coefficient. rewrite Hswap, Hcounts.
    split; apply bub_value_no_presence.
  - intros a' b' c' d' [= <- <- <- <-].
    unfold baroni_urbani_buser_coefficient. rewrite Hswap, Hcounts.
    split; [done|]. split; [done|]. split; [done|].
    intros [->|[->|[->|[Hsmall [k Hk]]]]].
    + done.
    + symmetry. apply bub_value_one_sided; lia.
    + apply bub_value_one_sided; lia.
    + change (2 ^ 26) with 67108864 in Hsmall.
      assert (Z.abs k <= a + d) as Hkle by nia.
      apply (bub_value_square_symmetric a b c d k); try done.
      * change (2 ^ 53) with 9007199254740992. nia.
      * change (2 ^ 53) with 9007199254740992. lia.
Qed.

Lemma baroni_disjoint_identical_swap_witness :
  baroni_urbani_buser_coefficient [("EC", 5, 0); ("IE", 0, 2); ("XX", 0, 0)] = Ok 0%float
  /\ baroni_urbani_buser_coefficient [("EC", 5, 1); ("IE", 0, 0)] = Ok 1%float
  /\ baroni_urbani_buser_coefficient (swap_columns [("EC", 0, 0); ("IE", 0, 0)])
     = Raise ZeroDivisionError
  /\ bub_counts [("EC", 5, 0); ("IE", 7, 2); ("XX", 0, 1); ("YY", 0, 3)] = (1, 1, 2, 0)
  /\ baroni_urbani_buser_coefficient
       (swap_columns [("EC", 5, 0); ("IE", 7, 2); ("XX", 0, 1); ("YY", 0, 3)])
     = baroni_urbani_buser_coefficient
         [("EC", 5, 0); ("IE", 7, 2); ("XX", 0, 1); ("YY", 0, 3)].
Proof.
  split; [|split; [|split; [|split]]].
  - apply (baroni_disjoint_identical_swap [("EC", 5, 0); ("IE", 0, 2); ("XX", 0, 0)]).
    + cbn. lia.
    + repeat constructor; cbn; unfold present; cbn; intros [? ?]; discriminate.
    + apply Exists_cons_hd. left. reflexivity.
  - apply (baroni_disjoint_identical_swap [("EC", 5, 1); ("IE", 0, 0)]).
    + cbn. lia.
    + repeat constructor; cbn; unfold present; cbn; intros; done.
    + repeat constructor; cbn; lia.
    + apply Exists_cons_hd. left. reflexivity.
  - apply (baroni_disjoint_identical_swap [("EC", 0, 0); ("IE", 0, 0)]).
    + cbn. lia.
    + repeat constructor; cbn; lia.
    + repeat constructor; cbn; unfold present; cbn; discriminate.
  - reflexivity.
  - apply (baroni_disjoint_identical_swap [("EC", 5, 0); ("IE", 7, 2); ("XX", 0, 1); ("YY", 0, 3)]
             ltac:(cbn; lia)) with (a := 1) (b := 1) (c := 2) (d := 0).
    + reflexivity.
    + right. right. right. split; [cbn; lia|]. by exists 0.
Defined.

(** ** get_surrounding_coords *)

Lemma pair_eq_iff (r c x y : Z) : (r, c) = (x, y) <-> r = x /\ c = y.
Proof. split; [by intros [= -> ->]|by intros [-> ->]]. Qed.

(** C9: on the 8 x 12 plate the result is the Moore neighbourhood of the
    cell with the cell itself, cut at the four edges and without repeats;
    (0,1) has exactly four cells and (3,6) exactly nine, itself included. *)
Theorem get_surrounding_coords_moore (row col : Z) :
  0 <= row <= 7 -> 1 <= col <= 12 ->
  NoDup (get_surrounding_coords row col)
  /\ (forall r c : Z,
        (r, c) ∈ get_surrounding_coords row col <->
        (row - 1 <= r <= row + 1 /\ col - 1 <= c <= col + 1
         /\ 0 <= r <= 7 /\ 1 <= c <= 12))
  /\ get_surrounding_coords 0 1 = [(0, 1); (0, 2); (1, 1); (1, 2)]
  /\ length (get_surrounding_coords 3 6) = 9%nat
  /\ (3, 6) ∈ get_surrounding_coords 3 6.
Proof.
  intros Hrow Hcol. split_and!.
  - unfold get_surrounding_coords.
    destruct (Z.eqb_spec row 0), (Z.eqb_spec row 7), (Z.eqb_spec col 1),
      (Z.eqb_spec col 12); cbn; try lia;
      repeat (apply NoDup_cons; split;
              [rewrite ?elem_of_cons, ?elem_of_nil, ?pair_eq_iff; lia|]);
      apply NoDup_nil_2.
  - intros r c. unfold get_surrounding_coords.
    destruct (Z.eqb_spec row 0), (Z.eqb_spec row 7), (Z.eqb_spec col 1),
      (Z.eqb_spec col 12); cbn; try lia;
      rewrite ?elem_of_cons, ?elem_of_nil, ?pair_eq_iff; lia.
  - reflexivity.
  - reflexivity.
  - apply (bool_decide_unpack _). by vm_compute.
Qed.

Lemma get_surrounding_coords_moore_witness :
  NoDup (get_surrounding_coords 7 12)
  /\ (forall r c : Z,
        (r, c) ∈ get_surrounding_coords 7 12 <->
        (7 - 1 <= r <= 7 + 1 /\ 12 - 1 <= c <= 12 + 1
         /\ 0 <= r <= 7 /\ 1 <= c <= 12))
  /\ get_surrounding_coords 0 1 = [(0, 1); (0, 2); (1, 1); (1, 2)]
  /\ length (get_surrounding_coords 3 6) = 9%nat
  /\ (3, 6) ∈ get_surrounding_coords 3 6.
Proof. apply (get_surrounding_coords_moore 7 12); lia. Defined.

(** ** sort_control *)

(** C8: for a sample whose region is the control sentinel, folder B12S3 is
    cut to B12, the region becomes Blanks and the sample id B12_<batch_num>;
    folder X7 is kept, the region becomes Unknowns and the sample id FX7. *)
Theorem sort_control_reference_cases (s : Diatom_Sample) :
  region s = "Control" ->
  (folder s = "B12S3" ->
   exists s' : Diatom_Sample,
     sort_control s = Ok s' /\ folder s' = "B12" /\ region s' = "Blanks"
     /\ sampleid s' = "B12_" +:+ batch_num s)
  /\ (folder s = "X7" ->
      exists s' : Diatom_Sample,
        sort_control s = Ok s' /\ folder s' = "X7" /\ region s' = "Unknowns"
        /\ sampleid s' = "FX7").
Proof.
  destruct s as [fo sa si ar re ra pr sn sd ba bn co pf ad ot sm ss no pl su pt].
  cbn [region folder batch_num]. intros ->.
  split; intros ->; eexists; (split; [reflexivity|]); done.
Qed.

Lemma sort_control_reference_cases_witness :
  (exists s' : Diatom_Sample,
     sort_control blank_B12S3 = Ok s' /\ folder s' = "B12" /\ region s' = "Blanks"
     /\ sampleid s' = "B12_Run_3")
  /\ (exists s' : Diatom_Sample,
        sort_control (with_folder "X7" blank_B12S3) = Ok s' /\ folder s' = "X7"
        /\ region s' = "Unknowns" /\ sampleid s' = "FX7").
Proof.
  split.
  - apply (sort_control_reference_cases blank_B12S3); reflexivity.
  - apply (sort_control_reference_cases (with_folder "X7" blank_B12S3)); reflexivity.
Defined.

(** ** Printing an int and reading it back *)

Lemma str_app_nil_r (s : string) : s +:+ "" = s.
Proof.
  induction s as [|c s IH]; [done|].
  change (String c s +:+ "") with (String c (s +:+ "")). by rewrite IH.
Qed.

Lemma rev_app_rev_app (s a b : string) :
  String.rev_app (String.rev_app s a) b = String.rev_app a (s +:+ b).
Proof.
  revert a b. induction s as [|c s IH]; intros a b; [done|].
  change (String c s +:+ b) with (String c (s +:+ b)). cbn. by rewrite IH.
Qed.

Lemma rev_involutive (s : string) : String.rev (String.rev s) = s.
Proof. unfold String.rev. rewrite rev_app_rev_app. cbn. apply str_app_nil_r. Qed.

Lemma str_forall_rev_app (f : ascii -> bool) (s acc : string) :
  str_forall f s = true -> str_forall f acc = true ->
  str_forall f (String.rev_app s acc) = true.
Proof.
  revert acc. induction s as [|c s IH]; intros acc Hs Hacc; [done|].
  cbn in Hs |- *. apply andb_prop in Hs as [Hc Hs]. apply IH; [done|].
  cbn. by rewrite Hc.
Qed.

Lemma lstrip_no_space (space : ascii -> bool) (s : string) :
  str_forall (fun c => negb (space c)) s = true -> lstrip_with space s = s.
Proof.
  destruct s as [|c s]; [done|]. cbn. intros [Hc _]%andb_prop.
  by destruct (space c).
Qed.

Lemma strip_no_space (space : ascii -> bool) (s : string) :
  str_forall (fun c => negb (space c)) s = true -> strip_with space s = s.
Proof.
  intros Hs. unfold strip_with. rewrite (lstrip_no_space space s Hs).
  rewrite lstrip_no_space; [apply rev_involutive|].
  by apply str_forall_rev_app.
Qed.

Lemma remove_dots_no_dot (s : string) :
  str_forall (fun c => negb (Ascii.eqb c ".")) s = true -> remove_dots s = s.
Proof.
  unfold remove_dots. induction s as [|c s IH]; [done|]. cbn.
  intros [Hc Hs]%andb_prop. rewrite Hc. by rewrite IH.
Qed.

Lemma str_forall_impl (f g : ascii -> bool) (s : string) :
  (forall c, f c = true -> g c = true) -> str_forall f s = true -> str_forall g s = true.
Proof.
  intros Hfg. induction s as [|c s IH]; [done|]. cbn.
  intros [Hc Hs]%andb_prop. by rewrite (Hfg c Hc), IH.
Qed.

Lemma is_int_char_no_space (c : ascii) :
  is_int_char c = true -> negb (Ascii.is_space c) = true.
Proof. by destruct c as [[] [] [] [] [] [] [] []]. Qed.

Lemma is_int_char_no_dot (c : ascii) :
  is_int_char c = true -> negb (Ascii.eqb c ".") = true.
Proof. by destruct c as [[] [] [] [] [] [] [] []]. Qed.

Lemma digit_of_pretty_N_char (d : N) :
  (d < 10)%N -> digit_of_ascii (pretty_N_char d) = Some (Z.of_N d).
Proof.
  intros Hd.
  assert (d = 0 \/ d = 1 \/ d = 2 \/ d = 3 \/ d = 4 \/ d = 5 \/ d = 6 \/ d = 7
          \/ d = 8 \/ d = 9)%N as Hcases by lia.
  repeat destruct Hcases as [->|Hcases]; try done. by subst.
Qed.

Lemma pretty_N_go_digits (x : N) :
  forall (after : bool) (s : string),
    (0 < x)%N ->
    parse_digits 0 after (pretty_N_go x s) = parse_digits (Z.of_N x) true s
    /\ (str_forall is_int_char s = true ->
        str_forall is_int_char (pretty_N_go x s) = true)
    /\ exists (c : ascii) (t : string),
         pretty_N_go x s = String c t /\ c <> "+"%char /\ c <> "-"%char.
Proof.
  induction (N.lt_wf_0 x) as [x _ IH]. intros after s Hx.
  rewrite pretty_N_go_step by done.
  assert (Hd : (x `mod` 10 < 10)%N) by (by apply N.mod_lt).
  assert (Hlt : (x `div` 10 < x)%N) by (by apply N.div_lt).
  pose proof (N.div_mod x 10 ltac:(done)) as Hdm.
  specialize (IH (x `div` 10)%N Hlt after (String (pretty_N_char (x `mod` 10)) s)).
  revert Hd Hlt Hdm IH.
  generalize (x `div` 10)%N (x `mod` 10)%N. intros q r Hd Hlt Hdm IH.
  pose proof (digit_of_pretty_N_char r Hd) as Hdigit.
  destruct (decide (q = 0)%N) as [->|Hq].
  - rewrite pretty_N_go_0. cbn [parse_digits]. rewrite Hdigit.
    assert (x = r) as -> by lia.
    split_and!.
    + f_equal.
    + intros Hs. cbn. rewrite Hs. unfold is_int_char. by rewrite Hdigit.
    + eexists _, _. split; [done|].
      split; intros Hc; rewrite Hc in Hdigit; discriminate.
  - destruct IH as (Hparse & Hchars & Hfirst); [lia|].
    split_and!.
    + rewrite Hparse. cbn [parse_digits]. rewrite Hdigit. f_equal. lia.
    + intros Hs. apply Hchars. cbn. rewrite Hs. unfold is_int_char.
      by rewrite Hdigit.
    + done.
Qed.

Lemma pretty_Z_chars (z : Z) : str_forall is_int_char (pretty z) = true.
Proof.
  destruct z as [|p|p]; [done| |].
  - unfold pretty, pretty_Z, pretty, pretty_positive, pretty, pretty_N.
    rewrite decide_False by done.
    by apply (pretty_N_go_digits (N.pos p) false "").
  - unfold pretty, pretty_Z, pretty, pretty_positive, pretty, pretty_N.
    rewrite decide_False by done.
    change ("-" +:+ pretty_N_go (N.pos p) "")
      with (String "-" (pretty_N_go (N.pos p) "")).
    cbn [str_forall]. rewrite andb_true_l.
    by apply (pretty_N_go_digits (N.pos p) false "").
Qed.

(** [int(str(z)) == z]. *)
Lemma parse_int_pretty (z : Z) : parse_int (pretty z) = Some z.
Proof.
  unfold parse_int. rewrite strip_no_space.
  2: { eapply str_forall_impl; [apply is_int_char_no_space|apply pretty_Z_chars]. }
  destruct z as [|p|p]; [done| |].
  - unfold pretty, pretty_Z, pretty, pretty_positive, pretty, pretty_N.
    rewrite decide_False by done.
    destruct (pretty_N_go_digits (N.pos p) false "" ltac:(lia))
      as (Hparse & _ & c & t & Heq & Hplus & Hminus).
    rewrite Heq in Hparse |- *.
    destruct c as [[] [] [] [] [] [] [] []]; try done; by rewrite Hparse.
  - unfold pretty, pretty_Z, pretty, pretty_positive, pretty, pretty_N.
    rewrite decide_False by done.
    change ("-" +:+ pretty_N_go (N.pos p) "")
      with (String "-" (pretty_N_go (N.pos p) "")).
    destruct (pretty_N_go_digits (N.pos p) false "" ltac:(lia)) as (-> & _).
    done.
Qed.

Lemma remove_dots_pretty (z : Z) : remove_dots (pretty z) = pretty z.
Proof.
  apply remove_dots_no_dot.
  eapply str_forall_impl; [apply is_int_char_no_dot|apply pretty_Z_chars].
Qed.

Lemma pretty_Z_nonempty (z : Z) : pretty z <> "".
Proof.
  intros Heq. pose proof (parse_int_pretty z) as Hparse. by rewrite Heq in Hparse.
Qed.

Lemma str_last_rev_app (t acc : string) :
  acc <> "" -> str_last (String.rev_app t acc) = str_last acc.
Proof.
  revert acc. induction t as [|x t IH]; intros acc Hacc; [done|].
  cbn [String.rev_app]. rewrite IH by done. by destruct acc.
Qed.

Lemma str_last_lstrip (space : ascii -> bool) (s : string) (c : ascii) :
  str_last s = Some c -> space c = false ->
  str_last (lstrip_with space s) = Some c.
Proof.
  intros Hlast Hc. induction s as [|x s IH]; [done|].
  cbn [lstrip_with]. destruct (space x) eqn:Hx; [|done].
  apply IH. destruct s as [|y s]; [|done]. cbn in Hlast. congruence.
Qed.

Lemma rev_app_of_last (s acc : string) (c : ascii) :
  str_last s = Some c -> exists t : string, String.rev_app s acc = String c t.
Proof.
  revert acc. induction s as [|x s IH]; intros acc Hlast; [done|].
  destruct s as [|y s].
  - cbn in Hlast |- *. injection Hlast as ->. by eexists.
  - cbn [String.rev_app]. apply (IH (String x acc)). done.
Qed.

(** Stripping keeps a first character that is not whitespace. *)
Lemma strip_first (space : ascii -> bool) (c : ascii) (t : string) :
  space c = false ->
  exists t' : string, strip_with space (String c t) = String c t'.
Proof.
  intros Hc. unfold strip_with. cbn [lstrip_with]. rewrite Hc.
  apply rev_app_of_last, str_last_lstrip; [|done].
  unfold String.rev. cbn [String.rev_app]. by rewrite str_last_rev_app.
Qed.

Lemma parse_int_F (t : string) : parse_int (String "F" t) = None.
Proof.
  unfold parse_int. destruct (strip_first Ascii.is_space "F" t eq_refl) as [t' ->].
  done.
Qed.

(** ** __init__: the identifier rules *)

(** The folder and sample id rules never raise. *)
Lemma init_folder_total (v : pyval) : exists s : string, init_folder v = Ok s.
Proof.
  unfold init_folder. destruct (truthy v) eqn:Hv; [|by eexists].
  destruct v as [|s|z|]; try done; cbn; [|by eexists..].
  unfold int_of_str. destruct (parse_int s); cbn; by eexists.
Qed.

Lemma init_sampleid_total (v : pyval) (self_folder : string) :
  exists s : string, init_sampleid v self_folder = Ok s.
Proof.
  unfold init_sampleid. destruct (truthy v); [|by eexists].
  unfold int_of_str. destruct (parse_int _); cbn; by eexists.
Qed.

(** A site id that is present and is not an integer once its dots are
    removed stops the constructor with ValueError, whatever the other
    arguments are. *)
Lemma Diatom_Sample_init_bad_siteid
    (sampleid siteid area region prn sitename sampledate barcode folder : pyval) :
  truthy siteid = true ->
  parse_int (remove_dots (py_str siteid)) = None ->
  Diatom_Sample_init sampleid siteid area region prn sitename sampledate barcode folder
  = Raise ValueError.
Proof.
  intros Htruthy Hparse. unfold Diatom_Sample_init.
  destruct (init_folder_total folder) as [self_folder ->]. cbn [mbind result_bind].
  destruct (init_sampleid_total sampleid self_folder) as [self_sampleid ->].
  cbn [mbind result_bind].
  unfold init_siteid, int_of_str. by rewrite Htruthy, Hparse.
Qed.

(** C4, the code at the failing input: the alphabetic site id ABC makes the
    constructor raise ValueError, while the same text as sample id is kept
    by the guarded sibling rule, and an absent site id gives the sentinel. *)
Theorem siteid_not_integer_raises :
  Diatom_Sample_init (PyInt 101) (PyStr "ABC") (PyStr "north") (PyStr "anglian")
    (PyInt 7) (PyStr "River Wensum") (PyStr "01/02/19") (PyStr "BC1") (PyInt 5)
  = Raise ValueError
  /\ init_siteid (PyStr "ABC") = Raise ValueError
  /\ init_sampleid (PyStr "ABC") "5" = Ok "ABC"
  /\ init_siteid PyNone = Ok no_value.
Proof. split_and!; reflexivity. Qed.

(** *** The identifier rules applied twice *)

Lemma py_str_truthy (v : pyval) : truthy v = true -> truthy (PyStr (py_str v)) = true.
Proof.
  destruct v as [|s|z|]; cbn; try done.
  intros _. rewrite bool_decide_eq_false_2; [done|apply pretty_Z_nonempty].
Qed.

Lemma truthy_pretty (z : Z) : truthy (PyStr (pretty z)) = true.
Proof. cbn. rewrite bool_decide_eq_false_2; [done|apply pretty_Z_nonempty]. Qed.

(** The folder rule returns its own results unchanged. *)
Lemma init_folder_idempotent (v : pyval) (s : string) :
  init_folder v = Ok s -> init_folder (PyStr s) = Ok s.
Proof.
  unfold init_folder at 1. destruct (truthy v) eqn:Hv; [|by intros [= <-]].
  destruct (py_int v) as [z|e] eqn:Hint; cbn [mbind result_bind try_except].
  - intros [= <-]. unfold init_folder. rewrite truthy_pretty. cbn [py_int].
    unfold int_of_str. by rewrite parse_int_pretty.
  - destruct (is_ValueError e) eqn:He; [|done]. intros [= <-].
    destruct v as [|s0|z|]; [done| |done|reflexivity].
    cbn [py_str py_int] in *. unfold init_folder. rewrite Hv. cbn [py_int py_str].
    rewrite Hint.
    cbn [mbind result_bind try_except]. by rewrite He.
Qed.

(** The sample id rule returns its own results unchanged, the F-form of an
    absent sample id included. *)
Lemma init_sampleid_idempotent (v : pyval) (self_folder other_folder s : string) :
  init_sampleid v self_folder = Ok s ->
  init_sampleid (PyStr s) other_folder = Ok s.
Proof.
  unfold init_sampleid at 1. destruct (truthy v) eqn:Hv.
  - destruct (int_of_str (remove_dots (py_str v))) as [z|e] eqn:Hint;
      cbn [mbind result_bind try_except].
    + intros [= <-]. unfold init_sampleid. rewrite truthy_pretty. cbn [py_str].
      rewrite remove_dots_pretty. unfold int_of_str. by rewrite parse_int_pretty.
    + destruct (is_ValueError e) eqn:He; [|done]. intros [= <-].
      unfold init_sampleid. rewrite py_str_truthy by done. cbn [py_str].
      rewrite Hint. cbn [mbind result_bind try_except]. by rewrite He.
  - intros [= <-]. unfold init_sampleid.
    change ("F" +:+ self_folder) with (String "F" self_folder).
    cbn [truthy py_str]. rewrite bool_decide_eq_false_2 by done. cbn [negb].
    change (remove_dots (String "F" self_folder))
      with (String "F" (remove_dots self_folder)).
    unfold int_of_str. by rewrite parse_int_F.
Qed.

(** The site id rule returns its own result unchanged when that result is
    an integer in decimal. *)
Lemma init_siteid_idempotent_on_int (v : pyval) (z : Z) :
  init_siteid v = Ok (pretty z) -> init_siteid (PyStr (pretty z)) = Ok (pretty z).
Proof.
  intros _. unfold init_siteid. rewrite truthy_pretty. cbn [py_str].
  rewrite remove_dots_pretty. unfold int_of_str. by rewrite parse_int_pretty.
Qed.

(** C7, the code at the failing input: the site id rule maps an absent
    value to the sentinel and raises ValueError on the sentinel, so applying
    it to its own result does not return that result; the folder and sample
    id rules return the sentinel and the F-form unchanged. *)
Theorem siteid_rule_not_idempotent :
  init_siteid PyNone = Ok "no_value"
  /\ init_siteid (PyStr "no_value") = Raise ValueError
  /\ init_folder PyNone = Ok "no_value"
  /\ init_folder (PyStr "no_value") = Ok "no_value"
  /\ init_sampleid PyNone "5" = Ok "F5"
  /\ init_sampleid (PyStr "F5") "5" = Ok "F5".
Proof. split_and!; reflexivity. Qed.

(** ** assign_results and the import loop *)

(** On a sample that has not passed before, the verdict follows the count. *)
Lemma assign_results_fresh (self : Diatom_Sample) (otus : otu_slice) (run : string) :
  pass_fail self = "Unsuccessful" ->
  (pass_fail (assign_results self otus run) = "Successful"
   <-> 3000 <= count (assign_results self otus run)).
Proof.
  destruct self as [fo sa si ar re ra pr sn sd ba bn co pf ad ot sm ss no pl su pt].
  cbn [pass_fail]. intros ->. unfold assign_results.
  destruct (column_sum otus _) as [n|e]; cbn [with_otu_tab with_count count folder];
    destruct (negb (bool_decide (run = ""))); cbn;
    try match goal with |- context [3000 <=? ?n] => destruct (Z.leb_spec 3000 n) end;
    cbn; split; (done || lia).
Qed.

(** The verdict is only ever raised: a sample that has passed keeps
    Successful whatever the new count is. *)
Lemma assign_results_keeps_successful (self : Diatom_Sample) (otus : otu_slice)
    (run : string) :
  pass_fail self = "Successful" ->
  pass_fail (assign_results self otus run) = "Successful".
Proof.
  destruct self as [fo sa si ar re ra pr sn sd ba bn co pf ad ot sm ss no pl su pt].
  cbn [pass_fail]. intros ->. unfold assign_results.
  destruct (column_sum otus _) as [n|e]; cbn [with_otu_tab with_count count folder];
    destruct (negb (bool_decide (run = ""))); cbn;
    try match goal with |- context [3000 <=? ?n] => destruct (Z.leb_spec 3000 n) end;
    done.
Qed.

(** C2, the code at the failing input: after the first run the sample has
    count 3000 and Successful; the guard of the import loop ([count > 3000])
    lets the second run assign again, and the sample ends with count 10 and
    still Successful.  A count of 2999 gives Unsuccessful. *)
Theorem second_assignment_breaks_verdict :
  verdicts (registry_after [run_3]) = Ok [(3000, "Successful")]
  /\ verdicts (registry_after [run_3; run_4]) = Ok [(10, "Successful")]
  /\ verdicts (registry_after [mk_file "Run_3.tsv" ["EC"] [("5.S12", [2999])]])
     = Ok [(2999, "Unsuccessful")].
Proof. split_and!; reflexivity. Qed.

(** ** The exports when no sample qualifies *)

Lemma merge_control_region_none (reg : string) (samples_otus : list Diatom_Sample)
    (main_df : local (option dataframe)) :
  Forall (fun s => ~ (region s = reg /\ 3000 <= count s)) samples_otus ->
  merge_control_region reg samples_otus main_df = Ok main_df.
Proof.
  induction 1 as [|s rest Hs _ IH]; [done|]. cbn [merge_control_region].
  destruct (bool_decide (region s = reg) && (3000 <=? count s)) eqn:Hq; [|done].
  apply andb_prop in Hq as [Hr%bool_decide_eq_true Hc%Z.leb_le]. tauto.
Qed.

Lemma merge_site_region_none (reg : string) (samples_otus : list Diatom_Sample)
    (biosys_siteid_dict : gmap string (string * string))
    (main_df : local (option dataframe)) :
  Forall (fun s => ~ (region s = reg /\ 3000 <= count s)) samples_otus ->
  merge_site_region reg samples_otus biosys_siteid_dict main_df
  = Ok (biosys_siteid_dict, main_df).
Proof.
  induction 1 as [|s rest Hs _ IH]; [done|]. cbn [merge_site_region].
  destruct (bool_decide (region s = reg) && (3000 <=? count s)) eqn:Hq; [|done].
  apply andb_prop in Hq as [Hr%bool_decide_eq_true Hc%Z.leb_le]. tauto.
Qed.

Lemma merge_tr_region_none (samples_otus samples_tr : list Diatom_Sample)
    (sample_original_fn : local string) (main_df : local (option dataframe)) :
  Forall (fun s => ~ (region s = "TR" /\ 3000 <= count s)) samples_tr ->
  merge_tr_region samples_otus samples_tr sample_original_fn main_df = Ok main_df.
Proof.
  induction 1 as [|s rest Hs _ IH]; [done|]. cbn [merge_tr_region].
  destruct (bool_decide (region s = "TR") && (3000 <=? count s)) eqn:Hq; [|done].
  apply andb_prop in Hq as [Hr%bool_decide_eq_true Hc%Z.leb_le]. tauto.
Qed.

(** The per-region export of a region other than the sentinel, when no
    sample of the region has passed: the writer is unchanged and, after the
    region, the diagnostic is printed. *)
Lemma filter_otus_by_region_none (reg : string) (samples_otus : list Diatom_Sample)
    (writer : list sheet) (control_regions : list string) :
  reg <> no_value ->
  Forall (fun s => ~ (region s = reg /\ 3000 <= count s)) samples_otus ->
  filter_otus_by_region reg samples_otus writer control_regions
  = Ok (writer, [reg; "    Region " +:+ reg +:+ " had no passing samples."]).
Proof.
  intros Hreg Hnone. unfold filter_otus_by_region. cbv zeta.
  rewrite bool_decide_eq_false_2 by done.
  destruct (bool_decide (reg = "TR")) eqn:Htr.
  - apply bool_decide_eq_true in Htr. subst reg.
    by rewrite merge_tr_region_none.
  - destruct (bool_decide (reg ∈ control_regions)).
    + by rewrite merge_control_region_none.
    + by rewrite merge_site_region_none.
Qed.

(** The sentinel region always stops at the undefined [metadata_list]. *)
Lemma filter_otus_by_region_no_value (samples_otus : list Diatom_Sample)
    (writer : list sheet) (control_regions : list string) :
  filter_otus_by_region no_value samples_otus writer control_regions = Raise NameError.
Proof. reflexivity. Qed.

Lemma merge_community_none (samples_otus : list Diatom_Sample)
    (keep_list control_regions : list string) (main_df : local (option dataframe)) :
  Forall (fun s => ~ (1 <= count s /\ region s ∈ keep_list)) samples_otus ->
  merge_community samples_otus keep_list control_regions main_df = Ok main_df.
Proof.
  induction 1 as [|s rest Hs _ IH]; [done|]. cbn [merge_community].
  destruct ((1 <=? count s) && bool_decide (region s ∈ keep_list)) eqn:Hq; [|done].
  apply andb_prop in Hq as [Hc%Z.leb_le Hr%bool_decide_eq_true]. tauto.
Qed.

(** The community export has no handler: when no sample is kept,
    [format_df(main_df)] reads the unassigned [main_df] and the call raises
    UnboundLocalError. *)
Lemma community_analysis_export_none (samples_otus : list Diatom_Sample)
    (first : string) (keep_list control_regions : list string) :
  Forall (fun s => ~ (1 <= count s
                      /\ region s ∈ (if bool_decide (first = "all") then full_keep_list
                                     else first :: keep_list))) samples_otus ->
  community_analysis_export samples_otus (first :: keep_list) control_regions
  = Raise UnboundLocalError.
Proof.
  intros Hnone. unfold community_analysis_export. cbn [mbind result_bind].
  by rewrite merge_community_none.
Qed.

(** C5, the code at the failing input: for a registry whose only sample has
    no results, the per-region export completes with the diagnostic (printed
    after the region) and an unchanged writer, and the community export
    raises UnboundLocalError. *)
Theorem community_export_raises_when_empty :
  export_both sample_5
  = (Ok ([], ["Anglian"; "    Region Anglian had no passing samples."]),
     Raise UnboundLocalError)
  /\ community_analysis_export [] community_analysis_to_keep_list control_regions
     = Raise UnboundLocalError
  /\ filter_otus_by_region "Blanks" [] [] control_regions
     = Ok ([], ["Blanks"; "    Region Blanks had no passing samples."]).
Proof. split_and!; reflexivity. Qed.

(** ** The similarity pass *)

Lemma updated_refl (s : Diatom_Sample) : updated s s.
Proof. by left. Qed.

Lemma updated_assign (s s' : Diatom_Sample) (x : float) (name : string) :
  updated s s' -> assign_most_sim_sample s' x name = assign_most_sim_sample s x name.
Proof. by intros [->|(y & name' & ->)]. Qed.

Lemma updated_successful (s s' : Diatom_Sample) :
  updated s s' -> is_successful s' = is_successful s.
Proof. by intros [->|(y & name' & ->)]. Qed.

Lemma updated_folder (s s' : Diatom_Sample) : updated s s' -> folder s' = folder s.
Proof. by intros [->|(y & name' & ->)]. Qed.

Lemma updated_score_pair (c c' s s' : Diatom_Sample) :
  updated c c' -> updated s s' -> score_pair c' s' = score_pair c s.
Proof. by intros [->|(y & n & ->)] [->|(z & n' & ->)]. Qed.

Lemma scan_candidates_updated (cent : nat) (c c' : Diatom_Sample) (pos : nat)
    (cands cands' : list Diatom_Sample) (acc : list float * float * string) :
  updated c c' -> Forall2 updated cands cands' ->
  scan_candidates cent c' pos cands' acc = scan_candidates cent c pos cands acc.
Proof.
  intros Hc Hcands. revert pos acc.
  induction Hcands as [|s s' cands cands' Hs _ IH]; intros pos acc; [done|].
  cbn [scan_candidates]. destruct (bool_decide (cent = pos)); [apply IH|].
  rewrite (updated_successful s s' Hs).
  destruct (negb (is_successful s)); [apply IH|].
  rewrite (updated_score_pair c c' s s' Hc Hs).
  destruct (score_pair c s) as [scored|e]; [|done]. cbn [mbind result_bind].
  replace (record_score acc scored s') with (record_score acc scored s); [apply IH|].
  unfold record_score. by rewrite (updated_folder s s' Hs).
Qed.

(** When no scored neighbour is above 0, the scan keeps [0.0] and [""]. *)
Lemma scan_candidates_no_match (cent : nat) (c : Diatom_Sample) (pos : nat)
    (cands : list Diatom_Sample) (sim_all sim_all' : list float) (h : float)
    (name : string) :
  scan_candidates cent c pos cands (sim_all, 0%float, "") = Ok (sim_all', h, name) ->
  (forall (k : nat) (sur : Diatom_Sample) (y : float),
     cands !! k = Some sur -> (pos + k)%nat <> cent -> pass_fail sur = "Successful" ->
     score_pair c sur = Ok (Some (true, y)) -> (0 <? y)%float = false) ->
  h = 0%float /\ name = "".
Proof.
  revert pos sim_all. induction cands as [|sur cands IH]; intros pos sim_all.
  - cbn. by intros [= _ <- <-].
  - cbn [scan_candidates]. intros Hscan Hnone.
    assert (Hrest : forall (k : nat) (sur' : Diatom_Sample) (y : float),
      cands !! k = Some sur' -> (S pos + k)%nat <> cent ->
      pass_fail sur' = "Successful" ->
      score_pair c sur' = Ok (Some (true, y)) -> (0 <? y)%float = false).
    { intros k sur' y Hk Hne. apply (Hnone (S k)); [done|lia]. }
    destruct (bool_decide (cent = pos)) eqn:Hpos; [by eapply IH|].
    apply bool_decide_eq_false in Hpos.
    destruct (is_successful sur) eqn:Hok; cbn [negb] in Hscan; [|by eapply IH].
    apply bool_decide_eq_true in Hok.
    destruct (score_pair c sur) as [[[neighbour y]|]|e] eqn:Hpair;
      cbn [mbind result_bind record_score] in Hscan; [| |done].
    + destruct neighbour; cbn [andb] in Hscan; [|by eapply IH].
      rewrite (Hnone 0%nat sur y) in Hscan; [by eapply IH|done|lia|done|done].
    + by eapply IH.
Qed.

Lemma score_centres_spec (sample_list : list Diatom_Sample) (positions : list nat) :
  forall (st st' : list Diatom_Sample) (sim_all sim_all' : list float),
    Forall2 updated sample_list st -> NoDup positions ->
    score_centres positions st sim_all = (Ok sim_all', st') ->
    Forall2 updated sample_list st'
    /\ forall (i : nat) (s : Diatom_Sample), sample_list !! i = Some s ->
         (i ∉ positions \/ pass_fail s <> "Successful" -> st' !! i = st !! i)
         /\ (i ∈ positions -> pass_fail s = "Successful" ->
             exists (acc acc' : list float) (h : float) (name : string),
               scan_candidates i s 0 sample_list (acc, 0%float, "") = Ok (acc', h, name)
               /\ st' !! i = Some (assign_most_sim_sample s h name)).
Proof.
  induction positions as [|cent positions IH]; intros st st' sim_all sim_all' Hst Hnd.
  - cbn. intros [= <- <-]. split; [done|]. intros i s Hi. split; [done|].
    by intros ?%elem_of_nil.
  - apply NoDup_cons in Hnd as [Hcent Hnd]. cbn [score_centres].
    destruct (st !! cent) as [c|] eqn:Hc.
    + destruct (Forall2_lookup_r _ _ _ _ _ Hst Hc) as (s0 & Hs0 & Hupd).
      rewrite (updated_successful s0 c Hupd).
      destruct (is_successful s0) eqn:Hok; cbn [negb].
      * apply bool_decide_eq_true in Hok.
        rewrite (scan_candidates_updated cent s0 c 0 sample_list st) by done.
        destruct (scan_candidates cent s0 0 sample_list (sim_all, 0%float, ""))
          as [[[acc1 h] name]|e] eqn:Hscan; [|done].
        rewrite (updated_assign s0 c h name Hupd). intros Hrest.
        assert (Hst1 : Forall2 updated sample_list
                         (<[cent := assign_most_sim_sample s0 h name]> st)).
        { rewrite <- (list_insert_id sample_list cent s0 Hs0) at 1.
          apply Forall2_insert; [done|]. right. eauto. }
        destruct (IH _ _ _ _ Hst1 Hnd Hrest) as [Hst' Hall]. split; [done|].
        intros i s Hi. destruct (Hall i s Hi) as [Hkeep Hset].
        destruct (decide (i = cent)) as [->|Hne].
        -- assert (s = s0) as -> by congruence. split.
           ++ intros [Hnot|Hfail]; [|done]. exfalso. apply Hnot. by left.
           ++ intros _ _. exists sim_all, acc1, h, name. split; [done|].
              rewrite Hkeep by (by left). apply list_lookup_insert_eq.
              by eapply lookup_lt_Some.
        -- split.
           ++ intros Hout. rewrite Hkeep.
              ** by rewrite list_lookup_insert_ne.
              ** destruct Hout as [Hout|Hfail]; [left|by right].
                 intros Hin. apply Hout. by right.
           ++ intros Hin. apply Hset. by apply elem_of_cons in Hin as [|].
      * apply bool_decide_eq_false in Hok. intros Hrest.
        destruct (IH _ _ _ _ Hst Hnd Hrest) as [Hst' Hall]. split; [done|].
        intros i s Hi. destruct (Hall i s Hi) as [Hkeep Hset]. split.
        -- intros [Hout|Hfail]; [|by apply Hkeep; right].
           apply Hkeep. left. intros Hin. apply Hout. by right.
        -- intros Hin Hpass. apply elem_of_cons in Hin as [->|Hin]; [|by apply Hset].
           congruence.
    + intros Hrest.
      destruct (IH _ _ _ _ Hst Hnd Hrest) as [Hst' Hall]. split; [done|].
      intros i s Hi. destruct (Hall i s Hi) as [Hkeep Hset]. split.
      * intros [Hout|Hfail]; [|by apply Hkeep; right].
        apply Hkeep. left. intros Hin. apply Hout. by right.
      * intros Hin Hpass. apply elem_of_cons in Hin as [->|Hin]; [|by apply Hset].
        destruct (Forall2_lookup_l _ _ _ _ _ Hst Hi) as (c & Hc' & _). congruence.
Qed.

(** C3, counterexample: two samples that passed and have no plate give no
    coefficient, and the call raises StatisticsError; no sheet is produced. *)
Lemma similarity_report_crashes :
  fst (score_centres (seq 0 (length unplated_registry)) unplated_registry []) = Ok []
  /\ fst (perform_similarity_checks unplated_registry) = Raise StatisticsError
  /\ (forall sheet_rows : list sim_row,
        fst (perform_similarity_checks unplated_registry) <> Ok sheet_rows).
Proof. split_and!; [reflexivity|reflexivity|]. intros sheet_rows. by vm_compute. Qed.

(** C3, as amended: when the pairwise loop ends with fewer than 2
    coefficients, the call raises StatisticsError (from [statistics.mean] on
    none, from [statistics.stdev] on one) and writes no sheet; the samples
    keep the best matches the loop assigned.  With 2 or more it returns the
    sheet, one row per sample. *)
Theorem similarity_report_needs_two (sample_list st : list Diatom_Sample)
    (sim_all : list float) :
  score_centres (seq 0 (length sample_list)) sample_list [] = (Ok sim_all, st) ->
  ((length sim_all < 2)%nat ->
   perform_similarity_checks sample_list = (Raise StatisticsError, st))
  /\ ((2 <= length sim_all)%nat ->
      perform_similarity_checks sample_list = (Ok (sim_sheet st), st)
      /\ length (sim_sheet st) = length sample_list).
Proof.
  intros Hloop. unfold perform_similarity_checks. rewrite Hloop.
  unfold stat_mean, stat_stdev. split; intros Hlen.
  - destruct sim_all as [|x [|y rest]]; cbn in *; [done|done|lia].
  - destruct sim_all as [|x [|y rest]]; cbn in Hlen; [lia|lia|].
    split; [done|]. unfold sim_sheet. rewrite length_fmap.
    destruct (score_centres_spec sample_list (seq 0 (length sample_list))
                sample_list st [] (x :: y :: rest)) as [Hst _];
      [apply Forall_Forall2_diag, Forall_forall; intros; apply updated_refl
      |apply NoDup_seq|done|].
    symmetry. by eapply Forall2_length.
Qed.

Lemma similarity_report_needs_two_witness :
  perform_similarity_checks unplated_registry
  = (Raise StatisticsError,
     snd (score_centres (seq 0 (length unplated_registry)) unplated_registry []))
  /\ fst (perform_similarity_checks plate_registry)
     = Ok [mk_sim_row "11" "12" (NumFloat 0.75) "Plate1";
           mk_sim_row "12" "11" (NumFloat 0.75) "Plate1";
           mk_sim_row "13" "no_value" (NumInt 0) "Plate1";
           mk_sim_row "14" "" (NumFloat 0) "Plate2"].
Proof.
  split.
  - apply (similarity_report_needs_two unplated_registry _ []); [reflexivity|].
    cbn. lia.
  - destruct (similarity_report_needs_two plate_registry
                (snd (score_centres (seq 0 (length plate_registry)) plate_registry []))
                [0.75%float; 0.75%float] eq_refl) as [_ Htwo].
    destruct (Htwo ltac:(cbn; lia)) as [-> _]. reflexivity.
Defined.

Lemma float_add_int_exn (x : float) (n : Z) (e : exn) :
  float_add_int x n = Raise e -> e = OverflowError.
Proof.
  unfold float_add_int, float_of_int.
  destruct (binary_normalize prec emax n 0 false); cbn; congruence.
Qed.

Lemma bub_value_exn (a b c d : Z) (e : exn) :
  bub_value a b c d = Raise e -> scoring_exn e.
Proof.
  unfold bub_value, scoring_exn. intros H.
  destruct (float_of_int (a * d)) as [ad|e0] eqn:Had; cbn [mbind result_bind] in H.
  2: { unfold float_of_int in Had.
       destruct (binary_normalize prec emax (a * d) 0 false); naive_solver. }
  unfold math_sqrt in H. destruct (ad <? 0)%float; cbn [mbind result_bind] in H;
    [naive_solver|].
  repeat match type of H with
         | mbind _ (float_add_int ?x ?n) = _ =>
             let E := fresh "E" in
             destruct (float_add_int x n) eqn:E; cbn [mbind result_bind] in H;
             [|apply float_add_int_exn in E; naive_solver]
         end.
  destruct (_ =? 0)%float; naive_solver.
Qed.

Lemma baroni_exn (df : table2) (e : exn) :
  baroni_urbani_buser_coefficient df = Raise e -> scoring_exn e.
Proof.
  unfold baroni_urbani_buser_coefficient.
  destruct (bub_counts df) as [[[a b] c] d]. apply bub_value_exn.
Qed.

Lemma score_pair_exn (c s : Diatom_Sample) (e : exn) :
  score_pair c s = Raise e -> scoring_exn e.
Proof.
  unfold score_pair.
  destruct (plate c) as [plate_cent|]; [|done].
  destruct (plate s) as [plate_sur|]; [|done].
  destruct (negb (bool_decide (plate_cent = plate_sur))); [done|].
  destruct (sur_samples c) as [coords|]; [|done].
  destruct (otu_tab s) as [sur_df|]; [|done].
  destruct (otu_tab c) as [cent_df|]; cbn [mbind result_bind].
  - destruct (baroni_urbani_buser_coefficient (pd_merge cent_df sur_df)) as [x|e0] eqn:Hb;
      cbn [mbind result_bind]; [done|].
    intros [= <-]. by eapply baroni_exn.
  - intros [= <-]. unfold scoring_exn. tauto.
Qed.

Lemma scan_candidates_exn (cent : nat) (c : Diatom_Sample) (pos : nat)
    (cands : list Diatom_Sample) (acc : list float * float * string) (e : exn) :
  scan_candidates cent c pos cands acc = Raise e -> scoring_exn e.
Proof.
  revert pos acc. induction cands as [|sur cands IH]; intros pos acc; [done|].
  cbn [scan_candidates]. destruct (bool_decide (cent = pos)); [apply IH|].
  destruct (negb (is_successful sur)); [apply IH|].
  destruct (score_pair c sur) as [scored|e0] eqn:Hpair; cbn [mbind result_bind];
    [apply IH|].
  intros [= <-]. by eapply score_pair_exn.
Qed.

Lemma score_centres_exn (positions : list nat) (st st' : list Diatom_Sample)
    (sim_all : list float) (e : exn) :
  score_centres positions st sim_all = (Raise e, st') -> scoring_exn e.
Proof.
  revert st sim_all. induction positions as [|cent positions IH]; intros st sim_all;
    [done|].
  cbn [score_centres]. destruct (st !! cent) as [c|]; [|apply IH].
  destruct (negb (is_successful c)); [apply IH|].
  destruct (scan_candidates cent c 0 st (sim_all, 0%float, ""))
    as [[[acc1 h] name]|e0] eqn:Hscan; [apply IH|].
  intros [= <- _]. by eapply scan_candidates_exn.
Qed.

(** The constructor leaves the similarity fields at their initial values. *)
Lemma Diatom_Sample_init_sim
    (sampleid siteid area region prn sitename sampledate barcode folder : pyval)
    (s : Diatom_Sample) :
  Diatom_Sample_init sampleid siteid area region prn sitename sampledate barcode folder
  = Ok s ->
  sim s = NumInt 0 /\ sim_sample s = no_value.
Proof.
  unfold Diatom_Sample_init. intros H.
  repeat match type of H with
         | mbind _ ?m = Ok _ => destruct m; cbn [mbind result_bind] in H; [|done]
         end.
  by injection H as <-.
Qed.

(** When the pairwise loop stops with an exception, it stops in the turn of
    a centre that passed, after the turns of the positions before it. *)
Lemma score_centres_stops (positions : list nat) (st st' : list Diatom_Sample)
    (sim_all : list float) (e : exn) :
  score_centres positions st sim_all = (Raise e, st') ->
  exists (before : list nat) (cent : nat) (after : list nat) (sim_mid : list float)
         (c : Diatom_Sample),
    positions = before ++ cent :: after
    /\ score_centres before st sim_all = (Ok sim_mid, st')
    /\ st' !! cent = Some c /\ pass_fail c = "Successful"
    /\ scan_candidates cent c 0 st' (sim_mid, 0%float, "") = Raise e.
Proof.
  revert st sim_all. induction positions as [|cent positions IH]; intros st sim_all;
    [done|].
  cbn [score_centres].
  assert (forall st1 sim_1,
            score_centres [cent] st sim_all = (Ok sim_1, st1) ->
            score_centres positions st1 sim_1 = (Raise e, st') ->
            exists before cent0 after sim_mid c,
              cent :: positions = before ++ cent0 :: after
              /\ score_centres before st sim_all = (Ok sim_mid, st')
              /\ st' !! cent0 = Some c /\ pass_fail c = "Successful"
              /\ scan_candidates cent0 c 0 st' (sim_mid, 0%float, "") = Raise e)
    as Hlater.
  { intros st1 sim_1 Hfirst Hrest.
    destruct (IH _ _ Hrest) as (before & cent0 & after & sim_mid & c & -> & Hb & Hc).
    exists (cent :: before), cent0, after, sim_mid, c. split; [done|].
    split; [|done]. revert Hfirst. cbn [score_centres].
    destruct (st !! cent) as [c0|]; [|by intros [= <- <-]].
    destruct (negb (is_successful c0)); [by intros [= <- <-]|].
    destruct (scan_candidates cent c0 0 st (sim_all, 0%float, ""))
      as [[[acc1 h] name]|e0]; [|done].
    by intros [= <- <-]. }
  destruct (st !! cent) as [c|] eqn:Hc.
  2: { intros Hrest. apply (Hlater st sim_all); [|done].
       cbn [score_centres]. by rewrite Hc. }
  destruct (is_successful c) eqn:Hok; cbn [negb].
  2: { intros Hrest. apply (Hlater st sim_all); [|done].
       cbn [score_centres]. by rewrite Hc, Hok. }
  destruct (scan_candidates cent c 0 st (sim_all, 0%float, ""))
    as [[[acc1 h] name]|e0] eqn:Hscan.
  { intros Hrest. eapply Hlater; [|exact Hrest].
    cbn [score_centres]. by rewrite Hc, Hok, Hscan. }
  intros [= <- <-]. exists [], cent, positions, sim_all, c.
  split_and!; [done|done|done|by apply bool_decide_eq_true in Hok|done].
Qed.

Lemma seq_split_at (n : nat) (before : list nat) (cent : nat) (after : list nat) :
  seq 0 n = before ++ cent :: after ->
  before = seq 0 cent /\ (cent < n)%nat.
Proof.
  intros Hsplit.
  assert (cent = length before) as ->.
  { pose proof (list_lookup_middle before after cent (length before) eq_refl) as Hmid.
    rewrite <- Hsplit in Hmid. apply lookup_seq in Hmid. lia. }
  assert (length before < n)%nat as Hlt.
  { apply (f_equal length) in Hsplit. rewrite length_seq, length_app in Hsplit.
    cbn in Hsplit. lia. }
  split; [|done].
  apply (f_equal (take (length before))) in Hsplit.
  rewrite take_app_length, take_seq in Hsplit. rewrite <- Hsplit at 1. f_equal. lia.
Qed.

(** The registry when an exception of the pairwise loop ends the call: the
    samples before the centre that was being analysed have been through
    their turn, the centre and the samples after it are as they were. *)
Lemma perform_similarity_checks_stops (sample_list st : list Diatom_Sample) (e : exn) :
  score_centres (seq 0 (length sample_list)) sample_list [] = (Raise e, st) ->
  scoring_exn e
  /\ exists (k : nat) (c : Diatom_Sample),
       sample_list !! k = Some c /\ pass_fail c = "Successful"
       /\ (exists acc, scan_candidates k c 0 sample_list (acc, 0%float, "") = Raise e)
       /\ forall (i : nat) (s : Diatom_Sample), sample_list !! i = Some s ->
            ((k <= i)%nat \/ pass_fail s <> "Successful" -> st !! i = Some s)
            /\ ((i < k)%nat -> pass_fail s = "Successful" ->
                exists (x : float) (name : string),
                  st !! i = Some (assign_most_sim_sample s x name)).
Proof.
  intros Hloop. split; [by eapply score_centres_exn|].
  destruct (score_centres_stops _ _ _ _ _ Hloop)
    as (before & k & after & sim_mid & c & Hsplit & Hbefore & Hk & Hok & Hscan).
  destruct (seq_split_at _ _ _ _ Hsplit) as [-> Hlt].
  destruct (score_centres_spec sample_list (seq 0 k) sample_list st [] sim_mid)
    as [Hst Hall];
    [apply Forall_Forall2_diag, Forall_forall; intros; apply updated_refl
    |apply NoDup_seq|done|].
  assert (forall i, i ∈ seq 0 k <-> (i < k)%nat) as Hin.
  { intros i. rewrite elem_of_seq. lia. }
  destruct (lookup_lt_is_Some_2 sample_list k) as [c0 Hc0]; [done|].
  assert (st !! k = Some c0) as Hk'.
  { destruct (Hall k c0 Hc0) as [Hkeep _]. rewrite Hkeep; [done|].
    left. rewrite Hin. lia. }
  assert (c0 = c) as -> by congruence.
  exists k, c. split_and!; [done|done| |].
  - exists sim_mid.
    by rewrite <- (scan_candidates_updated k c c 0 sample_list st) by (done || by left).
  - intros i s Hi. destruct (Hall i s Hi) as [Hkeep Hset]. split.
    + intros Hcase. rewrite Hkeep; [done|].
      destruct Hcase as [Hge|Hfail]; [left|by right]. rewrite Hin. lia.
    + intros Hlt' Hpass. destruct Hset as (acc & acc' & h & name & _ & Hset);
        [by apply Hin|done|]. by exists h, name.
Qed.

(** C10, counterexample: two samples that passed, in adjacent wells of one
    plate, with no taxon in common.  The merged frame of the first pair has
    no row, the coefficient is 0.0 / 0.0, and the ZeroDivisionError is not
    caught ([except AttributeError] only): the call ends before
    assign_most_sim_sample, and the Successful sample keeps the int 0 and
    the sentinel. *)
Lemma successful_sample_left_unassigned :
  exists (st : list Diatom_Sample) (s : Diatom_Sample),
    perform_similarity_checks disjoint_registry = (Raise ZeroDivisionError, st)
    /\ disjoint_registry !! 0%nat = Some s /\ st !! 0%nat = Some s
    /\ pass_fail s = "Successful" /\ sim s = NumInt 0 /\ sim_sample s = no_value.
Proof.
  destruct (disjoint_registry !! 0%nat) as [s|] eqn:Hs; [|by vm_compute in Hs].
  exists disjoint_registry, s.
  split; [by vm_compute|]. split; [done|]. split; [done|].
  vm_compute in Hs. by injection Hs as <-.
Qed.

(** C10, as amended: whatever the outcome of the call, every sample that
    did not pass is left as it was (its [sim] and [sim_sample] are those of
    the constructor, the int 0 and the sentinel).  When the pairwise loop
    raises nothing (the call returns or stops at the final report), every
    sample that passed has been assigned a float and a folder name, which
    are 0.0 and the empty string when no scored neighbour was strictly
    above 0.  When the pairwise loop raises, in the turn of a sample that
    passed, that sample and every sample after it are left as they were,
    and only the samples before it that passed have been assigned. *)
Theorem no_match_two_representations (sample_list st : list Diatom_Sample)
    (out : result (list sim_row)) :
  perform_similarity_checks sample_list = (out, st) ->
  length st = length sample_list
  /\ (forall (i : nat) (s : Diatom_Sample), sample_list !! i = Some s ->
        pass_fail s <> "Successful" ->
        st !! i = Some s
        /\ (sim s = NumInt 0 -> sim_sample s = no_value ->
            exists s' : Diatom_Sample,
              st !! i = Some s' /\ sim s' = NumInt 0 /\ sim_sample s' = no_value))
  /\ ((forall e : exn, out = Raise e -> e = StatisticsError) ->
      forall (i : nat) (s : Diatom_Sample), sample_list !! i = Some s ->
        pass_fail s = "Successful" ->
        exists (x : float) (name : string),
          st !! i = Some (assign_most_sim_sample s x name)
          /\ ((forall (j : nat) (sur : Diatom_Sample) (y : float),
                 sample_list !! j = Some sur -> j <> i ->
                 pass_fail sur = "Successful" ->
                 score_pair s sur = Ok (Some (true, y)) ->
                 (0 <? y)%float = false) ->
              exists s' : Diatom_Sample,
                st !! i = Some s' /\ sim s' = NumFloat 0 /\ sim_sample s' = ""))
  /\ (forall e : exn, out = Raise e -> e <> StatisticsError ->
      scoring_exn e
      /\ exists (k : nat) (c : Diatom_Sample),
           sample_list !! k = Some c /\ pass_fail c = "Successful"
           /\ (exists acc, scan_candidates k c 0 sample_list (acc, 0%float, "")
                           = Raise e)
           /\ forall (i : nat) (s : Diatom_Sample), sample_list !! i = Some s ->
                ((k <= i)%nat -> st !! i = Some s)
                /\ ((i < k)%nat -> pass_fail s = "Successful" ->
                    exists (x : float) (name : string),
                      st !! i = Some (assign_most_sim_sample s x name))).
Proof.
  unfold perform_similarity_checks. intros Hcall.
  destruct (score_centres (seq 0 (length sample_list)) sample_list [])
    as [[sim_all|e] st0] eqn:Hloop.
  - assert (st0 = st) as -> by (by injection Hcall).
    destruct (score_centres_spec sample_list (seq 0 (length sample_list))
                sample_list st [] sim_all) as [Hst Hall];
      [apply Forall_Forall2_diag, Forall_forall; intros; apply updated_refl
      |apply NoDup_seq|done|].
    split; [symmetry; by eapply Forall2_length|]. split; [|split].
    + intros i s Hi Hfail. destruct (Hall i s Hi) as [Hkeep _].
      rewrite Hkeep by (by right). split; [done|].
      intros Hsim Hname. by exists s.
    + intros _ i s Hi Hpass. destruct (Hall i s Hi) as [_ Hset].
      destruct Hset as (acc & acc' & h & name & Hscan & Hlookup); [|done|].
      { apply elem_of_seq. split; [lia|]. cbn. by eapply lookup_lt_Some. }
      exists h, name. split; [done|]. intros Hnone.
      destruct (scan_candidates_no_match i s 0 sample_list acc acc' h name Hscan)
        as [-> ->].
      { intros k sur y Hk Hne. apply (Hnone k); [done|lia]. }
      by eexists.
    + intros e Hout Hne. exfalso. apply Hne.
      assert (out = Raise StatisticsError) as Hstat.
      { injection Hcall as <-. revert Hout. unfold stat_mean, stat_stdev.
        destruct (bool_decide (length sim_all < 1)%nat); cbn [mbind result_bind];
          [done|].
        by destruct (bool_decide (length sim_all < 2)%nat); cbn [mbind result_bind]. }
      congruence.
  - injection Hcall as <- <-.
    destruct (perform_similarity_checks_stops sample_list st0 e Hloop)
      as (Hexn & k & c & Hk & Hok & Hscan & Hall).
    assert (Forall2 updated sample_list st0) as Hst.
    { destruct (score_centres_stops _ _ _ _ _ Hloop)
        as (before & k' & after & sim_mid & c' & Hsplit & Hbefore & _).
      destruct (seq_split_at _ _ _ _ Hsplit) as [-> _].
      by destruct (score_centres_spec sample_list (seq 0 k') sample_list st0 [] sim_mid)
        as [Hst _];
        [apply Forall_Forall2_diag, Forall_forall; intros; apply updated_refl
        |apply NoDup_seq|done|]. }
    split; [symmetry; by eapply Forall2_length|]. split; [|split].
    + intros i s Hi Hfail. destruct (Hall i s Hi) as [Hkeep _].
      rewrite Hkeep by (by right). split; [done|].
      intros Hsim Hname. by exists s.
    + intros Hstat. specialize (Hstat e eq_refl). subst e.
      destruct Hexn as [?|[?|[?|?]]]; discriminate.
    + intros e' [= <-] _. split; [done|]. exists k, c.
      split_and!; [done..|]. intros i s Hi. destruct (Hall i s Hi) as [Hkeep Hset].
      split; [|done]. intros Hge. apply Hkeep. by left.
Qed.

Lemma no_match_two_representations_witness :
  length (snd (perform_similarity_checks plate_registry)) = length plate_registry
  /\ (exists s' : Diatom_Sample,
        snd (perform_similarity_checks plate_registry) !! 2%nat = Some s'
        /\ sim s' = NumInt 0 /\ sim_sample s' = no_value)
  /\ (exists s' : Diatom_Sample,
        snd (perform_similarity_checks plate_registry) !! 3%nat = Some s'
        /\ sim s' = NumFloat 0 /\ sim_sample s' = "")
  /\ (exists (k : nat) (c : Diatom_Sample),
        disjoint_registry !! k = Some c /\ pass_fail c = "Successful"
        /\ snd (perform_similarity_checks disjoint_registry) !! k = Some c).
Proof.
  destruct (no_match_two_representations plate_registry
              (snd (perform_similarity_checks plate_registry))
              (fst (perform_similarity_checks plate_registry)))
    as (Hlen & Hfailed & Hpassed & _).
  { by destruct (perform_similarity_checks plate_registry). }
  destruct (no_match_two_representations disjoint_registry
              (snd (perform_similarity_checks disjoint_registry))
              (fst (perform_similarity_checks disjoint_registry)))
    as (_ & _ & _ & Hstops).
  { by destruct (perform_similarity_checks disjoint_registry). }
  split; [done|]. split; [|split].
  - destruct (plate_registry !! 2%nat) as [s|] eqn:Hs; [|by vm_compute in Hs].
    destruct (Hfailed 2%nat s Hs) as [_ Hinit].
    { vm_compute in Hs. by injection Hs as <-. }
    apply Hinit; vm_compute in Hs; by injection Hs as <-.
  - destruct (plate_registry !! 3%nat) as [s|] eqn:Hs; [|by vm_compute in Hs].
    destruct (Hpassed ltac:(by vm_compute) 3%nat s Hs) as (x & name & _ & Hnone).
    { vm_compute in Hs. by injection Hs as <-. }
    apply Hnone. intros j sur y Hj Hne Hok.
    assert (Some s = plate_registry !! 3%nat) as Hs' by done.
    vm_compute in Hs'. injection Hs' as ->.
    destruct j as [|[|[|[|j]]]]; vm_compute in Hj; try done;
      injection Hj as <-; by vm_compute.
  - destruct (Hstops ZeroDivisionError ltac:(by vm_compute) ltac:(done))
      as (_ & k & c & Hk & Hok & _ & Hall).
    exists k, c. split_and!; [done..|]. by apply (Hall k c Hk).
Defined.

(** Without any plate assigned nothing is scored. *)
Lemma score_pair_no_plate (c s : Diatom_Sample) :
  plate c = None -> score_pair c s = Ok None.
Proof. unfold score_pair. by intros ->. Qed.

Lemma scan_candidates_no_plate (cent : nat) (c : Diatom_Sample) (pos : nat)
    (cands : list Diatom_Sample) (acc : list float * float * string) :
  plate c = None -> scan_candidates cent c pos cands acc = Ok acc.
Proof.
  intros Hc. revert pos. induction cands as [|sur cands IH]; intros pos; [done|].
  cbn [scan_candidates]. destruct (bool_decide (cent = pos)); [apply IH|].
  destruct (negb (is_successful sur)); [apply IH|].
  rewrite score_pair_no_plate by done. cbn [mbind result_bind record_score]. apply IH.
Qed.

Lemma score_centres_no_plate (positions : list nat) (st : list Diatom_Sample)
    (sim_all : list float) :
  Forall (fun s => plate s = None) st ->
  fst (score_centres positions st sim_all) = Ok sim_all.
Proof.
  revert st. induction positions as [|cent positions IH]; intros st Hst; [done|].
  cbn [score_centres]. destruct (st !! cent) as [c|] eqn:Hc; [|by apply IH].
  destruct (negb (is_successful c)); [by apply IH|].
  pose proof (Forall_lookup_1 _ st cent c Hst Hc) as Hplate. cbn beta in Hplate.
  rewrite scan_candidates_no_plate by done.
  apply IH. by apply Forall_insert.
Qed.

(** A registry for which no extraction sheet gave a plate: the similarity
    pass always ends in StatisticsError. *)
Lemma perform_similarity_checks_no_plate (sample_list : list Diatom_Sample) :
  Forall (fun s => plate s = None) sample_list ->
  fst (perform_similarity_checks sample_list) = Raise StatisticsError.
Proof.
  intros Hnone. unfold perform_similarity_checks.
  pose proof (score_centres_no_plate (seq 0 (length sample_list)) sample_list []
                Hnone) as Hloop.
  destruct (score_centres _ _ _) as [loop_out st]. cbn [fst] in Hloop. by subst.
Qed.

(** * Further properties of the module *)

(** ** Words: split, strip and the joining of get_capital *)

Lemma str_app_cons (c : ascii) (s t : string) : String c s +:+ t = String c (s +:+ t).
Proof. done. Qed.

Lemma str_app_assoc (a b c : string) : (a +:+ b) +:+ c = a +:+ (b +:+ c).
Proof.
  induction a as [|x a IH]; [done|]. rewrite !str_app_cons. by rewrite IH.
Qed.

Lemma rev_app_app (s t acc : string) :
  String.rev_app (s +:+ t) acc = String.rev_app t (String.rev_app s acc).
Proof.
  revert acc. induction s as [|x s IH]; intros acc; [done|].
  rewrite str_app_cons. cbn [String.rev_app]. apply IH.
Qed.

Lemma rev_app_acc (s acc : string) : String.rev_app s acc = String.rev s +:+ acc.
Proof.
  unfold String.rev. revert acc. induction s as [|x s IH]; intros acc; [done|].
  cbn [String.rev_app]. rewrite (IH (String x acc)), (IH (String x "")).
  by rewrite str_app_assoc.
Qed.

Lemma str_forall_app (f : ascii -> bool) (s t : string) :
  str_forall f (s +:+ t) = str_forall f s && str_forall f t.
Proof.
  induction s as [|x s IH]; [done|]. rewrite str_app_cons. cbn [str_forall].
  by rewrite IH, andb_assoc.
Qed.

Lemma str_forall_rev (f : ascii -> bool) (s : string) :
  str_forall f (String.rev s) = str_forall f s.
Proof.
  unfold String.rev.
  assert (forall acc, str_forall f (String.rev_app s acc)
                      = str_forall f s && str_forall f acc) as H.
  { induction s as [|x s IH]; intros acc; [done|]. cbn [String.rev_app str_forall].
    rewrite IH. cbn [str_forall]. by destruct (f x), (str_forall f s). }
  rewrite H. cbn. by rewrite andb_true_r.
Qed.

Lemma rev_nonempty (s : string) : s <> "" -> String.rev s <> "".
Proof.
  intros Hs Hrev. apply Hs. rewrite <- (rev_involutive s). by rewrite Hrev.
Qed.

Lemma is_word_rev (w : string) : is_word w -> is_word (String.rev w).
Proof.
  intros [Hne Hsp]. split; [by apply rev_nonempty|by rewrite str_forall_rev].
Qed.

(** [split] reads a stretch without whitespace into the current word. *)
Lemma split_go_word (w cur s : string) :
  str_forall (fun c => negb (is_py_space c)) w = true ->
  split_go cur (w +:+ s) = split_go (String.rev_app w cur) s.
Proof.
  revert cur. induction w as [|x w IH]; intros cur Hw; [done|].
  cbn [str_forall] in Hw. apply andb_prop in Hw as [Hx Hw].
  rewrite str_app_cons. cbn [split_go String.rev_app].
  apply negb_true_iff in Hx. rewrite Hx. by apply IH.
Qed.

Lemma split_go_words (cur s : string) :
  str_forall (fun c => negb (is_py_space c)) cur = true ->
  Forall is_word (split_go cur s).
Proof.
  revert cur. induction s as [|x s IH]; intros cur Hcur; cbn [split_go].
  - destruct cur as [|y cur]; [constructor|].
    constructor; [|constructor]. by apply is_word_rev.
  - destruct (is_py_space x) eqn:Hx.
    + destruct cur as [|y cur]; [by apply IH|].
      constructor; [by apply is_word_rev|by apply IH].
    + apply IH. cbn [str_forall]. by rewrite Hx.
Qed.

Lemma split_words (s : string) : Forall is_word (split s).
Proof. by apply split_go_words. Qed.

Lemma split_join_words (words : list string) :
  Forall is_word words -> split (join_words words) = words.
Proof.
  unfold split. induction 1 as [|w rest [Hne Hw] Hrest IH]; [done|].
  destruct rest as [|w' rest].
  - cbn [join_words]. rewrite <- (str_app_nil_r w) at 1.
    rewrite split_go_word by done. cbn [split_go].
    change (String.rev_app w "") with (String.rev w).
    pose proof (rev_nonempty w Hne). destruct (String.rev w) eqn:Hrev; [done|].
    by rewrite <- Hrev, rev_involutive.
  - change (join_words (w :: w' :: rest))
      with (w +:+ String " " (join_words (w' :: rest))).
    rewrite split_go_word by done. cbn [split_go].
    change (is_py_space " ") with true. cbv iota.
    change (String.rev_app w "") with (String.rev w).
    pose proof (rev_nonempty w Hne). destruct (String.rev w) eqn:Hrev; [done|].
    rewrite <- Hrev, rev_involutive. by rewrite IH.
Qed.

Lemma str_last_app (s t : string) : t <> "" -> str_last (s +:+ t) = str_last t.
Proof.
  intros Ht. induction s as [|x s IH]; [done|]. rewrite str_app_cons.
  cbn [str_last]. rewrite IH. destruct (s +:+ t) eqn:Hst; [|done].
  by destruct s, t.
Qed.

Lemma str_last_word (w : string) :
  is_word w -> exists c, str_last w = Some c /\ is_py_space c = false.
Proof.
  intros [Hne Hw]. induction w as [|x w IH]; [done|].
  cbn [str_forall] in Hw. apply andb_prop in Hw as [Hx Hw].
  destruct w as [|y w].
  - exists x. split; [done|]. by apply negb_true_iff.
  - destruct IH as (c & Hc & Hsp); [done..|]. by exists c.
Qed.

Lemma str_last_join_words (w : string) (rest : list string) :
  Forall is_word (w :: rest) ->
  exists c, str_last (join_words (w :: rest)) = Some c /\ is_py_space c = false.
Proof.
  revert w. induction rest as [|w' rest IH]; intros w Hall.
  - apply str_last_word. by inversion Hall.
  - change (join_words (w :: w' :: rest))
      with (w +:+ String " " (join_words (w' :: rest))).
    rewrite str_last_app by done.
    inversion Hall as [|? ? _ Hrest]; subst.
    destruct (IH w' Hrest) as (c & Hc & Hsp). exists c. split; [|done].
    cbn [str_last]. rewrite Hc. by destruct (join_words (w' :: rest)).
Qed.

(** Stripping a text that starts and ends outside whitespace, followed by
    one space, gives the text. *)
Lemma strip_trailing_space (x : string) (c d : ascii) (t : string) :
  x = String c t -> is_py_space c = false ->
  str_last x = Some d -> is_py_space d = false ->
  strip (x +:+ " ") = x.
Proof.
  intros Hx Hc Hlast Hd. unfold strip, strip_with.
  assert (lstrip_with is_py_space (x +:+ " ") = x +:+ " ") as ->.
  { subst x. rewrite str_app_cons. cbn [lstrip_with]. by rewrite Hc. }
  unfold String.rev at 2. rewrite rev_app_app. cbn [String.rev_app lstrip_with].
  change (is_py_space " ") with true. cbv iota.
  change (String.rev_app x "") with (String.rev x).
  destruct (rev_app_of_last x "" d Hlast) as [t' Ht'].
  change (String.rev_app x "") with (String.rev x) in Ht'.
  rewrite Ht'. cbn [lstrip_with]. rewrite Hd. rewrite <- Ht'. apply rev_involutive.
Qed.

Lemma upper_ascii_idem (c : ascii) : upper_ascii (upper_ascii c) = upper_ascii c.
Proof. by destruct c as [[] [] [] [] [] [] [] []]. Qed.

Lemma lower_ascii_idem (c : ascii) : lower_ascii (lower_ascii c) = lower_ascii c.
Proof. by destruct c as [[] [] [] [] [] [] [] []]. Qed.

Lemma upper_ascii_space (c : ascii) : is_py_space (upper_ascii c) = is_py_space c.
Proof. by destruct c as [[] [] [] [] [] [] [] []]. Qed.

Lemma lower_ascii_space (c : ascii) : is_py_space (lower_ascii c) = is_py_space c.
Proof. by destruct c as [[] [] [] [] [] [] [] []]. Qed.

Lemma str_map_idem (f : ascii -> ascii) (s : string) :
  (forall c, f (f c) = f c) -> str_map f (str_map f s) = str_map f s.
Proof. intros Hf. induction s as [|x s IH]; [done|]. cbn. by rewrite Hf, IH. Qed.

Lemma str_forall_map (g : ascii -> bool) (f : ascii -> ascii) (s : string) :
  (forall c, g (f c) = g c) -> str_forall g (str_map f s) = str_forall g s.
Proof. intros Hf. induction s as [|x s IH]; [done|]. cbn. by rewrite Hf, IH. Qed.

Lemma capitalise_word_idem (w : string) :
  capitalise_word (capitalise_word w) = capitalise_word w.
Proof.
  destruct w as [|c w]; [done|]. cbn [capitalise_word].
  rewrite upper_ascii_idem. unfold lower.
  by rewrite (str_map_idem _ _ lower_ascii_idem).
Qed.

Lemma capitalise_word_word (w : string) : is_word w -> is_word (capitalise_word w).
Proof.
  intros [Hne Hw]. destruct w as [|c w]; [done|]. split; [done|].
  cbn [capitalise_word str_forall] in *. apply andb_prop in Hw as [Hc Hw].
  rewrite upper_ascii_space, Hc. unfold lower.
  rewrite str_forall_map; [done|]. intros x. by rewrite lower_ascii_space.
Qed.

(** The loop of get_capital builds the capitalised words, each followed by
    one space. *)
Lemma get_capital_loop (word_list : list string) (acc : string) :
  foldl (fun words_return word => words_return +:+ capitalise_word word +:+ " ")
        acc word_list
  = match word_list with
    | [] => acc
    | _ => acc +:+ join_words (capitalise_word <$> word_list) +:+ " "
    end.
Proof.
  revert acc. induction word_list as [|w rest IH]; intros acc; [done|].
  cbn [foldl]. rewrite IH. destruct rest as [|w' rest]; [done|].
  cbn [fmap list_fmap join_words]. by rewrite !str_app_assoc.
Qed.

(** get_capital on a list of words: the capitalised words, single spaces
    between them. *)
Lemma get_capital_words_join (word_list : list string) :
  Forall is_word word_list ->
  get_capital_words word_list = join_words (capitalise_word <$> word_list).
Proof.
  intros Hall. unfold get_capital_words. rewrite get_capital_loop.
  destruct word_list as [|w rest]; [done|].
  change ("" +:+ ?x) with x.
  assert (Forall is_word (capitalise_word <$> w :: rest)) as Hcap.
  { apply Forall_fmap. eapply Forall_impl; [done|]. apply capitalise_word_word. }
  cbn [fmap list_fmap] in *.
  destruct (str_last_join_words _ _ Hcap) as (d & Hd & Hdsp).
  inversion Hall as [|? ? [Hne Hw] _]; subst.
  destruct w as [|c w]; [done|]. cbn [str_forall] in Hw.
  apply andb_prop in Hw as [Hc _]. apply negb_true_iff in Hc.
  assert (exists t, join_words (capitalise_word (String c w) :: (capitalise_word <$> rest))
                    = String (upper_ascii c) t) as [t Ht].
  { cbn [capitalise_word join_words]. destruct (capitalise_word <$> rest); by eexists. }
  apply (strip_trailing_space _ (upper_ascii c) d t); [done| |done..].
  by rewrite upper_ascii_space.
Qed.

Lemma get_capital_join (s : string) :
  get_capital s = join_words (capitalise_word <$> split s).
Proof. apply get_capital_words_join, split_words. Qed.

Lemma split_get_capital (s : string) :
  split (get_capital s) = capitalise_word <$> split s.
Proof.
  rewrite get_capital_join. apply split_join_words, Forall_fmap.
  eapply Forall_impl; [apply split_words|]. apply capitalise_word_word.
Qed.

(** X4: get_capital is idempotent. *)
Theorem get_capital_idempotent (s : string) :
  get_capital (get_capital s) = get_capital s.
Proof.
  rewrite (get_capital_join (get_capital s)), split_get_capital.
  rewrite <- list_fmap_compose, get_capital_join. f_equal.
  apply list_fmap_ext. intros _ w _. apply capitalise_word_idem.
Qed.

(** ** get_capital and get_initials *)

Lemma split_go_nil_iff (cur s : string) :
  split_go cur s = [] <-> cur = "" /\ str_forall is_py_space s = true.
Proof.
  revert cur. induction s as [|x s IH]; intros cur; cbn [split_go str_forall].
  - destruct cur; split; (done || by intros []).
  - destruct (is_py_space x) eqn:Hx; cbn [andb].
    + destruct cur as [|y cur]; [apply IH|]. split; (done || by intros []).
    + rewrite IH. split; (done || by intros []).
Qed.

Lemma split_nil_iff (s : string) : split s = [] <-> str_forall is_py_space s = true.
Proof. unfold split. rewrite split_go_nil_iff. tauto. Qed.

Lemma get_capital_first (s : string) :
  match split s with
  | [] => get_capital s = ""
  | String c _ :: _ => exists t : string, get_capital s = String (upper_ascii c) t
  | EmptyString :: _ => False
  end.
Proof.
  rewrite get_capital_join. pose proof (split_words s) as Hall.
  destruct (split s) as [|w rest]; [done|].
  inversion Hall as [|? ? [Hne _] _]; subst. destruct w as [|c w]; [done|].
  cbn [fmap list_fmap join_words capitalise_word].
  destruct (capitalise_word <$> rest); rewrite ?str_app_cons; by eexists.
Qed.

Lemma get_capital_empty_iff (s : string) :
  get_capital s = "" <-> str_forall is_py_space s = true.
Proof.
  rewrite <- split_nil_iff. pose proof (get_capital_first s) as H.
  destruct (split s) as [|[|c w] rest]; [done|done|].
  destruct H as [t ->]. done.
Qed.

Lemma upper_ascii_not_n (c : ascii) : upper_ascii c <> "n"%char.
Proof. by destruct c as [[] [] [] [] [] [] [] []]. Qed.

(** No result of get_capital starts with a lower-case n: neither the
    sentinel nor the text nan is one. *)
Lemma get_capital_not_n (s t : string) : get_capital s <> String "n" t.
Proof.
  pose proof (get_capital_first s) as H.
  destruct (split s) as [|[|c w] rest]; [by rewrite H|done|].
  destruct H as [t' ->]. intros [= Hc _]. by apply upper_ascii_not_n in Hc.
Qed.

Lemma split_word (w : string) : is_word w -> split w = [w].
Proof. intros Hw. apply (split_join_words [w]). by constructor. Qed.

Lemma pretty_Z_word (z : Z) : is_word (pretty z).
Proof.
  split; [apply pretty_Z_nonempty|].
  eapply str_forall_impl; [|apply pretty_Z_chars].
  intros c. by destruct c as [[] [] [] [] [] [] [] []].
Qed.

Lemma get_capital_word_nonempty (w : string) : is_word w -> get_capital w <> "".
Proof.
  intros Hw. rewrite get_capital_join, split_word by done.
  cbn [fmap list_fmap join_words]. by apply capitalise_word_word.
Qed.

Lemma initial_of_capitalise_word (w : string) :
  initial_of_word (capitalise_word w) = initial_of_word w.
Proof. destruct w as [|c w]; [done|]. cbn. by rewrite upper_ascii_idem. Qed.

Lemma get_initials_words_fmap (f : string -> string) (words_list : list string)
    (acc : string) :
  (forall w, initial_of_word (f w) = initial_of_word w) ->
  foldl (fun initials word => initials +:+ initial_of_word word) acc (f <$> words_list)
  = foldl (fun initials word => initials +:+ initial_of_word word) acc words_list.
Proof.
  intros Hf. revert acc. induction words_list as [|w rest IH]; intros acc; [done|].
  cbn [fmap list_fmap foldl]. rewrite Hf. apply IH.
Qed.

(** X5: on ASCII text, the initials of a text are those of its capitalised
    form. *)
Theorem get_initials_of_get_capital (s : string) :
  ascii_text s ->
  get_initials_raw (PyStr (get_capital s)) = get_initials_raw (PyStr s).
Proof.
  intros _. unfold get_initials_raw. cbn [py_split mbind result_bind].
  rewrite split_get_capital. unfold get_initials_words.
  f_equal. apply get_initials_words_fmap, initial_of_capitalise_word.
Qed.

Lemma get_initials_of_get_capital_witness :
  ascii_text "river  wensum at costessey"
  /\ get_capital "river  wensum at costessey" = "River Wensum At Costessey"
  /\ get_initials_raw (PyStr (get_capital "river  wensum at costessey")) = Ok "RWAC"
  /\ get_initials_raw (PyStr "river  wensum at costessey") = Ok "RWAC".
Proof.
  assert (ascii_text "river  wensum at costessey") as Hascii by (by vm_compute).
  split; [done|]. split; [by vm_compute|].
  rewrite (get_initials_of_get_capital "river  wensum at costessey" Hascii).
  split; by vm_compute.
Defined.

(** ** __init__: when the constructor returns *)

Lemma init_region_empty_iff (region : pyval) :
  init_region region = "" <-> blank_text region.
Proof.
  unfold init_region, blank_text. split.
  - destruct (truthy region) eqn:Ht; [|done].
    destruct (bool_decide (region = PyStr "nan")); [done|].
    destruct region as [|r|z|]; [done| | |done].
    + cbn in Ht. apply negb_true_iff, bool_decide_eq_false in Ht.
      cbn [py_str]. rewrite get_capital_empty_iff. by exists r.
    + cbn [py_str]. intros H. by apply get_capital_word_nonempty in H;
        [|apply pretty_Z_word].
  - intros (r & -> & Hne & Hblank). cbn [truthy].
    rewrite bool_decide_eq_false_2 by done. cbn [negb].
    rewrite bool_decide_eq_false_2.
    + cbn [py_str]. by apply get_capital_empty_iff.
    + intros [= ->]. done.
Qed.

Lemma init_area_sentinel_iff (area : pyval) :
  init_area area = no_value <-> truthy area = false.
Proof.
  unfold init_area. destruct (truthy area); [|done].
  split; [|done]. intros H. by apply get_capital_not_n in H.
Qed.

Lemma init_prn_total (prn : pyval) : exists v : pyval, init_prn prn = Ok v.
Proof.
  unfold init_prn. destruct prn as [|s|z|]; cbn; try by eexists.
  destruct (bool_decide (s = "")); cbn; [by eexists|].
  unfold int_of_str. destruct (parse_int s); cbn; by eexists.
  destruct (z =? 0); cbn; by eexists.
Qed.

Lemma init_reg_area_cases (region area : pyval) :
  (blank_text region /\ truthy area = true /\ (forall a, area <> PyStr a)
   /\ init_reg_area region area (init_region region) (init_area area)
      = Raise AttributeError)
  \/ (~ (blank_text region /\ truthy area = true /\ (forall a, area <> PyStr a))
      /\ exists r, init_reg_area region area (init_region region) (init_area area)
                   = Ok r).
Proof.
  unfold init_reg_area.
  destruct (bool_decide (init_region region = "")) eqn:Hreg; cbn [negb orb].
  - apply bool_decide_eq_true in Hreg. pose proof Hreg as Hblank.
    apply init_region_empty_iff in Hblank.
    destruct (bool_decide (init_area area = no_value)) eqn:Harea.
    + right. apply bool_decide_eq_true, init_area_sentinel_iff in Harea.
      split; [|by eexists]. intros (_ & Ht & _). congruence.
    + apply bool_decide_eq_false in Harea.
      assert (truthy area = true) as Ht.
      { destruct (truthy area) eqn:Ht; [done|]. by apply init_area_sentinel_iff in Ht. }
      destruct Hblank as (r & -> & Hne & Hr).
      destruct area as [|a|z|]; [done| | |].
      * right. split; [|by eexists]. intros (_ & _ & Ha). by apply (Ha a).
      * left. split_and!; [by exists r|done|done|done].
      * left. split_and!; [by exists r|done|done|done].
  - right. apply bool_decide_eq_false in Hreg. split; [|by eexists].
    intros (Hblank & _). by apply init_region_empty_iff in Hblank.
Qed.

Lemma Diatom_Sample_init_cases
    (sampleid siteid area region prn sitename sampledate barcode folder : pyval) :
  let built := Diatom_Sample_init sampleid siteid area region prn sitename
                                  sampledate barcode folder in
  let bad_siteid :=
    truthy siteid = true /\ parse_int (remove_dots (py_str siteid)) = None in
  let bad_area :=
    blank_text region /\ truthy area = true /\ (forall a, area <> PyStr a) in
  (bad_siteid /\ built = Raise ValueError)
  \/ (~ bad_siteid /\ bad_area /\ built = Raise AttributeError)
  \/ (~ bad_siteid /\ ~ bad_area /\ exists s, built = Ok s).
Proof.
  cbv zeta. unfold Diatom_Sample_init.
  destruct (init_folder_total folder) as [self_folder ->]. cbn [mbind result_bind].
  destruct (init_sampleid_total sampleid self_folder) as [self_sampleid ->].
  cbn [mbind result_bind].
  destruct (init_prn_total prn) as [self_prn ->].
  unfold init_siteid, int_of_str.
  destruct (truthy siteid) eqn:Hsite.
  - destruct (parse_int (remove_dots (py_str siteid))) as [z|] eqn:Hparse;
      cbn [mbind result_bind]; [|by left].
    right.
    destruct (init_reg_area_cases region area)
      as [(Hb & Ht & Ha & ->)|(Hok & r & ->)]; cbn [mbind result_bind].
    + left. split; [by intros []|]. by split.
    + right. split; [by intros []|]. split; [done|by eexists].
  - cbn [mbind result_bind]. right.
    destruct (init_reg_area_cases region area)
      as [(Hb & Ht & Ha & ->)|(Hok & r & ->)]; cbn [mbind result_bind].
    + left. split; [by intros []|]. by split.
    + right. split; [by intros []|]. split; [done|by eexists].
Qed.

(** X1: the constructor returns a sample exactly when the site id is absent
    or reads as an integer once its dots are removed, and it is not the case
    that the region is blank text while the area is a number or NaN.  In the
    first failure it raises ValueError, in the second AttributeError. *)
Theorem Diatom_Sample_init_returns_iff
    (sampleid siteid area region prn sitename sampledate barcode folder : pyval) :
  let built := Diatom_Sample_init sampleid siteid area region prn sitename
                                  sampledate barcode folder in
  let bad_siteid :=
    truthy siteid = true /\ parse_int (remove_dots (py_str siteid)) = None in
  let bad_area :=
    blank_text region /\ truthy area = true /\ (forall a, area <> PyStr a) in
  ((exists s, built = Ok s) <-> ~ bad_siteid /\ ~ bad_area)
  /\ (bad_siteid -> built = Raise ValueError)
  /\ (~ bad_siteid -> bad_area -> built = Raise AttributeError).
Proof.
  cbv zeta.
  destruct (Diatom_Sample_init_cases sampleid siteid area region prn sitename
              sampledate barcode folder)
    as [[Hsite ->]|[(Hsite & Harea & ->)|(Hsite & Harea & s & ->)]].
  - split; [|split]; [|done|tauto]. split; [by intros []|tauto].
  - split; [|split]; [|tauto|done]. split; [by intros []|tauto].
  - split; [|split]; [|tauto|tauto]. split; [done|by eexists].
Qed.

Lemma Diatom_Sample_init_returns_iff_witness :
  let built := Diatom_Sample_init (PyInt 101) PyNone (PyInt 3) (PyStr " ") PyNone
                                  PyNone PyNone PyNone (PyInt 5) in
  let bad_siteid := truthy PyNone = true
                    /\ parse_int (remove_dots (py_str PyNone)) = None in
  let bad_area := blank_text (PyStr " ") /\ truthy (PyInt 3) = true
                  /\ (forall a, PyInt 3 <> PyStr a) in
  ~ bad_siteid /\ bad_area /\ built = Raise AttributeError.
Proof.
  cbv zeta.
  assert (~ (truthy PyNone = true
             /\ parse_int (remove_dots (py_str PyNone)) = None)) as Hsite
    by (by intros []).
  assert (blank_text (PyStr " ") /\ truthy (PyInt 3) = true
          /\ (forall a, PyInt 3 <> PyStr a)) as Harea.
  { split_and!; [exists " "; split_and!; [done|done|reflexivity]|reflexivity|by intros a]. }
  split; [done|]. split; [done|].
  exact (proj2 (proj2 (Diatom_Sample_init_returns_iff (PyInt 101) PyNone (PyInt 3)
                         (PyStr " ") PyNone PyNone PyNone PyNone (PyInt 5)))
           Hsite Harea).
Defined.

Lemma init_folder_nonempty (v : pyval) (s : string) : init_folder v = Ok s -> s <> "".
Proof.
  unfold init_folder. destruct (truthy v) eqn:Hv; [|by intros [= <-]].
  destruct (py_int v) as [z|e]; cbn [mbind result_bind try_except].
  - intros [= <-]. apply pretty_Z_nonempty.
  - destruct (is_ValueError e); [|done]. intros [= <-].
    destruct v as [|s0|z|]; [done| |apply pretty_Z_nonempty|done].
    cbn in Hv. by apply negb_true_iff, bool_decide_eq_false in Hv.
Qed.

Lemma py_str_truthy_nonempty (v : pyval) : truthy v = true -> py_str v <> "".
Proof.
  destruct v as [|s0|z|]; [done| |intros _; apply pretty_Z_nonempty|done].
  cbn. intros Hv. by apply negb_true_iff, bool_decide_eq_false in Hv.
Qed.

Lemma init_sampleid_nonempty (v : pyval) (self_folder s : string) :
  init_sampleid v self_folder = Ok s -> s <> "".
Proof.
  unfold init_sampleid. destruct (truthy v) eqn:Hv; [|by intros [= <-]].
  destruct (int_of_str _) as [z|e]; cbn [mbind result_bind try_except].
  - intros [= <-]. apply pretty_Z_nonempty.
  - destruct (is_ValueError e); [|done]. intros [= <-].
    by apply py_str_truthy_nonempty.
Qed.

Lemma init_siteid_shape (v : pyval) (s : string) :
  init_siteid v = Ok s -> s = no_value \/ exists z : Z, s = pretty z.
Proof.
  unfold init_siteid. destruct (truthy v); [|intros [= <-]; by left].
  destruct (int_of_str _) as [z|e]; cbn [mbind result_bind]; [|done].
  intros [= <-]. right. by exists z.
Qed.

Lemma init_region_not_nan (v : pyval) : init_region v <> "nan".
Proof.
  unfold init_region. destruct (truthy v); [|done].
  destruct (bool_decide _); [done|]. apply get_capital_not_n.
Qed.

(** X2: what every constructed sample satisfies: the folder and the sample
    id are never empty, the site id is the sentinel or an integer in
    decimal, the region is never the text nan, and the sample starts without
    results (count 0, Unsuccessful, no table, no plate). *)
Theorem Diatom_Sample_init_invariants
    (sampleid0 siteid0 area0 region0 prn0 sitename0 sampledate0 barcode0 folder0 : pyval)
    (s : Diatom_Sample) :
  Diatom_Sample_init sampleid0 siteid0 area0 region0 prn0 sitename0 sampledate0
                     barcode0 folder0 = Ok s ->
  folder s <> "" /\ sampleid s <> ""
  /\ (siteid s = no_value \/ exists z : Z, siteid s = pretty z)
  /\ region s <> "nan"
  /\ count s = 0 /\ pass_fail s = "Unsuccessful" /\ otu_tab s = None
  /\ plate s = None /\ plate_loc s = None.
Proof.
  unfold Diatom_Sample_init.
  destruct (init_folder folder0) as [self_folder|] eqn:Hfolder; [|done].
  cbn [mbind result_bind].
  destruct (init_sampleid sampleid0 self_folder) as [self_sampleid|] eqn:Hsampleid;
    [|done].
  cbn [mbind result_bind].
  destruct (init_siteid siteid0) as [self_siteid|] eqn:Hsiteid; [|done].
  cbn [mbind result_bind].
  destruct (init_reg_area _ _ _ _) as [self_reg_area|]; [|done].
  cbn [mbind result_bind].
  destruct (init_prn prn0) as [self_prn|]; [|done]. cbn [mbind result_bind].
  intros [= <-]. cbn.
  split_and!; try done.
  - by eapply init_folder_nonempty.
  - by eapply init_sampleid_nonempty.
  - by eapply init_siteid_shape.
  - apply init_region_not_nan.
Qed.

Lemma Diatom_Sample_init_invariants_witness :
  exists s : Diatom_Sample,
    sample_5 = Ok s
    /\ folder s <> "" /\ sampleid s <> ""
    /\ (siteid s = no_value \/ exists z : Z, siteid s = pretty z)
    /\ region s <> "nan"
    /\ count s = 0 /\ pass_fail s = "Unsuccessful" /\ otu_tab s = None
    /\ plate s = None /\ plate_loc s = None.
Proof.
  destruct sample_5 as [s|e] eqn:Hs; [|by vm_compute in Hs].
  exists s. split; [done|].
  exact (Diatom_Sample_init_invariants (PyInt 101) (PyInt 7) (PyStr "north")
           (PyStr "anglian") (PyInt 7) (PyStr "River Wensum") (PyStr "01/02/19")
           (PyStr "BC1") (PyInt 5) s Hs).
Defined.

(** ** assign_results and set_analysis_date *)

Lemma wrap_int64_range (z : Z) : - 2 ^ 63 <= wrap_int64 z < 2 ^ 63.
Proof.
  unfold wrap_int64. pose proof (Z.mod_pos_bound (z + 2 ^ 63) (2 ^ 64) ltac:(lia)).
  change (2 ^ 64) with (2 * 2 ^ 63) in *. lia.
Qed.

Lemma wrap_int64_fits (z : Z) : - 2 ^ 63 <= z < 2 ^ 63 -> wrap_int64 z = z.
Proof.
  intros Hz. unfold wrap_int64. rewrite Z.mod_small; [lia|].
  change (2 ^ 64) with (2 * 2 ^ 63). lia.
Qed.

Lemma wrap_int64_congruent (z : Z) : exists k : Z, wrap_int64 z = z + k * 2 ^ 64.
Proof.
  exists (- ((z + 2 ^ 63) / 2 ^ 64)). unfold wrap_int64.
  rewrite Z.mod_eq by lia. lia.
Qed.

(** X6: for a folder that is not the header of the taxon column and a table
    of int64 counts, assign_results stores the table; the count is the sum
    of the column headed by the folder as an int64 (the sum itself when it
    fits in 64 bits, the sum wrapped around otherwise), or 0 when the table
    has no such column; the verdict afterwards is Successful exactly when
    it was Successful before or the new count is at least 3000, and
    otherwise it is unchanged. *)
Theorem assign_results_count_and_verdict (self : Diatom_Sample) (otus : otu_slice)
    (run : string) :
  folder self <> "PrefTaxon" ->
  Forall (fun n => - 2 ^ 63 <= n < 2 ^ 63) (snd <$> slice_rows otus) ->
  let total := foldr Z.add 0 (snd <$> slice_rows otus) in
  let self' := assign_results self otus run in
  otu_tab self' = Some otus
  /\ count self' = (if bool_decide (folder self = slice_col otus)
                    then wrap_int64 total else 0)
  /\ (folder self = slice_col otus -> - 2 ^ 63 <= total < 2 ^ 63 ->
      count self' = total)
  /\ (- 2 ^ 63 <= count self' < 2 ^ 63
      /\ exists k : Z, folder self = slice_col otus -> count self' = total + k * 2 ^ 64)
  /\ (pass_fail self' = "Successful"
      <-> pass_fail self = "Successful" \/ 3000 <= count self')
  /\ (pass_fail self' = "Successful" \/ pass_fail self' = pass_fail self)
  /\ folder self' = folder self /\ sampleid self' = sampleid self
  /\ region self' = region self.
Proof.
  intros _ _. cbv zeta.
  pose proof (wrap_int64_range (foldr Z.add 0 (snd <$> slice_rows otus))) as Hrange.
  pose proof (wrap_int64_fits (foldr Z.add 0 (snd <$> slice_rows otus))) as Hfits.
  destruct (wrap_int64_congruent (foldr Z.add 0 (snd <$> slice_rows otus)))
    as [k Hk].
  assert (otu_tab (assign_results self otus run) = Some otus
          /\ count (assign_results self otus run)
             = (if bool_decide (folder self = slice_col otus)
                then wrap_int64 (foldr Z.add 0 (snd <$> slice_rows otus)) else 0)
          /\ folder (assign_results self otus run) = folder self
          /\ sampleid (assign_results self otus run) = sampleid self
          /\ region (assign_results self otus run) = region self)
    as (Htab & Hcount & Hfolder & Hsampleid & Hregion).
  { destruct self. unfold assign_results, column_sum. cbn [with_otu_tab folder].
    by destruct (bool_decide (_ = slice_col otus)),
         (negb (bool_decide (run = ""))); cbn;
         try match goal with |- context [3000 <=? ?n] => destruct (3000 <=? n) end. }
  assert ((pass_fail (assign_results self otus run) = "Successful"
           <-> pass_fail self = "Successful"
               \/ 3000 <= count (assign_results self otus run))
          /\ (pass_fail (assign_results self otus run) = "Successful"
              \/ pass_fail (assign_results self otus run) = pass_fail self))
    as [Hiff Hverdict].
  { clear. destruct self as [fo sa si ar re ra pr sn sd ba bn co pf ad ot sm ss no pl su pt].
    unfold assign_results. cbn [with_otu_tab with_count count folder].
    destruct (column_sum otus fo) as [n|e]; cbn [with_otu_tab with_count count folder];
      destruct (negb (bool_decide (run = ""))); cbn;
      try match goal with |- context [3000 <=? ?m] => destruct (Z.leb_spec 3000 m) end;
      cbn; (split; [split|]); try (intros [?|?]; (done || lia));
      try (by left); try (by right); intros; (by left) || (by right) || idtac; tauto. }
  split; [exact Htab|]. split; [exact Hcount|]. split.
  { intros Hcol Hfit. rewrite Hcount, bool_decide_eq_true_2 by done. by apply Hfits. }
  split.
  { split.
    - rewrite Hcount. destruct (bool_decide _); lia.
    - exists k. intros Hcol. by rewrite Hcount, bool_decide_eq_true_2. }
  done.
Qed.

Lemma assign_results_count_and_verdict_witness :
  folder blank_B12S3 <> "PrefTaxon"
  /\ count (assign_results blank_B12S3 (mk_slice "B12S3" [("EC", 2999); ("IE", 2)])
                           "Run_4.tsv") = 3001
  /\ pass_fail (assign_results blank_B12S3 (mk_slice "B12S3" [("EC", 2999); ("IE", 2)])
                               "Run_4.tsv") = "Successful"
  /\ count (assign_results blank_B12S3
              (mk_slice "B12S3" [("EC", 2 ^ 62); ("IE", 2 ^ 62)]) "Run_4.tsv")
     = - 2 ^ 63
  /\ pass_fail (assign_results blank_B12S3
                  (mk_slice "B12S3" [("EC", 2 ^ 62); ("IE", 2 ^ 62)]) "Run_4.tsv")
     = "Unsuccessful".
Proof.
  destruct (assign_results_count_and_verdict blank_B12S3
              (mk_slice "B12S3" [("EC", 2999); ("IE", 2)]) "Run_4.tsv" ltac:(done))
    as (_ & _ & Hcount & _ & Hiff & _).
  { repeat constructor; by vm_compute. }
  destruct (assign_results_count_and_verdict blank_B12S3
              (mk_slice "B12S3" [("EC", 2 ^ 62); ("IE", 2 ^ 62)]) "Run_4.tsv"
              ltac:(done))
    as (_ & Hwrapped & _ & _ & Hiff' & _).
  { repeat constructor; by vm_compute. }
  split; [done|]. split; [by apply Hcount|].
  split; [apply Hiff; right; by rewrite Hcount|].
  split; [exact Hwrapped|]. clear -Hwrapped. by vm_compute.
Defined.

(** X7: for a folder that is not the header of the taxon column, calling
    set_analysis_date after assign_results changes nothing, except when
    the run name (the file name up to its first dot) is the sentinel text
    itself. *)
Theorem set_analysis_date_after_assign_results (self : Diatom_Sample)
    (otus : otu_slice) (file : string) :
  folder self <> "PrefTaxon" ->
  set_analysis_date (assign_results self otus file) = assign_results self otus file
  <-> default "" (head (split_dot file)) <> no_value.
Proof.
  intros _. destruct self as [fo sa si ar re ra pr sn sd ba bn co pf ad ot sm ss no pl su pt].
  unfold assign_results, set_analysis_date.
  destruct (bool_decide (file = "")) eqn:Hfile; cbn [negb].
  - apply bool_decide_eq_true in Hfile. subst file.
    cbn [with_analysis_date with_batch_num batch_num].
    rewrite bool_decide_eq_true_2 by done. done.
  - set (run := default "" (head (split_dot file))).
    cbn [with_analysis_date with_batch_num batch_num].
    destruct (bool_decide (run = no_value)) eqn:Hrun.
    + apply bool_decide_eq_true in Hrun. rewrite Hrun.
      split; [|done]. cbn [with_analysis_date]. by intros [= H].
    + apply bool_decide_eq_false in Hrun. split; [done|]. intros _.
      by cbn [with_analysis_date].
Qed.

Lemma set_analysis_date_after_assign_results_witness :
  folder blank_B12S3 <> "PrefTaxon"
  /\ set_analysis_date (assign_results blank_B12S3 (mk_slice "B12S3" [("EC", 12)])
                                       "Run_4.tsv")
     = assign_results blank_B12S3 (mk_slice "B12S3" [("EC", 12)]) "Run_4.tsv"
  /\ set_analysis_date (assign_results blank_B12S3 (mk_slice "B12S3" [("EC", 12)])
                                       (no_value +:+ ".tsv"))
     <> assign_results blank_B12S3 (mk_slice "B12S3" [("EC", 12)]) (no_value +:+ ".tsv").
Proof.
  split; [done|]. split.
  - by apply (set_analysis_date_after_assign_results blank_B12S3
                (mk_slice "B12S3" [("EC", 12)]) "Run_4.tsv" ltac:(done)).
  - intros Hsame.
    by apply (proj1 (set_analysis_date_after_assign_results blank_B12S3
                       (mk_slice "B12S3" [("EC", 12)]) (no_value +:+ ".tsv")
                       ltac:(done))) in Hsame.
Defined.

(** ** sort_control *)

Lemma rfind_S_go_ge (i last : Z) (s : string) :
  last < i -> last <= rfind_S_go i last s.
Proof.
  revert i last. induction s as [|x s IH]; intros i last Hlt; cbn [rfind_S_go]; [lia|].
  destruct (Ascii.eqb x "S").
  - etrans; [|apply IH; lia]. lia.
  - apply IH. lia.
Qed.

Lemma rfind_S_go_none (i last : Z) (s : string) :
  str_forall (fun c => negb (Ascii.eqb c "S")) s = true -> rfind_S_go i last s = last.
Proof.
  revert i. induction s as [|x s IH]; intros i; [done|]. cbn [str_forall rfind_S_go].
  intros [Hx Hs]%andb_prop. apply negb_true_iff in Hx. rewrite Hx. by apply IH.
Qed.

Lemma control_prefix_cases (c : ascii) (t : string) :
  (rfind_S (String c t) = 0 /\ control_prefix (String c t) = "")
  \/ (rfind_S (String c t) <> 0 /\ exists t', control_prefix (String c t) = String c t').
Proof.
  unfold control_prefix.
  pose proof (rfind_S_go_ge 0 (-1) (String c t) ltac:(lia)) as Hge.
  fold (rfind_S (String c t)) in Hge.
  destruct (rfind_S (String c t) =? -1) eqn:Hnone.
  - right. apply Z.eqb_eq in Hnone. split; [lia|by eexists].
  - apply Z.eqb_neq in Hnone. unfold str_take.
    destruct (decide (rfind_S (String c t) = 0)) as [->|Hnz]; [by left|].
    right. split; [done|].
    destruct (Z.to_nat (rfind_S (String c t))) as [|n] eqn:Hn; [lia|].
    cbn [substring]. by eexists.
Qed.

Lemma sort_control_cases (self : Diatom_Sample) :
  region self = "Control" ->
  (control_prefix (folder self) = "" -> sort_control self = Raise IndexError)
  /\ (control_prefix (folder self) <> "" ->
      exists s' : Diatom_Sample,
        sort_control self = Ok s'
        /\ region s' ∈ control_regions
        /\ folder s' = upper (control_prefix (folder self))
        /\ count s' = count self /\ pass_fail s' = pass_fail self
        /\ otu_tab s' = otu_tab self).
Proof.
  destruct self as [fo sa si ar re ra pr sn sd ba bn co pf ad ot sm ss no pl su pt].
  cbn [region folder]. intros ->. unfold sort_control. cbn [region folder].
  rewrite bool_decide_eq_true_2 by done.
  set (self := mk_sample fo sa si ar "Control" ra pr sn sd ba bn co pf ad ot sm ss
                         no pl su pt).
  assert ((if rfind_S fo =? -1 then self
           else with_folder (str_take (rfind_S fo) fo) self)
          = with_folder (control_prefix fo) self) as ->.
  { unfold control_prefix. by destruct (rfind_S fo =? -1). }
  subst self. cbn [with_folder with_sampleid folder sampleid siteid area region
                   reg_area prn sitename sampledate barcode batch_num count pass_fail
                   analysis_date otu_tab sim sim_sample note plate_loc sur_samples
                   plate].
  destruct fo as [|c t].
  { split; [done|]. by intros []. }
  destruct (control_prefix_cases c t) as [[Hz ->]|[Hnz [t' ->]]].
  - split; [done|]. by intros [].
  - split; [done|]. intros _.
    cbn [lower str_map str_index String.get mbind result_bind].
    destruct (Ascii.eqb (lower_ascii c) "b"); [|
    destruct (Ascii.eqb (lower_ascii c) "n"); [|
    destruct (Ascii.eqb (lower_ascii c) "p"); [|
    destruct (Ascii.eqb (lower_ascii c) "g"); [|
    destruct (Ascii.eqb (lower_ascii c) "t")]]]];
      (eexists; split; [reflexivity|]; cbn;
       split_and!; [apply (bool_decide_unpack _); by vm_compute|done..]).
Qed.

(** X8: on a sample whose region is the control sentinel, sort_control
    raises IndexError exactly when nothing is left of the folder before its
    last capital S (the folder is empty, or its only S is its first
    character).  Otherwise it returns a sample whose region is one of the
    control regions, whose folder is the upper-cased kept part, and on which
    a second call changes nothing. *)
Theorem sort_control_classifies (self : Diatom_Sample) :
  region self = "Control" ->
  (control_prefix (folder self) = "" -> sort_control self = Raise IndexError)
  /\ (control_prefix (folder self) <> "" ->
      exists s' : Diatom_Sample,
        sort_control self = Ok s'
        /\ region s' ∈ control_regions
        /\ folder s' = upper (control_prefix (folder self))
        /\ count s' = count self /\ pass_fail s' = pass_fail self
        /\ otu_tab s' = otu_tab self
        /\ sort_control s' = Ok s').
Proof.
  intros Hregion. destruct (sort_control_cases self Hregion) as [Hraise Hok].
  split; [done|]. intros Hprefix.
  destruct (Hok Hprefix) as (s' & Hs' & Hreg & Hrest). exists s'.
  split_and!; try tauto.
  unfold sort_control. rewrite bool_decide_eq_false_2; [done|].
  intros Hcontrol. rewrite Hcontrol in Hreg. revert Hreg.
  apply (bool_decide_unpack _). by vm_compute.
Qed.

Lemma sort_control_classifies_witness :
  region blank_B12S3 = "Control"
  /\ control_prefix (folder blank_B12S3) <> ""
  /\ exists s' : Diatom_Sample,
       sort_control blank_B12S3 = Ok s'
       /\ region s' ∈ control_regions
       /\ folder s' = upper (control_prefix (folder blank_B12S3))
       /\ count s' = count blank_B12S3 /\ pass_fail s' = pass_fail blank_B12S3
       /\ otu_tab s' = otu_tab blank_B12S3
       /\ sort_control s' = Ok s'.
Proof.
  split; [reflexivity|]. split; [by vm_compute|].
  apply (proj2 (sort_control_classifies blank_B12S3 eq_refl)). by vm_compute.
Defined.

(** ** new_header *)

Lemma split_dot_go_no_dot (cur s : string) :
  no_dot cur = true -> Forall (fun piece => no_dot piece = true) (split_dot_go cur s).
Proof.
  unfold no_dot. revert cur. induction s as [|x s IH]; intros cur Hcur;
    cbn [split_dot_go].
  - constructor; [|constructor]. by rewrite str_forall_rev.
  - destruct (Ascii.eqb x ".") eqn:Hx.
    + constructor; [by rewrite str_forall_rev|]. by apply IH.
    + apply IH. cbn [str_forall]. by rewrite Hx.
Qed.

Lemma split_dot_go_whole (cur s : string) :
  no_dot s = true -> split_dot_go cur s = [String.rev cur +:+ s].
Proof.
  unfold no_dot. revert cur. induction s as [|x s IH]; intros cur; cbn [split_dot_go].
  - by rewrite str_app_nil_r.
  - cbn [str_forall]. intros [Hx Hs]%andb_prop. apply negb_true_iff in Hx.
    rewrite Hx, IH by done. f_equal. unfold String.rev. cbn [String.rev_app].
    rewrite (rev_app_acc cur (String x "")). by rewrite str_app_assoc.
Qed.

Lemma split_dot_go_first (cur s : string) :
  exists rest, split_dot_go cur s = (String.rev cur +:+
    match split_dot_go "" s with piece :: _ => piece | [] => "" end) :: rest.
Proof.
  revert cur. induction s as [|x s IH]; intros cur; cbn [split_dot_go].
  - exists []. by rewrite str_app_nil_r.
  - destruct (Ascii.eqb x ".").
    + eexists. by rewrite str_app_nil_r.
    + destruct (IH (String x cur)) as [rest ->].
      destruct (IH (String x "")) as [rest' ->]. exists rest. f_equal.
      unfold String.rev. cbn [String.rev_app].
      rewrite (rev_app_acc cur (String x "")). by rewrite str_app_assoc.
Qed.

Lemma split_dot_go_single (cur s piece : string) :
  split_dot_go cur s = [piece] -> no_dot s = true.
Proof.
  unfold no_dot. revert cur. induction s as [|x s IH]; intros cur; [done|].
  cbn [split_dot_go str_forall]. destruct (Ascii.eqb x ".").
  - destruct (split_dot_go_first "" s) as [rest ->]. done.
  - cbn [negb andb]. apply IH.
Qed.

(** X9: a header without a dot is kept as it is, and so is a header that
    starts with a dot; every other header is renamed to a text without
    dots (its first piece, joined to the second for a control letter). *)
Theorem new_header_no_dot (header : string) :
  (no_dot header = true -> new_header header = header)
  /\ (forall rest, header = String "." rest -> new_header header = header)
  /\ (forall c rest, header = String c rest -> c <> "."%char ->
      no_dot (new_header header) = true).
Proof.
  split_and!.
  - intros Hno. unfold new_header, split_dot. rewrite split_dot_go_whole by done.
    change (String.rev "" +:+ header) with header.
    destruct header as [|first rest0]; [done|]. by destruct (bool_decide _).
  - by intros rest ->.
  - intros c rest -> Hc. unfold new_header, split_dot.
    pose proof (split_dot_go_no_dot "" (String c rest) eq_refl) as Hall.
    destruct (split_dot_go "" (String c rest)) as [|[|first rest0] pieces] eqn:Hsplit.
    + by destruct (split_dot_go_first "" (String c rest)) as [? H];
        rewrite Hsplit in H.
    + exfalso. cbn [split_dot_go] in Hsplit.
      destruct (Ascii.eqb c ".") eqn:Heq; [by apply Ascii.eqb_eq in Heq|].
      destruct (split_dot_go_first (String c "") rest) as [? H].
      rewrite Hsplit in H. by injection H.
    + inversion Hall as [|? ? Hfirst Hrest]; subst.
      destruct (bool_decide _).
      * destruct pieces as [|head1 pieces].
        -- by apply split_dot_go_single in Hsplit.
        -- inversion Hrest; subst. unfold no_dot in *.
           by rewrite str_forall_app, Hfirst.
      * done.
Qed.

(** ** Control samples *)

Lemma assign_results_fields (self : Diatom_Sample) (otus : otu_slice) (run : string) :
  folder (assign_results self otus run) = folder self
  /\ region (assign_results self otus run) = region self
  /\ without_results (assign_results self otus run) = without_results self
  /\ otu_tab (assign_results self otus run) = Some otus.
Proof.
  destruct self as [fo sa si ar re ra pr sn sd ba bn co pf ad ot sm ss no pl su pt].
  unfold assign_results. cbn [with_otu_tab folder].
  by destruct (column_sum otus fo); cbn [with_count count];
    destruct (3000 <=? _); destruct (negb (bool_decide (run = ""))).
Qed.

Lemma init_region_Control : init_region (PyStr "Control") = "Control".
Proof. by vm_compute. Qed.

Lemma control_sample_unfold (otus : otu_file) (header : string) (values : list Z) :
  exists self : Diatom_Sample,
    region self = "Control" /\ folder self = control_folder header
    /\ otu_tab self = Some (slice_of otus header values)
    /\ control_sample otus header values
       = (sample ← sort_control self;
          Ok (with_otu_tab (rename_slice (sampleid sample) <$> otu_tab sample) sample)).
Proof.
  unfold control_sample, Diatom_Sample_init, control_folder.
  destruct (init_folder_total (PyStr header)) as [self_folder ->].
  cbn [mbind result_bind init_sampleid init_siteid truthy negb].
  rewrite init_region_Control.
  cbn [init_area truthy init_reg_area negb bool_decide decide_rel orb
       mbind result_bind init_prn].
  change (bool_decide ("Control" = "")) with false. cbn [negb orb mbind result_bind].
  eexists. split_and!; [| | |reflexivity].
  - by rewrite (proj1 (proj2 (assign_results_fields _ _ _))).
  - by rewrite (proj1 (assign_results_fields _ _ _)).
  - apply assign_results_fields.
Qed.

Lemma control_sample_cases (otus : otu_file) (header : string) (values : list Z) :
  (unusable_control header /\ control_sample otus header values = Raise IndexError)
  \/ (~ unusable_control header
      /\ exists s : Diatom_Sample,
           control_sample otus header values = Ok s
           /\ region s ∈ control_regions
           /\ folder s = upper (control_prefix (control_folder header))
           /\ slice_col <$> otu_tab s = Some (sampleid s)).
Proof.
  destruct (control_sample_unfold otus header values)
    as (self & Hregion & Hfolder & Htab & ->).
  destruct (sort_control_cases self Hregion) as [Hraise Hok].
  rewrite Hfolder in Hraise, Hok. unfold unusable_control.
  destruct (decide (control_prefix (control_folder header) = "")) as [Hp|Hp].
  - left. split; [done|]. by rewrite Hraise.
  - right. split; [done|].
    destruct (Hok Hp) as (s' & -> & Hreg & Hfo & _ & _ & Htab').
    cbn [mbind result_bind]. eexists. split; [done|].
    rewrite Htab' , Htab. by destruct s'.
Qed.

Lemma rfind_S_pretty (z : Z) : rfind_S (pretty z) = -1.
Proof.
  apply rfind_S_go_none. eapply str_forall_impl; [|apply pretty_Z_chars].
  intros c. by destruct c as [[] [] [] [] [] [] [] []].
Qed.

Lemma unusable_control_iff (header : string) :
  unusable_control header <-> parse_int header = None /\ rfind_S header = 0.
Proof.
  unfold unusable_control, control_folder, init_folder.
  cbn [truthy py_int py_str]. unfold int_of_str.
  destruct (bool_decide (header = "")) eqn:Hempty; cbn [negb].
  { apply bool_decide_eq_true in Hempty. subst header.
    split; [by vm_compute|by intros [_ ?]]. }
  apply bool_decide_eq_false in Hempty.
  destruct (parse_int header) as [z|] eqn:Hparse; cbn [mbind result_bind try_except].
  - unfold control_prefix. rewrite rfind_S_pretty. cbn.
    split; [|by intros []]. intros H. by apply pretty_Z_nonempty in H.
  - change (is_ValueError ValueError) with true. cbv iota.
    destruct header as [|c t]; [done|].
    destruct (control_prefix_cases c t) as [[Hz ->]|[Hnz [t' ->]]].
    + done.
    + split; [done|]. by intros [_ ?].
Qed.

(** X10: building a control sample from an unclaimed column, whose header is
    not that of the taxon column, raises IndexError, and nothing else,
    exactly when the header does not read as an integer and its only
    capital S is its first character.  Otherwise the sample is returned
    with one of the control regions and a table whose count column is
    renamed to the sample id. *)
Theorem control_sample_raises_iff (otus : otu_file) (header : string)
    (values : list Z) :
  header <> "PrefTaxon" ->
  (control_sample otus header values = Raise IndexError
   <-> parse_int header = None /\ rfind_S header = 0)
  /\ (forall e, control_sample otus header values = Raise e -> e = IndexError)
  /\ (forall s, control_sample otus header values = Ok s ->
        region s ∈ control_regions
        /\ slice_col <$> otu_tab s = Some (sampleid s)).
Proof.
  intros _. rewrite <- unusable_control_iff.
  destruct (control_sample_cases otus header values)
    as [[Hbad ->]|[Hgood (s & -> & Hreg & _ & Htab)]].
  - split_and!; [done|by intros e [= <-]|done].
  - split_and!; [done|done|]. by intros s' [= <-].
Qed.

Lemma control_sample_raises_iff_witness :
  control_sample run_5 "S1" [7; 0] = Raise IndexError
  /\ parse_int "S1" = None /\ rfind_S "S1" = 0
  /\ exists s, control_sample run_5 "B12S3" [12; 0] = Ok s
               /\ region s ∈ control_regions
               /\ slice_col <$> otu_tab s = Some (sampleid s).
Proof.
  split; [|split; [by vm_compute|split; [by vm_compute|]]].
  - apply (proj1 (control_sample_raises_iff run_5 "S1" [7; 0] ltac:(done))).
    split; vm_compute; reflexivity.
  - destruct (control_sample run_5 "B12S3" [12; 0]) as [s|e] eqn:Hs;
      [|by vm_compute in Hs].
    exists s. split; [done|].
    by apply (proj2 (proj2 (control_sample_raises_iff run_5 "B12S3" [12; 0]
                              ltac:(done)))).
Defined.

(** ** import_otu_tables_main: what happens to the registry *)

Lemma without_results_folder (s s' : Diatom_Sample) :
  without_results s' = without_results s ->
  folder s' = folder s /\ region s' = region s.
Proof. destruct s, s'. by intros [= -> -> -> -> ->]. Qed.

Lemma kept_refl (s : Diatom_Sample) : kept s s.
Proof. done. Qed.

Lemma kept_trans (s1 s2 s3 : Diatom_Sample) : kept s1 s2 -> kept s2 s3 -> kept s1 s3.
Proof.
  intros (Hid & Hpass & Hfrozen) (Hid' & Hpass' & Hfrozen'). split_and!.
  - congruence.
  - auto.
  - intros Hc. rewrite <- (Hfrozen Hc). apply Hfrozen'. by rewrite (Hfrozen Hc).
Qed.

Lemma claim_header_kept (otus : otu_file) (header : string) (values : list Z)
    (s : Diatom_Sample) :
  kept s (claim_header otus header values s).
Proof.
  unfold claim_header. destruct (bool_decide (header = folder s)); [|done].
  destruct (count s >? 3000) eqn:Hc; [done|]. split_and!.
  - apply assign_results_fields.
  - apply assign_results_keeps_successful.
  - intros Hgt. rewrite Z.gtb_ltb in Hc. apply Z.ltb_ge in Hc. lia.
Qed.

Lemma Forall2_kept_refl (l : list Diatom_Sample) : Forall2 kept l l.
Proof. apply Forall_Forall2_diag, Forall_forall. intros. apply kept_refl. Qed.

Lemma Forall2_kept_trans (l1 l2 l3 : list Diatom_Sample) :
  Forall2 kept l1 l2 -> Forall2 kept l2 l3 -> Forall2 kept l1 l3.
Proof.
  intros H12. revert l3. induction H12 as [|s1 s2 l1 l2 H _ IH]; intros l3 H23.
  - by inversion H23.
  - inversion H23 as [|? s3 ? l3' H' Hrest]; subst. constructor; [|by apply IH].
    by eapply kept_trans.
Qed.

Lemma claimed_kept (header : string) (l l' : list Diatom_Sample) :
  Forall2 kept l l' -> claimed header l' = claimed header l.
Proof.
  intros Hkept. unfold claimed. apply bool_decide_ext.
  induction Hkept as [|s s' l l' (Hid & _) _ IH]; [done|].
  apply without_results_folder in Hid as [Hfo _].
  rewrite !Exists_cons, IH, Hfo. done.
Qed.

Lemma assign_headers_spec (otus : otu_file) (headers : list (string * list Z))
    (l : list Diatom_Sample) (added : list string) :
  exists l',
    assign_headers otus headers l added
    = (l', added ++ filter (fun h => claimed h l = true) (fst <$> headers))
    /\ Forall2 kept l l'.
Proof.
  revert l added. induction headers as [|[header values] rest IH]; intros l added.
  - exists l. cbn. rewrite app_nil_r. split; [done|apply Forall2_kept_refl].
  - cbn [assign_headers fmap list_fmap fst].
    assert (Forall2 kept l (claim_header otus header values <$> l)) as Hstep.
    { apply Forall2_fmap_r, Forall_Forall2_diag, Forall_forall. intros s _.
      apply claim_header_kept. }
    destruct (IH (claim_header otus header values <$> l)
                 (if claimed header l then added ++ [header] else added))
      as (l' & -> & Hkept).
    exists l'. split; [|by eapply Forall2_kept_trans].
    f_equal. rewrite filter_cons.
    assert (filter (fun h => claimed h (claim_header otus header values <$> l) = true)
                   (fst <$> rest)
            = filter (fun h => claimed h l = true) (fst <$> rest)) as ->.
    { apply list_filter_iff. intros h. by rewrite (claimed_kept h _ _ Hstep). }
    destruct (claimed header l) eqn:Hcl.
    + rewrite decide_True by done. by rewrite <- app_assoc.
    + rewrite decide_False by done. done.
Qed.

Lemma add_controls_spec (otus : otu_file) (headers : list (string * list Z))
    (added : list string) (l : list Diatom_Sample) :
  let unclaimed := filter (fun h => fst h ∉ added) headers in
  (Exists (fun h => unusable_control (fst h)) unclaimed
   /\ add_controls otus headers added l = Raise IndexError)
  \/ (Forall (fun h => ~ unusable_control (fst h)) unclaimed
      /\ exists controls,
           add_controls otus headers added l = Ok (l ++ controls)
           /\ length controls = length unclaimed
           /\ Forall (fun c => region c ∈ control_regions) controls).
Proof.
  cbv zeta. revert l. induction headers as [|[header values] rest IH]; intros l.
  - right. split; [constructor|]. exists []. by rewrite app_nil_r.
  - cbn [add_controls]. rewrite filter_cons. cbn [fst].
    destruct (bool_decide (header ∈ added)) eqn:Hin.
    + apply bool_decide_eq_true in Hin. rewrite decide_False by (by intros ?).
      apply IH.
    + apply bool_decide_eq_false in Hin. rewrite decide_True by done.
      destruct (control_sample_cases otus header values)
        as [[Hbad ->]|[Hgood (s & -> & Hreg & _)]]; cbn [mbind result_bind].
      * left. split; [|done]. by apply Exists_cons_hd.
      * destruct (IH (l ++ [s])) as [[Hex ->]|[Hall (controls & -> & Hlen & Hctl)]].
        -- left. split; [|done]. by apply Exists_cons_tl.
        -- right. split; [by constructor|]. exists (s :: controls).
           rewrite <- app_assoc. cbn. split_and!; [done|by rewrite Hlen|].
           by constructor.
Qed.

Lemma filter_ext_in {A} (P Q : A -> Prop) `{!forall x, Decision (P x)}
    `{!forall x, Decision (Q x)} (l : list A) :
  (forall x, x ∈ l -> P x <-> Q x) -> filter P l = filter Q l.
Proof.
  induction l as [|x l IH]; intros Hext; [done|]. rewrite !filter_cons.
  rewrite IH by (intros y Hy; apply Hext; by right).
  assert (P x <-> Q x) as Hx by (apply Hext; by left).
  destruct (decide (P x)) as [HP|HP], (decide (Q x)) as [HQ|HQ]; try done; tauto.
Qed.

(** The unclaimed columns of a file: the renamed headers that are the
    folder of no sample of the registry. *)
Lemma import_one_file_spec (otus : otu_file) (l : list Diatom_Sample) :
  let unclaimed :=
    filter (fun h => claimed (fst h) l = false) (renamed_columns otus) in
  (Exists (fun h => unusable_control (fst h)) unclaimed
   /\ import_one_file otus l = Raise IndexError)
  \/ (Forall (fun h => ~ unusable_control (fst h)) unclaimed
      /\ exists l1 controls,
           import_one_file otus l = Ok (l1 ++ controls)
           /\ Forall2 kept l l1
           /\ length controls = length unclaimed
           /\ Forall (fun c => region c ∈ control_regions) controls).
Proof.
  cbv zeta. unfold import_one_file. fold (renamed_columns otus).
  destruct (assign_headers_spec otus (renamed_columns otus) l []) as (l1 & -> & Hkept).
  cbn [app].
  assert (filter (fun h => fst h ∉ filter (fun h => claimed h l = true)
                                     (fst <$> renamed_columns otus))
                 (renamed_columns otus)
          = filter (fun h => claimed (fst h) l = false) (renamed_columns otus)) as Heq.
  { apply filter_ext_in. intros h Hh.
    rewrite list_elem_of_filter. split.
    - intros Hnot. destruct (claimed (fst h) l) eqn:Hcl; [|done].
      exfalso. apply Hnot. split; [done|]. by apply list_elem_of_fmap_2.
    - intros Hcl [Hcl' _]. congruence. }
  pose proof (add_controls_spec otus (renamed_columns otus)
                (filter (fun h => claimed h l = true) (fst <$> renamed_columns otus))
                l1) as Hadd.
  cbv zeta in Hadd. rewrite Heq in Hadd.
  destruct Hadd as [[Hex ->]|[Hall (controls & -> & Hlen & Hctl)]].
  - by left.
  - right. split; [done|]. by exists l1, controls.
Qed.

(** X11: importing one file whose renamed headers are distinct and differ
    from the header of the taxon column raises IndexError, and nothing
    else, exactly when one of its unclaimed columns (renamed headers that
    are the folder of no sample) does not read as an integer and has its
    only capital S as first character. *)
Theorem import_one_file_raises_iff (otus : otu_file) (l : list Diatom_Sample) :
  distinct_headers otus ->
  let unclaimed :=
    filter (fun h => claimed (fst h) l = false) (renamed_columns otus) in
  (import_one_file otus l = Raise IndexError
   <-> Exists (fun h => parse_int (fst h) = None /\ rfind_S (fst h) = 0) unclaimed)
  /\ (forall e, import_one_file otus l = Raise e -> e = IndexError).
Proof.
  intros _. cbv zeta.
  assert (forall hs : list (string * list Z),
            Exists (fun h => parse_int (fst h) = None /\ rfind_S (fst h) = 0) hs
            <-> Exists (fun h => unusable_control (fst h)) hs) as Hiff.
  { intros hs. split; intros H; (eapply Exists_impl; [exact H|]); intros h Hh;
      by apply unusable_control_iff. }
  rewrite Hiff.
  destruct (import_one_file_spec otus l)
    as [[Hex ->]|[Hall (l1 & controls & -> & _)]].
  - split; [done|]. by intros e [= <-].
  - split; [|done]. split; [done|]. intros Hex.
    apply Exists_exists in Hex as (h & Hin & Hbad).
    rewrite Forall_forall in Hall. by destruct (Hall h Hin).
Qed.

Lemma import_one_file_raises_iff_witness :
  distinct_headers run_S
  /\ import_one_file run_S registry_5 = Raise IndexError
  /\ exists l', import_one_file run_5 registry_5 = Ok l'.
Proof.
  assert (distinct_headers run_S) as Hdistinct.
  { split; apply (bool_decide_unpack _); by vm_compute. }
  split; [done|]. split; [|eexists; vm_compute; reflexivity].
  apply (proj2 (proj1 (import_one_file_raises_iff run_S registry_5 Hdistinct))).
  apply Exists_exists. exists ("S1", [7; 0]).
  split; [|split; vm_compute; reflexivity].
  apply (bool_decide_unpack _). by vm_compute.
Defined.

(** X12: when the import of one file with distinct renamed headers returns,
    the registry has grown by one sample for each unclaimed column of the
    file, all of them with one of the control regions. *)
Theorem import_one_file_appends_controls (otus : otu_file)
    (l l' : list Diatom_Sample) :
  distinct_headers otus ->
  import_one_file otus l = Ok l' ->
  length l' = (length l + length (filter (fun h => claimed (fst h) l = false)
                                         (renamed_columns otus)))%nat
  /\ Forall (fun c => region c ∈ control_regions) (drop (length l) l').
Proof.
  intros _.
  destruct (import_one_file_spec otus l)
    as [[Hex ->]|[Hall (l1 & controls & -> & Hkept & Hlen & Hctl)]]; [done|].
  intros [= <-]. pose proof (Forall2_length _ _ _ Hkept) as Hl.
  split.
  - rewrite length_app. lia.
  - rewrite Hl, drop_app_length. done.
Qed.

Lemma import_one_file_appends_controls_witness :
  import_one_file run_5 registry_5 = Ok registry_after_run_5
  /\ length registry_after_run_5
     = (length registry_5
        + length (filter (fun h => claimed (fst h) registry_5 = false)
                         (renamed_columns run_5)))%nat
  /\ Forall (fun c => region c ∈ control_regions)
            (drop (length registry_5) registry_after_run_5).
Proof.
  assert (import_one_file run_5 registry_5 = Ok registry_after_run_5) as Hrun
    by (by vm_compute).
  split; [exact Hrun|].
  apply (import_one_file_appends_controls run_5 registry_5 registry_after_run_5);
    [|exact Hrun].
  apply (bool_decide_unpack _). by vm_compute.
Defined.

Lemma kept_control_region (c c' : Diatom_Sample) :
  kept c c' -> region c ∈ control_regions -> region c' ∈ control_regions.
Proof.
  intros (Hid & _) Hc. apply without_results_folder in Hid as [_ Hreg]. congruence.
Qed.

Lemma import_otu_tables_main_spec (files : list otu_file) (l l' : list Diatom_Sample) :
  import_otu_tables_main files l = Ok l' ->
  exists l1 controls,
    l' = l1 ++ controls /\ Forall2 kept l l1
    /\ Forall (fun c => region c ∈ control_regions) controls.
Proof.
  revert l. induction files as [|otus rest IH]; intros l.
  - intros [= <-]. exists l, []. rewrite app_nil_r.
    split_and!; [done|apply Forall2_kept_refl|constructor].
  - cbn [import_otu_tables_main].
    destruct (import_one_file_spec otus l)
      as [[Hex ->]|[Hall (l1 & controls & -> & Hkept & Hlen & Hctl)]]; [done|].
    cbn [mbind result_bind]. intros Hrest.
    destruct (IH _ Hrest) as (m1 & controls2 & -> & Hkept2 & Hctl2).
    apply Forall2_app_inv_l in Hkept2 as (m1a & m1b & Hka & Hkb & ->).
    exists m1a, (m1b ++ controls2). rewrite <- app_assoc.
    split_and!; [done|by eapply Forall2_kept_trans|].
    apply Forall_app. split; [|done].
    clear -Hkb Hctl. induction Hkb as [|c c' cs cs' Hk _ IHk]; [constructor|].
    inversion Hctl; subst. constructor; [by eapply kept_control_region|by apply IHk].
Qed.

(** X13: when the import of files with distinct renamed headers returns, every
    sample of the registry is still at its position with everything but its
    results unchanged, a verdict that was Successful is still Successful,
    and every sample added behind has one of the control regions. *)
Theorem import_otu_tables_main_keeps_registry (files : list otu_file)
    (l l' : list Diatom_Sample) :
  Forall distinct_headers files ->
  import_otu_tables_main files l = Ok l' ->
  (length l <= length l')%nat
  /\ (forall i s, l !! i = Some s ->
        exists s', l' !! i = Some s'
                   /\ without_results s' = without_results s
                   /\ (pass_fail s = "Successful" -> pass_fail s' = "Successful"))
  /\ (forall i s', (length l <= i)%nat -> l' !! i = Some s' ->
        region s' ∈ control_regions).
Proof.
  intros _ Himport.
  destruct (import_otu_tables_main_spec files l l' Himport)
    as (l1 & controls & -> & Hkept & Hctl).
  pose proof (Forall2_length _ _ _ Hkept) as Hlen. split_and!.
  - rewrite length_app. lia.
  - intros i s Hi.
    destruct (Forall2_lookup_l _ _ _ _ _ Hkept Hi) as (s' & Hi' & Hid & Hpass & _).
    exists s'. split_and!; [|done..]. by apply lookup_app_l_Some.
  - intros i s' Hge Hi. rewrite lookup_app_r in Hi by lia.
    rewrite Forall_forall in Hctl. apply Hctl. by eapply list_elem_of_lookup_2.
Qed.

Lemma import_otu_tables_main_keeps_registry_witness :
  import_otu_tables_main [run_3; run_5] registry_5 = Ok registry_after_run_5
  /\ (length registry_5 <= length registry_after_run_5)%nat
  /\ (forall i s, registry_5 !! i = Some s ->
        exists s', registry_after_run_5 !! i = Some s'
                   /\ without_results s' = without_results s
                   /\ (pass_fail s = "Successful" -> pass_fail s' = "Successful"))
  /\ (forall i s', (length registry_5 <= i)%nat ->
        registry_after_run_5 !! i = Some s' -> region s' ∈ control_regions).
Proof.
  assert (import_otu_tables_main [run_3; run_5] registry_5 = Ok registry_after_run_5)
    as Hrun by (by vm_compute).
  split; [exact Hrun|].
  apply (import_otu_tables_main_keeps_registry [run_3; run_5] registry_5
           registry_after_run_5); [|exact Hrun].
  apply (bool_decide_unpack _). by vm_compute.
Defined.

(** X14: a sample whose count exceeds 3000 is never touched by the import
    again: whatever files with distinct renamed headers follow, it is
    returned as it was. *)
Theorem import_never_overwrites_above_3000 (files : list otu_file)
    (l l' : list Diatom_Sample) (i : nat) (s : Diatom_Sample) :
  Forall distinct_headers files ->
  import_otu_tables_main files l = Ok l' ->
  l !! i = Some s -> 3000 < count s -> l' !! i = Some s.
Proof.
  intros _ Himport Hi Hcount.
  destruct (import_otu_tables_main_spec files l l' Himport)
    as (l1 & controls & -> & Hkept & _).
  destruct (Forall2_lookup_l _ _ _ _ _ Hkept Hi) as (s' & Hi' & _ & _ & Hfrozen).
  rewrite (Hfrozen Hcount) in Hi'. by apply lookup_app_l_Some.
Qed.

Lemma import_never_overwrites_above_3000_witness :
  exists (l' : list Diatom_Sample) (s : Diatom_Sample),
    import_otu_tables_main [run_4; run_3] registry_after_run_5 = Ok l'
    /\ registry_after_run_5 !! 0%nat = Some s /\ count s = 3500
    /\ l' !! 0%nat = Some s.
Proof.
  destruct (import_otu_tables_main [run_4; run_3] registry_after_run_5) as [l'|e]
    eqn:Hrun; [|by vm_compute in Hrun].
  destruct (registry_after_run_5 !! 0%nat) as [s|] eqn:Hs; [|by vm_compute in Hs].
  assert (count s = 3500) as Hcount by (vm_compute in Hs; by injection Hs as <-).
  exists l', s. split_and!; [done..|].
  apply (import_never_overwrites_above_3000 [run_4; run_3] registry_after_run_5 l' 0 s);
    [|exact Hrun|exact Hs|lia].
  apply (bool_decide_unpack _). by vm_compute.
Defined.

(** ** get_region_list *)

Lemma region_unique_spec (regions : list string) (acc : list string) :
  NoDup acc ->
  let out := foldl (fun region_unique region =>
                      if bool_decide (region ∈ region_unique) then region_unique
                      else region_unique ++ [region]) acc regions in
  NoDup out
  /\ (forall x, x ∈ out <-> x ∈ acc \/ x ∈ regions)
  /\ exists added, out = acc ++ added /\ added `sublist_of` regions.
Proof.
  cbv zeta. revert acc. induction regions as [|r regions IH]; intros acc Hacc.
  - cbn. split_and!; [done| |].
    + intros x. rewrite elem_of_nil. tauto.
    + exists []. by rewrite app_nil_r.
  - cbn [foldl]. destruct (bool_decide (r ∈ acc)) eqn:Hr.
    + apply bool_decide_eq_true in Hr.
      destruct (IH acc Hacc) as (Hnd & Hin & added & Heq & Hsub).
      split_and!; [done| |].
      * intros x. rewrite Hin, elem_of_cons. split; [tauto|].
        intros [?|[->|?]]; tauto.
      * exists added. split; [done|]. by apply sublist_cons.
    + apply bool_decide_eq_false in Hr.
      assert (NoDup (acc ++ [r])) as Hacc'.
      { apply NoDup_app. split_and!; [done| |apply NoDup_singleton].
        intros x Hx ->%list_elem_of_singleton. done. }
      destruct (IH (acc ++ [r]) Hacc') as (Hnd & Hin & added & Heq & Hsub).
      split_and!; [done| |].
      * intros x. rewrite Hin, elem_of_app, list_elem_of_singleton, elem_of_cons.
        tauto.
      * exists (r :: added). rewrite Heq, <- app_assoc. split; [done|].
        by apply sublist_skip.
Qed.

Lemma get_region_list_elem (sample_list : list Diatom_Sample) (x : string) :
  x ∈ get_region_list sample_list
  <-> x <> "nan" /\ exists s, s ∈ sample_list /\ region s = x.
Proof.
  unfold get_region_list.
  destruct (region_unique_spec (region <$> sample_list) [] (NoDup_nil_2))
    as (_ & Hin & _).
  cbv zeta in *. rewrite list_elem_of_filter, Hin, elem_of_nil, list_elem_of_fmap.
  split.
  - intros (Hx & [[]|(s & -> & Hs)]). split; [done|]. by exists s.
  - intros (Hx & s & Hs & <-). split; [done|]. right. by exists s.
Qed.

(** X15: get_region_list returns every region of the registry except the text
    nan, each once, in the order in which the regions first occur: the
    list of a registry is kept as the beginning of the list of any longer
    registry, and it is a sublist of the regions of the samples. *)
Theorem get_region_list_spec (sample_list later : list Diatom_Sample) :
  NoDup (get_region_list sample_list)
  /\ (forall x, x ∈ get_region_list sample_list
                <-> x <> "nan" /\ exists s, s ∈ sample_list /\ region s = x)
  /\ get_region_list sample_list `sublist_of` (region <$> sample_list)
  /\ get_region_list sample_list `prefix_of` get_region_list (sample_list ++ later).
Proof.
  split_and!; [| apply get_region_list_elem | |].
  - unfold get_region_list.
    destruct (region_unique_spec (region <$> sample_list) [] (NoDup_nil_2))
      as (Hnd & _).
    by apply NoDup_filter.
  - unfold get_region_list.
    destruct (region_unique_spec (region <$> sample_list) [] (NoDup_nil_2))
      as (_ & _ & added & Heq & Hsub).
    cbv zeta in *. cbn [app] in Heq. rewrite Heq.
    etrans; [apply sublist_filter|done].
  - unfold get_region_list. rewrite fmap_app, foldl_app.
    destruct (region_unique_spec (region <$> sample_list) [] (NoDup_nil_2))
      as (Hnd & _).
    destruct (region_unique_spec (region <$> later) _ Hnd)
      as (_ & _ & added & Heq & _).
    cbv zeta in *. rewrite Heq, filter_app. by eexists.
Qed.

(** ** main: a region without value stops the exports *)

Lemma export_regions_no_value (region_list : list string)
    (samples_otus : list Diatom_Sample) (writer : list sheet) (crs : list string) :
  no_value ∈ region_list ->
  exists e, export_regions region_list samples_otus writer crs = Raise e.
Proof.
  revert writer. induction region_list as [|reg rest IH]; intros writer Hin.
  - by apply elem_of_nil in Hin.
  - cbn [export_regions]. apply elem_of_cons in Hin as [<-|Hin].
    + exists NameError. by rewrite filter_otus_by_region_no_value.
    + destruct (filter_otus_by_region reg samples_otus writer crs)
        as [[writer' printed]|e]; [|by exists e].
      cbn [mbind result_bind]. destruct (IH writer' Hin) as [e ->]. by exists e.
Qed.

Lemma export_regions_stop (before after : list string)
    (samples_otus : list Diatom_Sample) (writer : list sheet) (crs : list string)
    (out : list sheet * list string) :
  export_regions before samples_otus writer crs = Ok out ->
  export_regions (before ++ no_value :: after) samples_otus writer crs = Raise NameError.
Proof.
  revert writer out. induction before as [|reg rest IH]; intros writer out;
    cbn [export_regions app].
  - intros _. by rewrite filter_otus_by_region_no_value.
  - destruct (filter_otus_by_region reg samples_otus writer crs)
      as [[w1 p1]|e]; [|done]. cbn [mbind result_bind].
    destruct (export_regions rest samples_otus w1 crs) as [out'|e] eqn:Hrest; [|done].
    intros _. by rewrite (IH w1 out' Hrest).
Qed.

(** X16: when some sample of the registry has no region (the sentinel), the
    exports at the end of main never complete: the loop over the regions
    reaches the sentinel region and stops there with NameError, unless an
    earlier region already raised. *)
Theorem main_exports_stop_at_no_value (samples_otus : list Diatom_Sample)
    (writer : list sheet) (s : Diatom_Sample) :
  s ∈ samples_otus -> region s = no_value ->
  (exists e, main_exports samples_otus writer = Raise e)
  /\ (forall before after,
        get_region_list samples_otus = before ++ no_value :: after ->
        forall out, export_regions before samples_otus writer control_regions = Ok out ->
        main_exports samples_otus writer = Raise NameError).
Proof.
  intros Hs Hreg. unfold main_exports. split.
  - assert (no_value ∈ get_region_list samples_otus) as Hin.
    { apply get_region_list_elem. split; [done|]. by exists s. }
    destruct (export_regions_no_value _ samples_otus writer control_regions Hin)
      as [e ->]. by exists e.
  - intros before after -> out Hbefore.
    by rewrite (export_regions_stop before after samples_otus writer control_regions
                  out Hbefore).
Qed.

Lemma main_exports_stop_at_no_value_witness :
  exists s : Diatom_Sample,
    s ∈ unregioned_registry /\ region s = no_value
    /\ main_exports unregioned_registry [] = Raise NameError.
Proof.
  destruct unregioned_registry as [|s rest] eqn:Hreg; [done|].
  assert (region s = no_value) as Hs by (by injection Hreg as <- _).
  exists s. split; [by left|]. split; [done|]. rewrite <- Hreg.
  refine (proj2 (main_exports_stop_at_no_value unregioned_registry [] s
                   ltac:(rewrite Hreg; by left) Hs) [] [] _ ([], []) _);
    [by vm_compute|reflexivity].
Defined.

(** ** The TR region: the misspelt assignment *)

Lemma merge_tr_region_skip (samples_otus before rest : list Diatom_Sample)
    (sample_original_fn : local string) (main_df : local (option dataframe)) :
  Forall (fun s => ~ (region s = "TR" /\ 3000 <= count s)) before ->
  merge_tr_region samples_otus (before ++ rest) sample_original_fn main_df
  = merge_tr_region samples_otus rest sample_original_fn main_df.
Proof.
  induction 1 as [|s before Hs _ IH]; [done|]. cbn [app merge_tr_region].
  destruct (bool_decide (region s = "TR") && (3000 <=? count s)) eqn:Hq; [|done].
  apply andb_prop in Hq as [Hr%bool_decide_eq_true Hc%Z.leb_le]. tauto.
Qed.

Lemma merge_or_start_unbound (tab : option dataframe) :
  merge_or_start Unbound tab = Ok (Bound tab).
Proof. done. Qed.

(** X17: in the export of the region TR, the first passing TR sample decides:
    when its folder has fewer than three characters the call raises
    IndexError, and when the third character is neither 3 nor 4 the name
    of the original sample is never assigned (the branch assigns a
    misspelt variable) and the call raises UnboundLocalError. *)
Theorem filter_otus_by_region_TR_first_sample (before after : list Diatom_Sample)
    (sample_tr : Diatom_Sample) (writer : list sheet) (crs : list string) :
  Forall (fun s => ~ (region s = "TR" /\ 3000 <= count s)) before ->
  region sample_tr = "TR" -> 3000 <= count sample_tr ->
  (String.get 2 (folder sample_tr) = None ->
   filter_otus_by_region "TR" (before ++ sample_tr :: after) writer crs
   = Raise IndexError)
  /\ (forall c, String.get 2 (folder sample_tr) = Some c ->
        c <> "3"%char -> c <> "4"%char ->
        filter_otus_by_region "TR" (before ++ sample_tr :: after) writer crs
        = Raise UnboundLocalError).
Proof.
  intros Hbefore Hregion Hcount. unfold filter_otus_by_region.
  change (bool_decide ("TR" = no_value)) with false.
  change (bool_decide ("TR" = "TR")) with true. cbv iota.
  rewrite merge_tr_region_skip by done. cbn [merge_tr_region].
  rewrite bool_decide_eq_true_2 by done.
  rewrite (proj2 (Z.leb_le _ _) Hcount). cbn [andb].
  unfold tr_original_fn, str_index. split.
  - by intros ->.
  - intros c -> H3 H4. cbn [mbind result_bind].
    rewrite (proj2 (Ascii.eqb_neq _ _) H3), (proj2 (Ascii.eqb_neq _ _) H4).
    cbn [mbind result_bind]. rewrite merge_or_start_unbound. cbn [mbind result_bind].
    by destruct before.
Qed.

Lemma filter_otus_by_region_TR_first_sample_witness :
  Forall (fun s => ~ (region s = "TR" /\ 3000 <= count s)) registry_5
  /\ region tr_sample = "TR" /\ 3000 <= count tr_sample
  /\ String.get 2 (folder tr_sample) = Some "5"%char
  /\ filter_otus_by_region "TR" (registry_5 ++ [tr_sample]) [] control_regions
     = Raise UnboundLocalError.
Proof.
  assert (Forall (fun s => ~ (region s = "TR" /\ 3000 <= count s)) registry_5) as Hb.
  { repeat constructor. by intros [? _]. }
  assert (3000 <= count tr_sample) as Hc by (by vm_compute).
  split_and!; [done|done|done|done|].
  by apply (proj2 (filter_otus_by_region_TR_first_sample registry_5 [] tr_sample []
                     control_regions Hb eq_refl Hc) "5"%char).
Defined.

(** ** import_metadata_ea, import_metadata_sepa *)

Lemma ea_sample_cases (row : ea_row) :
  (~ ea_row_accepted row
   /\ (ea_sample row = Raise ValueError \/ ea_sample row = Raise AttributeError))
  \/ (ea_row_accepted row /\ exists s, ea_sample row = Ok s).
Proof.
  unfold ea_sample, ea_row_accepted.
  destruct (Diatom_Sample_init_cases (ea_SampleId row) (ea_SiteID row) (ea_Area row)
              (ea_Region row) (ea_PRN row) (ea_SiteName row) (ea_SampleDate row)
              (ea_Barcode_R row) (ea_Folder row))
    as [[Hsite ->]|[(Hsite & Harea & ->)|(Hsite & Harea & s & ->)]].
  - left. split; [tauto|by left].
  - left. split; [tauto|by right].
  - right. split; [done|by eexists].
Qed.

(** X18: the EA metadata import is all or nothing.  It returns a registry
    exactly when every row is accepted by the constructor (site id absent
    or an integer, and not a blank region with a numeric area); the registry
    then has one sample per row, in order.  One row that is not accepted
    makes the whole import raise ValueError or AttributeError. *)
Theorem import_metadata_ea_all_or_nothing (rows : list ea_row) :
  ((exists samples_list, import_metadata_ea rows = Ok samples_list)
   <-> Forall ea_row_accepted rows)
  /\ (forall samples_list, import_metadata_ea rows = Ok samples_list ->
        Forall2 (fun row s => ea_sample row = Ok s) rows samples_list)
  /\ (forall e, import_metadata_ea rows = Raise e ->
        e = ValueError \/ e = AttributeError).
Proof.
  induction rows as [|row rest (IHiff & IHok & IHraise)].
  - split_and!; [|by intros ? [= <-]|done].
    split; [constructor|by eexists].
  - cbn [import_metadata_ea].
    destruct (ea_sample_cases row) as [[Hbad Hraise]|[Hgood [s Hs]]].
    + assert (exists e, ea_sample row = Raise e /\ (e = ValueError \/ e = AttributeError))
        as (e & He & Hcls) by (destruct Hraise; eexists; eauto).
      rewrite He. cbn [mbind result_bind]. split_and!.
      * split; [by intros []|]. intros Hall. by inversion Hall.
      * done.
      * by intros e' [= <-].
    + rewrite Hs. cbn [mbind result_bind].
      destruct (import_metadata_ea rest) as [samples_list|e]; cbn [mbind result_bind].
      * split_and!; [|intros ? [= <-]; constructor; [done|by apply IHok]|done].
        split; [|by eexists]. intros _. constructor; [done|].
        apply IHiff. by eexists.
      * split_and!; [|done|intros e' [= <-]; by apply IHraise].
        split; [by intros []|]. intros Hall. inversion Hall; subst.
        by apply IHiff in H2 as [].
Qed.

Lemma import_metadata_ea_all_or_nothing_witness :
  ~ Forall ea_row_accepted ea_sheet
  /\ import_metadata_ea ea_sheet = Raise ValueError
  /\ exists samples_list, import_metadata_ea (take 1 ea_sheet) = Ok samples_list.
Proof.
  split; [|split; [by vm_compute|]].
  - intros Hall.
    apply (proj1 (import_metadata_ea_all_or_nothing ea_sheet)) in Hall as [l Hl].
    by vm_compute in Hl.
  - by eexists.
Defined.

Lemma Diatom_Sample_init_fields
    (sampleid0 siteid0 area0 region0 prn0 sitename0 sampledate0 barcode0 folder0 : pyval)
    (s : Diatom_Sample) :
  Diatom_Sample_init sampleid0 siteid0 area0 region0 prn0 sitename0 sampledate0
                     barcode0 folder0 = Ok s ->
  init_folder folder0 = Ok (folder s)
  /\ init_sampleid sampleid0 (folder s) = Ok (sampleid s)
  /\ init_siteid siteid0 = Ok (siteid s)
  /\ area s = init_area area0 /\ region s = init_region region0.
Proof.
  unfold Diatom_Sample_init.
  destruct (init_folder folder0) as [self_folder|]; [|done]. cbn [mbind result_bind].
  destruct (init_sampleid sampleid0 self_folder) as [self_sampleid|] eqn:Hsampleid;
    [|done].
  cbn [mbind result_bind].
  destruct (init_siteid siteid0) as [self_siteid|]; [|done]. cbn [mbind result_bind].
  destruct (init_reg_area _ _ _ _) as [self_reg_area|]; [|done].
  cbn [mbind result_bind].
  destruct (init_prn prn0) as [self_prn|]; [|done]. cbn [mbind result_bind].
  by intros [= <-].
Qed.

Lemma sepa_sample_total (row : sepa_row) :
  sepa_sepa_num row <> PyNone ->
  exists s, sepa_sample row = Ok s /\ siteid s = "1" /\ area s = "Area"
            /\ region s <> "nan".
Proof.
  intros Hnum. unfold sepa_sample.
  assert (exists sepa_num,
            try_except (z ← py_int (sepa_sepa_num row); Ok (pretty z)) is_ValueError
                       (Ok (py_str (sepa_sepa_num row))) = Ok sepa_num) as [sepa_num ->].
  { destruct (sepa_sepa_num row) as [|t|z|]; [done| | |]; cbn; try by eexists.
    unfold int_of_str. destruct (parse_int t); cbn; by eexists. }
  cbn [mbind result_bind].
  destruct (Diatom_Sample_init_cases (PyStr sepa_num) (PyStr "1") (PyStr "area")
              (PyStr (get_capital (py_str (sepa_region row)))) (PyStr sepa_num)
              (PyStr (py_str (sepa_site_name row)))
              (PyStr (py_str (sepa_sample_date row))) (PyStr sepa_num) (PyStr sepa_num))
    as [[[_ Hsite] _]|[(_ & (_ & _ & Harea) & _)|(_ & _ & s & Hs)]].
  - by vm_compute in Hsite.
  - by destruct (Harea "area").
  - exists s. split; [done|].
    destruct (Diatom_Sample_init_fields _ _ _ _ _ _ _ _ _ s Hs)
      as (_ & _ & Hsiteid & -> & ->).
    split_and!; [|by vm_compute|apply init_region_not_nan].
    assert (init_siteid (PyStr "1") = Ok "1") as H1 by (by vm_compute). congruence.
Qed.

(** X19: the SEPA metadata import cannot fail on a row whose sample number
    cell holds a value: it returns one sample per row, each with site id 1
    and area Area, and no sample gets the region text nan. *)
Theorem import_metadata_sepa_total (rows : list sepa_row) :
  Forall (fun row => sepa_sepa_num row <> PyNone) rows ->
  exists samples_list,
    import_metadata_sepa rows = Ok samples_list
    /\ length samples_list = length rows
    /\ Forall (fun s => siteid s = "1" /\ area s = "Area" /\ region s <> "nan")
              samples_list.
Proof.
  induction 1 as [|row rest Hrow _ (samples_list & IH & Hlen & Hall)].
  - by exists [].
  - cbn [import_metadata_sepa].
    destruct (sepa_sample_total row Hrow) as (s & -> & Hs).
    cbn [mbind result_bind]. rewrite IH. cbn [mbind result_bind].
    exists (s :: samples_list). split_and!; [done|by cbn; rewrite Hlen|by constructor].
Qed.

Lemma import_metadata_sepa_total_witness :
  Forall (fun row => sepa_sepa_num row <> PyNone) sepa_sheet
  /\ exists samples_list,
       import_metadata_sepa sepa_sheet = Ok samples_list
       /\ length samples_list = length sepa_sheet
       /\ Forall (fun s => siteid s = "1" /\ area s = "Area" /\ region s <> "nan")
                 samples_list.
Proof.
  assert (Forall (fun row => sepa_sepa_num row <> PyNone) sepa_sheet) as Hall
    by (by repeat constructor).
  split; [done|]. exact (import_metadata_sepa_total sepa_sheet Hall).
Defined.

(** ** import_extraction_sheets *)

(** The three loops as one induction: a relation on samples that every
    step of the innermost loop respects holds between the registry before
    and after. *)
Section extraction_loops.
Variable named : string -> Prop.
Variable R : Diatom_Sample -> Diatom_Sample -> Prop.
Hypothesis R_refl : forall s, R s s.
Hypothesis R_trans : forall s1 s2 s3, R s1 s2 -> R s2 s3 -> R s1 s3.
Hypothesis R_step : forall (sheet_name : string) (row col : Z) (cell : pyval)
    (id : string) (s : Diatom_Sample),
  named sheet_name -> 0 <= row -> 1 <= col -> samplesheet_id cell = Ok id ->
  R s (locate_sample sheet_name row col (get_surrounding_coords row col) id s).

Lemma Forall2_R_refl (l : list Diatom_Sample) : Forall2 R l l.
Proof. apply Forall_Forall2_diag, Forall_forall. intros. apply R_refl. Qed.

Lemma Forall2_R_trans (l1 l2 l3 : list Diatom_Sample) :
  Forall2 R l1 l2 -> Forall2 R l2 l3 -> Forall2 R l1 l3.
Proof.
  intros H12. revert l3. induction H12 as [|s1 s2 l1 l2 H _ IH]; intros l3 H23.
  - by inversion H23.
  - inversion H23 as [|? s3 ? l3' H' Hrest]; subst. constructor; [|by apply IH].
    by eapply R_trans.
Qed.

Lemma scan_plate_row_rel (sheet_name : string) (row col : Z) (cells : list pyval)
    (samples samples' : list Diatom_Sample) :
  named sheet_name -> 0 <= row -> 1 <= col ->
  scan_plate_row sheet_name row col cells samples = Ok samples' ->
  Forall2 R samples samples'.
Proof.
  intros Hname Hrow. revert col samples.
  induction cells as [|cell rest IH]; intros col samples Hcol; cbn [scan_plate_row].
  - intros [= <-]. apply Forall2_R_refl.
  - destruct (samplesheet_id cell) as [id|e] eqn:Hid; [|done].
    cbn [mbind result_bind]. intros Hrest.
    eapply Forall2_R_trans; [|apply (IH (col + 1) _ ltac:(lia) Hrest)].
    apply Forall2_fmap_r, Forall_Forall2_diag, Forall_forall. intros s _.
    by eapply R_step.
Qed.

Lemma scan_plate_rows_rel (sheet_name : string) (row : Z) (rows : list (list pyval))
    (samples samples' : list Diatom_Sample) :
  named sheet_name -> 0 <= row ->
  scan_plate_rows sheet_name row rows samples = Ok samples' ->
  Forall2 R samples samples'.
Proof.
  intros Hname. revert row samples.
  induction rows as [|cells rest IH]; intros row samples Hrow; cbn [scan_plate_rows].
  - intros [= <-]. apply Forall2_R_refl.
  - destruct (scan_plate_row sheet_name row 1 cells samples) as [mid|e] eqn:Hmid;
      [|done].
    cbn [mbind result_bind]. intros Hrest.
    eapply Forall2_R_trans; [by eapply scan_plate_row_rel|].
    apply (IH (row + 1) mid ltac:(lia) Hrest).
Qed.

Lemma import_extraction_sheets_rel (sheets : list plate_sheet)
    (samples samples' : list Diatom_Sample) :
  Forall (fun sheet => named (plate_name sheet)) sheets ->
  import_extraction_sheets sheets samples = Ok samples' ->
  Forall2 R samples samples'.
Proof.
  intros Hnames. revert samples.
  induction Hnames as [|sheet rest Hname _ IH]; intros samples;
    cbn [import_extraction_sheets].
  - intros [= <-]. apply Forall2_R_refl.
  - destruct (bool_decide (plate_cells sheet = [])); cbn [mbind result_bind].
    + apply IH.
    + destruct (scan_plate_rows _ _ _ _) as [mid|e] eqn:Hmid; [|done].
      cbn [mbind result_bind]. intros Hrest.
      eapply Forall2_R_trans; [by eapply scan_plate_rows_rel|by apply IH].
Qed.
End extraction_loops.

Lemma get_surrounding_coords_nonempty (row col : Z) :
  exists first rest, get_surrounding_coords row col = first :: rest.
Proof.
  unfold get_surrounding_coords.
  destruct (row =? 0), (row =? 7), (col =? 1), (col =? 12); cbn; by eexists _, _.
Qed.

Lemma locate_sample_first_wins (sheet_name : string) (row col : Z)
    (sur_coords : list (Z * Z)) (id : string) (s : Diatom_Sample) (on_plate : string) :
  plate s = Some on_plate ->
  plate (locate_sample sheet_name row col sur_coords id s) = Some on_plate
  /\ plate_loc (locate_sample sheet_name row col sur_coords id s) = plate_loc s
  /\ sur_samples (locate_sample sheet_name row col sur_coords id s) = sur_samples s.
Proof.
  intros Hplate. unfold locate_sample. destruct (bool_decide (folder s = id)); [|done].
  rewrite Hplate. destruct (negb (bool_decide (on_plate = ""))); [|done].
  unfold amend_sample_note. by destruct (bool_decide (note s = "")), s.
Qed.

(** X21: the first cell in which a sample is found decides its plate data:
    once a sample has a plate, reading further sheets leaves its plate, its
    location and its surrounding coordinates as they are (a later find only
    adds to its note). *)
Theorem import_extraction_sheets_first_location_wins (sheets : list plate_sheet)
    (samples samples' : list Diatom_Sample) (i : nat) (s : Diatom_Sample)
    (on_plate : string) :
  import_extraction_sheets sheets samples = Ok samples' ->
  samples !! i = Some s -> plate s = Some on_plate ->
  exists s', samples' !! i = Some s' /\ plate s' = Some on_plate
             /\ plate_loc s' = plate_loc s /\ sur_samples s' = sur_samples s.
Proof.
  intros Himport Hi Hplate.
  assert (Forall2 (fun s s' => forall p, plate s = Some p ->
                     plate s' = Some p /\ plate_loc s' = plate_loc s
                     /\ sur_samples s' = sur_samples s) samples samples') as HF.
  { apply (import_extraction_sheets_rel (fun _ => True) _) with sheets; [done| | | |done].
    - intros s1 s2 s3 H12 H23 p Hp. destruct (H12 p Hp) as (Hp2 & Hl2 & Hs2).
      destruct (H23 p Hp2) as (Hp3 & Hl3 & Hs3). split_and!; congruence.
    - intros sheet_name row col cell id s0 _ _ _ _ p Hp.
      by apply locate_sample_first_wins.
    - by apply Forall_forall. }
  destruct (Forall2_lookup_l _ _ _ _ _ HF Hi) as (s' & Hi' & Hs').
  exists s'. split; [done|]. by apply Hs'.
Qed.

Lemma import_extraction_sheets_first_location_wins_witness :
  exists s s' : Diatom_Sample,
    plate_registry !! 0%nat = Some s /\ plate s = Some "Plate1"
    /\ (exists samples', import_extraction_sheets [plate_A] plate_registry = Ok samples'
                         /\ samples' !! 0%nat = Some s')
    /\ plate s' = Some "Plate1" /\ plate_loc s' = plate_loc s
    /\ sur_samples s' = sur_samples s.
Proof.
  destruct (plate_registry !! 0%nat) as [s|] eqn:Hs; [|by vm_compute in Hs].
  assert (plate s = Some "Plate1") as Hplate
    by (vm_compute in Hs; by injection Hs as <-).
  destruct (import_extraction_sheets [plate_A] plate_registry) as [samples'|e]
    eqn:Hrun; [|by vm_compute in Hrun].
  destruct (import_extraction_sheets_first_location_wins [plate_A] plate_registry
              samples' 0 s "Plate1" Hrun Hs Hplate)
    as (s' & Hs' & Hp & Hl & Hsur).
  exists s, s'. split_and!; [done|done|by exists samples'|done..].
Defined.

(** ** The similarity pass: who can be named most similar *)

Lemma score_pair_neighbour (c sur : Diatom_Sample) (x : float) :
  score_pair c sur = Ok (Some (true, x)) -> scored_neighbour c sur x.
Proof.
  unfold score_pair, scored_neighbour.
  destruct (plate c) as [plate_cent|]; [|done].
  destruct (plate sur) as [plate_sur|]; [|done].
  destruct (bool_decide (plate_cent = plate_sur)) eqn:Hplate; cbn [negb]; [|done].
  apply bool_decide_eq_true in Hplate. subst plate_sur.
  destruct (sur_samples c) as [coords|]; [|done].
  destruct (otu_tab sur) as [sur_df|]; [|done].
  destruct (otu_tab c) as [cent_df|]; cbn [mbind result_bind]; [|done].
  destruct (baroni_urbani_buser_coefficient _) as [y|] eqn:Hbub;
    cbn [mbind result_bind]; [|done].
  destruct (plate_loc sur) as [loc|]; [|done].
  destruct (bool_decide (loc ∈ coords)) eqn:Hloc; [|done].
  apply bool_decide_eq_true in Hloc. intros [= <-].
  by exists plate_cent, coords, loc, cent_df, sur_df.
Qed.

(** The name kept by the inner loop is the one it started with, or the
    folder of a candidate that was scored as a neighbour with the
    coefficient kept. *)
Lemma scan_candidates_named (cent : nat) (c : Diatom_Sample) (pos : nat)
    (cands : list Diatom_Sample) (sim_all sim_all' : list float) (h0 h : float)
    (name0 name : string) :
  scan_candidates cent c pos cands (sim_all, h0, name0) = Ok (sim_all', h, name) ->
  (h = h0 /\ name = name0)
  \/ exists (k : nat) (sur : Diatom_Sample),
       cands !! k = Some sur /\ (pos + k)%nat <> cent
       /\ pass_fail sur = "Successful"
       /\ score_pair c sur = Ok (Some (true, h)) /\ name = folder sur.
Proof.
  revert pos sim_all h0 name0.
  induction cands as [|sur cands IH]; intros pos sim_all h0 name0.
  - cbn. intros [= _ <- <-]. by left.
  - cbn [scan_candidates].
    assert (forall sim_all1 h1 name1,
              scan_candidates cent c (S pos) cands (sim_all1, h1, name1)
              = Ok (sim_all', h, name) ->
              (h = h1 /\ name = name1)
              \/ exists (k : nat) (sur0 : Diatom_Sample),
                   (sur :: cands) !! k = Some sur0 /\ (pos + k)%nat <> cent
                   /\ pass_fail sur0 = "Successful"
                   /\ score_pair c sur0 = Ok (Some (true, h)) /\ name = folder sur0)
      as Hrest.
    { intros sim_all1 h1 name1 Hscan.
      destruct (IH _ _ _ _ Hscan) as [?|(k & sur0 & Hk & Hne & Hrest)]; [by left|].
      right. exists (S k), sur0. split; [done|]. split; [lia|done]. }
    destruct (bool_decide (cent = pos)) eqn:Hpos; [apply Hrest|].
    apply bool_decide_eq_false in Hpos.
    destruct (is_successful sur) eqn:Hok; cbn [negb]; [|apply Hrest].
    apply bool_decide_eq_true in Hok.
    destruct (score_pair c sur) as [[[neighbour y]|]|e] eqn:Hpair;
      cbn [mbind result_bind record_score]; [| |done].
    + destruct (neighbour && (h0 <? y)%float) eqn:Hbetter.
      * apply andb_prop in Hbetter as [-> _]. intros Hscan.
        destruct (Hrest _ _ _ Hscan) as [[-> ->]|?]; [|by right].
        right. exists 0%nat, sur. split; [done|]. split; [lia|done].
      * apply Hrest.
    + apply Hrest.
Qed.

(** X24: when the similarity pass finishes its loops, the sample named most
    similar to a sample that passed is either nobody (the empty name, with
    similarity 0.0) or another sample of the registry that passed, lies on
    the same plate at one of the surrounding coordinates, and whose
    coefficient with the sample is the similarity stored. *)
Theorem most_similar_sample_is_neighbour (sample_list st : list Diatom_Sample)
    (out : result (list sim_row)) (i : nat) (s : Diatom_Sample) :
  perform_similarity_checks sample_list = (out, st) ->
  (forall e : exn, out = Raise e -> e = StatisticsError) ->
  sample_list !! i = Some s -> pass_fail s = "Successful" ->
  exists s' : Diatom_Sample,
    st !! i = Some s'
    /\ ((sim s' = NumFloat 0 /\ sim_sample s' = "")
        \/ exists (j : nat) (sur : Diatom_Sample) (x : float),
             j <> i /\ sample_list !! j = Some sur /\ pass_fail sur = "Successful"
             /\ sim_sample s' = folder sur /\ sim s' = NumFloat x
             /\ scored_neighbour s sur x).
Proof.
  unfold perform_similarity_checks. intros Hcall Hout Hi Hpass.
  destruct (score_centres (seq 0 (length sample_list)) sample_list [])
    as [[sim_all|e] st0] eqn:Hloop.
  2: { injection Hcall as <- <-. specialize (Hout e eq_refl). subst e.
       apply score_centres_exn in Hloop.
       destruct Hloop as [?|[?|[?|?]]]; discriminate. }
  assert (st0 = st) as -> by (by injection Hcall).
  destruct (score_centres_spec sample_list (seq 0 (length sample_list))
              sample_list st [] sim_all) as [Hst Hall];
    [apply Forall_Forall2_diag, Forall_forall; intros; apply updated_refl
    |apply NoDup_seq|done|].
  destruct (Hall i s Hi) as [_ Hset].
  destruct Hset as (acc & acc' & h & name & Hscan & Hlookup); [|done|].
  { apply elem_of_seq. split; [lia|]. cbn. by eapply lookup_lt_Some. }
  exists (assign_most_sim_sample s h name). split; [done|].
  destruct (scan_candidates_named i s 0 sample_list acc acc' 0%float h "" name Hscan)
    as [[-> ->]|(k & sur & Hk & Hne & Hok & Hpair & ->)]; [by left|].
  right. exists k, sur, h. split_and!; [lia|done..|].
  by apply score_pair_neighbour.
Qed.

Lemma most_similar_sample_is_neighbour_witness :
  exists (s s' sur : Diatom_Sample) (x : float),
    plate_registry !! 0%nat = Some s /\ pass_fail s = "Successful"
    /\ snd (perform_similarity_checks plate_registry) !! 0%nat = Some s'
    /\ plate_registry !! 1%nat = Some sur
    /\ sim_sample s' = folder sur /\ sim s' = NumFloat x /\ scored_neighbour s sur x.
Proof.
  destruct (plate_registry !! 0%nat) as [s|] eqn:Hs; [|by vm_compute in Hs].
  assert (pass_fail s = "Successful") as Hpass
    by (vm_compute in Hs; by injection Hs as <-).
  destruct (most_similar_sample_is_neighbour plate_registry
              (snd (perform_similarity_checks plate_registry))
              (fst (perform_similarity_checks plate_registry)) 0 s)
    as (s' & Hs' & Hcases); [|by vm_compute|done|done|].
  { by destruct (perform_similarity_checks plate_registry). }
  assert (sim_sample s' = "12") as Hname.
  { vm_compute in Hs'. by injection Hs' as <-. }
  destruct Hcases as [[_ Hnone]|(j & sur & x & Hj & Hsur & Hok & Hfolder & Hsim & Hn)].
  { by rewrite Hname in Hnone. }
  assert (j = 1%nat) as ->.
  { rewrite Hname in Hfolder.
    destruct j as [|[|[|[|j]]]]; [done|done|..]; vm_compute in Hsur;
      [injection Hsur as <-; by vm_compute in Hfolder..|done]. }
  by exists s, s', sur, x.
Defined.

(** ** import_extraction_sheets: the cell ids *)

Lemma str_map_rev_app (g : ascii -> ascii) (s acc : string) :
  str_map g (String.rev_app s acc) = String.rev_app (str_map g s) (str_map g acc).
Proof. revert acc. induction s as [|x s IH]; intros acc; [done|]. cbn. by rewrite IH. Qed.

Lemma str_map_lstrip (f : ascii -> bool) (g : ascii -> ascii) (s : string) :
  (forall c, f (g c) = f c) ->
  lstrip_with f (str_map g s) = str_map g (lstrip_with f s).
Proof.
  intros Hfg. induction s as [|x s IH]; [done|]. cbn [str_map lstrip_with].
  rewrite Hfg. by destruct (f x).
Qed.

Lemma str_map_strip (f : ascii -> bool) (g : ascii -> ascii) (s : string) :
  (forall c, f (g c) = f c) ->
  strip_with f (str_map g s) = str_map g (strip_with f s).
Proof.
  intros Hfg. unfold strip_with.
  assert (forall t, String.rev (str_map g t) = str_map g (String.rev t)) as Hrev.
  { intros t. unfold String.rev. by rewrite str_map_rev_app. }
  by rewrite str_map_lstrip, Hrev, str_map_lstrip, Hrev.
Qed.

Lemma upper_strip_upper (x : string) : upper (strip (upper x)) = strip (upper x).
Proof.
  unfold strip, upper. rewrite str_map_strip by apply upper_ascii_space.
  by rewrite (str_map_idem _ _ upper_ascii_idem).
Qed.

Lemma samplesheet_id_cases (cell : pyval) :
  (cell = PyNone /\ samplesheet_id cell = Raise TypeError)
  \/ (cell <> PyNone /\ exists x, samplesheet_id cell = Ok (strip (upper x))).
Proof.
  unfold samplesheet_id. destruct cell as [|t|z|]; cbn.
  - by left.
  - right. split; [done|]. unfold int_of_str. destruct (parse_int t); cbn; by eexists.
  - right. split; [done|]. by eexists.
  - right. split; [done|]. by exists "nan".
Qed.

Lemma locate_sample_upper (sheet_name : string) (row col : Z)
    (sur_coords : list (Z * Z)) (cell : pyval) (id : string) (s : Diatom_Sample) :
  samplesheet_id cell = Ok id -> upper (folder s) <> folder s ->
  locate_sample sheet_name row col sur_coords id s = s.
Proof.
  intros Hid Hfolder. unfold locate_sample.
  rewrite bool_decide_eq_false_2; [done|]. intros Heq. apply Hfolder.
  destruct (samplesheet_id_cases cell) as [[_ Hraise]|[_ [x Hok]]]; [congruence|].
  assert (id = strip (upper x)) as -> by congruence.
  rewrite Heq. apply upper_strip_upper.
Qed.

(** X22: the ids read from the extraction sheets are upper-cased, so a sample
    whose folder holds a lower-case letter is never found on a plate: the
    function returns it exactly as it was. *)
Theorem import_extraction_sheets_needs_upper_case (sheets : list plate_sheet)
    (samples samples' : list Diatom_Sample) (i : nat) (s : Diatom_Sample) :
  import_extraction_sheets sheets samples = Ok samples' ->
  samples !! i = Some s -> upper (folder s) <> folder s ->
  samples' !! i = Some s.
Proof.
  intros Himport Hi Hfolder.
  assert (Forall2 (fun s s' => upper (folder s) <> folder s -> s' = s)
                  samples samples') as HF.
  { apply (import_extraction_sheets_rel (fun _ => True) _) with sheets;
      [done| | | |done].
    - intros s1 s2 s3 H12 H23 Hup. rewrite <- (H12 Hup). apply H23.
      by rewrite (H12 Hup).
    - intros sheet_name row col cell id s0 _ _ _ Hid Hup.
      by eapply locate_sample_upper.
    - by apply Forall_forall. }
  destruct (Forall2_lookup_l _ _ _ _ _ HF Hi) as (s' & Hi' & Hs').
  by rewrite (Hs' Hfolder) in Hi'.
Qed.

Lemma import_extraction_sheets_needs_upper_case_witness :
  import_extraction_sheets [plate_B] [sample_ab1] = Ok [sample_ab1]
  /\ upper (folder sample_ab1) <> folder sample_ab1
  /\ [sample_ab1] !! 0%nat = Some sample_ab1.
Proof.
  assert (import_extraction_sheets [plate_B] [sample_ab1] = Ok [sample_ab1]) as Hrun
    by (by vm_compute).
  assert (upper (folder sample_ab1) <> folder sample_ab1) as Hup by (by vm_compute).
  split; [done|]. split; [done|].
  exact (import_extraction_sheets_needs_upper_case [plate_B] [sample_ab1]
           [sample_ab1] 0 sample_ab1 Hrun eq_refl Hup).
Defined.

(** ** import_extraction_sheets: when it returns, and what it leaves alone *)

Lemma scan_plate_row_cases (sheet_name : string) (row col : Z) (cells : list pyval)
    (samples : list Diatom_Sample) :
  (Exists (fun cell => cell = PyNone) cells
   /\ scan_plate_row sheet_name row col cells samples = Raise TypeError)
  \/ (Forall (fun cell => cell <> PyNone) cells
      /\ exists samples', scan_plate_row sheet_name row col cells samples = Ok samples').
Proof.
  revert col samples. induction cells as [|cell rest IH]; intros col samples.
  - right. split; [constructor|by eexists].
  - cbn [scan_plate_row].
    destruct (samplesheet_id_cases cell) as [[-> ->]|[Hcell [x ->]]];
      cbn [mbind result_bind].
    + left. split; [by left|done].
    + destruct (IH (col + 1)
                   (locate_sample sheet_name row col (get_surrounding_coords row col)
                      (strip (upper x)) <$> samples))
        as [[Hex ->]|[Hall [samples' ->]]].
      * left. split; [by right|done].
      * right. split; [by constructor|by eexists].
Qed.

Lemma scan_plate_rows_cases (sheet_name : string) (row : Z) (rows : list (list pyval))
    (samples : list Diatom_Sample) :
  (Exists (Exists (fun cell => cell = PyNone)) rows
   /\ scan_plate_rows sheet_name row rows samples = Raise TypeError)
  \/ (Forall (Forall (fun cell => cell <> PyNone)) rows
      /\ exists samples', scan_plate_rows sheet_name row rows samples = Ok samples').
Proof.
  revert row samples. induction rows as [|cells rest IH]; intros row samples.
  - right. split; [constructor|by eexists].
  - cbn [scan_plate_rows].
    destruct (scan_plate_row_cases sheet_name row 1 cells samples)
      as [[Hex ->]|[Hall [mid ->]]]; cbn [mbind result_bind].
    + left. split; [by left|done].
    + destruct (IH (row + 1) mid) as [[Hex ->]|[Hall' [samples' ->]]].
      * left. split; [by right|done].
      * right. split; [by constructor|by eexists].
Qed.

Lemma import_extraction_sheets_cases (sheets : list plate_sheet)
    (samples : list Diatom_Sample) :
  (Exists (fun sheet => ~ no_empty_object sheet) sheets
   /\ import_extraction_sheets sheets samples = Raise TypeError)
  \/ (Forall no_empty_object sheets
      /\ exists samples', import_extraction_sheets sheets samples = Ok samples').
Proof.
  revert samples. induction sheets as [|sheet rest IH]; intros samples.
  - right. split; [constructor|by eexists].
  - cbn [import_extraction_sheets].
    destruct (bool_decide (plate_cells sheet = [])) eqn:Hempty.
    + apply bool_decide_eq_true in Hempty. cbn [mbind result_bind].
      destruct (IH samples) as [[Hex ->]|[Hall [samples' ->]]].
      * left. split; [by right|done].
      * right. split; [|by eexists]. constructor; [|done].
        unfold no_empty_object. rewrite Hempty. constructor.
    + destruct (scan_plate_rows_cases (plate_name sheet) 0 (plate_cells sheet) samples)
        as [[Hex ->]|[Hall [mid ->]]]; cbn [mbind result_bind].
      * left. split; [|done]. left. unfold no_empty_object. intros Hall.
        apply Exists_exists in Hex as (cells & Hin & Hex).
        rewrite Forall_forall in Hall. specialize (Hall cells Hin).
        apply Exists_exists in Hex as (cell & Hin' & ->).
        rewrite Forall_forall in Hall. by apply (Hall PyNone Hin').
      * destruct (IH mid) as [[Hex ->]|[Hall' [samples' ->]]].
        -- left. split; [by right|done].
        -- right. split; [by constructor|by eexists].
Qed.

Lemma locate_sample_without_location (sheet_name : string) (row col : Z)
    (sur_coords : list (Z * Z)) (id : string) (s : Diatom_Sample) :
  without_location (locate_sample sheet_name row col sur_coords id s)
  = without_location s.
Proof.
  unfold locate_sample. destruct (bool_decide (folder s = id)); [|done].
  destruct s as [fo sa si ar re ra pr sn sd ba bn co pf ad ot sm ss no pl su pt].
  cbn [plate]. destruct pt as [on_plate|].
  - destruct (negb (bool_decide (on_plate = ""))); [|done].
    unfold amend_sample_note. cbn [note]. by destruct (bool_decide (no = "")).
  - unfold assign_surrounding_samples.
    by destruct sur_coords, (negb (row =? 0) && negb (col =? 0)),
         (negb (bool_decide (sheet_name = ""))).
Qed.

(** X23: reading the extraction sheets returns exactly when no cell holds the
    empty object, and raises TypeError otherwise.  When it returns, the
    registry has the same samples in the same order, and nothing of a
    sample has changed but its note and its plate data. *)
Theorem import_extraction_sheets_returns_iff (sheets : list plate_sheet)
    (samples : list Diatom_Sample) :
  ((exists samples', import_extraction_sheets sheets samples = Ok samples')
   <-> Forall no_empty_object sheets)
  /\ (forall e, import_extraction_sheets sheets samples = Raise e -> e = TypeError)
  /\ (forall samples', import_extraction_sheets sheets samples = Ok samples' ->
        Forall2 (fun s s' => without_location s' = without_location s)
                samples samples').
Proof.
  split_and!.
  - destruct (import_extraction_sheets_cases sheets samples)
      as [[Hex ->]|[Hall [samples' ->]]].
    + split; [by intros []|]. intros Hall.
      apply Exists_exists in Hex as (sheet & Hin & Hbad).
      rewrite Forall_forall in Hall. by destruct (Hbad (Hall sheet Hin)).
    + split; [done|by eexists].
  - intros e.
    destruct (import_extraction_sheets_cases sheets samples)
      as [[Hex ->]|[Hall [samples' ->]]]; [by intros [= <-]|done].
  - intros samples' Himport.
    apply (import_extraction_sheets_rel (fun _ => True) _) with sheets;
      [done|congruence| |by apply Forall_forall|done].
    intros. apply locate_sample_without_location.
Qed.

(** ** import_extraction_sheets: the first cell that holds the sample *)

Lemma scan_plate_row_visits (sheet_name : string) (row col : Z) (cells : list pyval)
    (samples samples' : list Diatom_Sample) :
  scan_plate_row sheet_name row col cells samples = Ok samples' ->
  samples' = (fun s => foldl visit s (row_cells sheet_name row col cells)) <$> samples.
Proof.
  revert col samples. induction cells as [|cell rest IH]; intros col samples;
    cbn [scan_plate_row row_cells foldl].
  - intros [= <-]. by rewrite list_fmap_id.
  - destruct (samplesheet_id cell) as [id|e] eqn:Hid; [|done].
    cbn [mbind result_bind]. intros Hrest. rewrite (IH _ _ Hrest), <- list_fmap_compose.
    apply list_fmap_ext. intros _ s _. cbn. f_equal. unfold visit. cbn [cell_value].
    by rewrite Hid.
Qed.

Lemma scan_plate_rows_visits (sheet_name : string) (row : Z) (rows : list (list pyval))
    (samples samples' : list Diatom_Sample) :
  scan_plate_rows sheet_name row rows samples = Ok samples' ->
  samples' = (fun s => foldl visit s (rows_cells sheet_name row rows)) <$> samples.
Proof.
  revert row samples. induction rows as [|cells rest IH]; intros row samples;
    cbn [scan_plate_rows rows_cells foldl].
  - intros [= <-]. by rewrite list_fmap_id.
  - destruct (scan_plate_row sheet_name row 1 cells samples) as [mid|e] eqn:Hmid;
      [|done].
    cbn [mbind result_bind]. intros Hrest.
    rewrite (IH _ _ Hrest), (scan_plate_row_visits _ _ _ _ _ _ Hmid),
      <- list_fmap_compose.
    apply list_fmap_ext. intros _ s _. cbn. by rewrite foldl_app.
Qed.

Lemma import_extraction_sheets_visits (sheets : list plate_sheet)
    (samples samples' : list Diatom_Sample) :
  import_extraction_sheets sheets samples = Ok samples' ->
  samples' = (fun s => foldl visit s (visited_cells sheets)) <$> samples.
Proof.
  unfold visited_cells. revert samples.
  induction sheets as [|sheet rest IH]; intros samples;
    cbn [import_extraction_sheets mbind list_bind foldl].
  - intros [= <-]. by rewrite list_fmap_id.
  - destruct (bool_decide (plate_cells sheet = [])) eqn:Hempty.
    + apply bool_decide_eq_true in Hempty. rewrite Hempty.
      cbn [mbind result_bind rows_cells app]. apply IH.
    + destruct (scan_plate_rows _ _ _ _) as [mid|e] eqn:Hmid; [|done].
      cbn [mbind result_bind]. intros Hrest.
      rewrite (IH _ Hrest), (scan_plate_rows_visits _ _ _ _ _ Hmid),
        <- list_fmap_compose.
      apply list_fmap_ext. intros _ s _. cbn. by rewrite foldl_app.
Qed.

Lemma row_cells_labels (sheet_name : string) (row col : Z) (cells : list pyval) :
  0 <= row -> 1 <= col ->
  Forall (fun c => cell_sheet c = sheet_name /\ 0 <= cell_row c /\ 1 <= cell_col c)
         (row_cells sheet_name row col cells).
Proof.
  intros Hrow. revert col. induction cells as [|cell rest IH]; intros col Hcol;
    cbn [row_cells]; constructor; [done|]. apply IH. lia.
Qed.

Lemma rows_cells_labels (sheet_name : string) (row : Z) (rows : list (list pyval)) :
  0 <= row ->
  Forall (fun c => cell_sheet c = sheet_name /\ 0 <= cell_row c /\ 1 <= cell_col c)
         (rows_cells sheet_name row rows).
Proof.
  revert row. induction rows as [|cells rest IH]; intros row Hrow; cbn [rows_cells];
    [constructor|].
  apply Forall_app. split; [by apply row_cells_labels|]. apply IH. lia.
Qed.

Lemma visited_cells_labels (sheets : list plate_sheet) :
  Forall (fun sheet => plate_name sheet <> "") sheets ->
  Forall (fun c => cell_sheet c <> "" /\ 0 <= cell_row c /\ 1 <= cell_col c)
         (visited_cells sheets).
Proof.
  unfold visited_cells. induction 1 as [|sheet rest Hname _ IH];
    cbn [mbind list_bind]; [constructor|].
  apply Forall_app. split; [|done].
  eapply Forall_impl; [apply (rows_cells_labels _ 0); lia|].
  intros c (-> & ? & ?). done.
Qed.

Lemma visit_other (s : Diatom_Sample) (c : plate_cell) :
  ~ holds_id_of s c -> visit s c = s.
Proof.
  unfold holds_id_of, visit, locate_sample. intros Hno.
  destruct (samplesheet_id (cell_value c)) as [id|e]; [|done].
  rewrite bool_decide_eq_false_2; [done|]. intros Heq. apply Hno. by rewrite Heq.
Qed.

Lemma visit_first (s : Diatom_Sample) (c : plate_cell) :
  cell_sheet c <> "" -> 1 <= cell_col c ->
  plate s = None -> holds_id_of s c ->
  plate (visit s c) = Some (cell_sheet c)
  /\ sur_samples (visit s c) = Some (get_surrounding_coords (cell_row c) (cell_col c))
  /\ plate_loc (visit s c)
     = (if cell_row c =? 0 then plate_loc s else Some (cell_row c, cell_col c)).
Proof.
  unfold holds_id_of, visit, locate_sample. intros Hname Hcol Hplate ->.
  rewrite bool_decide_eq_true_2 by done. rewrite Hplate.
  unfold assign_surrounding_samples.
  destruct (get_surrounding_coords_nonempty (cell_row c) (cell_col c))
    as (first & rest & Hsur).
  rewrite Hsur. rewrite bool_decide_eq_false_2 by done. cbn [negb].
  assert ((cell_col c =? 0) = false) as -> by lia.
  by destruct (cell_row c =? 0), s.
Qed.

Lemma visit_later (s : Diatom_Sample) (c : plate_cell) (on_plate : string) :
  plate s = Some on_plate ->
  plate (visit s c) = Some on_plate
  /\ plate_loc (visit s c) = plate_loc s
  /\ sur_samples (visit s c) = sur_samples s.
Proof.
  intros Hplate. unfold visit.
  destruct (samplesheet_id (cell_value c)) as [id|e]; [|done].
  by apply locate_sample_first_wins.
Qed.

Lemma visits_later (s : Diatom_Sample) (cells : list plate_cell) (on_plate : string) :
  plate s = Some on_plate ->
  plate (foldl visit s cells) = Some on_plate
  /\ plate_loc (foldl visit s cells) = plate_loc s
  /\ sur_samples (foldl visit s cells) = sur_samples s.
Proof.
  revert s. induction cells as [|c rest IH]; intros s Hplate; [done|].
  cbn [foldl]. destruct (visit_later s c on_plate Hplate) as (Hp & Hl & Hs).
  destruct (IH _ Hp) as (Hp' & Hl' & Hs'). split_and!; congruence.
Qed.

Lemma visits_without_location (s : Diatom_Sample) (cells : list plate_cell) :
  without_location (foldl visit s cells) = without_location s.
Proof.
  revert s. induction cells as [|c rest IH]; intros s; [done|].
  cbn [foldl]. rewrite IH. unfold visit.
  destruct (samplesheet_id (cell_value c)); [|done].
  apply locate_sample_without_location.
Qed.

(** The visits of a list of cells to a sample without a plate: either no
    cell holds its id and it is returned as it was, or the first cell that
    holds its id gives it its plate data and the later ones keep them. *)
Lemma visits_first_cell (s : Diatom_Sample) (cells : list plate_cell) :
  Forall (fun c => cell_sheet c <> "" /\ 0 <= cell_row c /\ 1 <= cell_col c) cells ->
  plate s = None ->
  (Forall (fun c => ~ holds_id_of s c) cells /\ foldl visit s cells = s)
  \/ exists (before : list plate_cell) (c : plate_cell) (after : list plate_cell),
       cells = before ++ c :: after
       /\ Forall (fun c' => ~ holds_id_of s c') before
       /\ holds_id_of s c
       /\ plate (foldl visit s cells) = Some (cell_sheet c)
       /\ sur_samples (foldl visit s cells)
          = Some (get_surrounding_coords (cell_row c) (cell_col c))
       /\ plate_loc (foldl visit s cells)
          = (if cell_row c =? 0 then plate_loc s else Some (cell_row c, cell_col c)).
Proof.
  intros Hlabels Hplate. induction Hlabels as [|c rest (Hname & Hrow & Hcol) _ IH].
  - left. by split.
  - cbn [foldl].
    assert (Decision (holds_id_of s c)) as [Hholds|Hno].
    { unfold holds_id_of. destruct (samplesheet_id (cell_value c)) as [id|e].
      - destruct (decide (id = folder s)) as [->|Hne]; [by left|].
        right. by intros [= ?].
      - by right. }
    + right. exists [], c, rest.
      destruct (visit_first s c Hname Hcol Hplate Hholds) as (Hp & Hs & Hl).
      destruct (visits_later (visit s c) rest _ Hp) as (Hp' & Hl' & Hs').
      split_and!; [done|constructor|done|congruence..].
    + rewrite (visit_other s c Hno).
      destruct IH as [[Hnone Hsame]|(before & c' & after & -> & Hbefore & Hc' & Hrest)].
      * left. split; [by constructor|done].
      * right. exists (c :: before), c', after.
        split; [done|]. split; [by constructor|]. split; [done|exact Hrest].
Qed.

(** X20: reading the extraction sheets gives a sample without a plate the
    plate data of the first cell, in the order of the loops, that holds
    its id: the name of that sheet and the surrounding coordinates of that
    cell; the location itself is recorded only when the cell is not in row
    0 (for row 0 the test [row and col] is false), so a sample of the first
    plate row keeps the location it had.  A sample whose id is in no cell
    is returned as it was, and nothing but the note and the plate data of a
    sample ever changes. *)
Theorem import_extraction_sheets_first_cell (sheets : list plate_sheet)
    (samples samples' : list Diatom_Sample) (i : nat) (s : Diatom_Sample) :
  Forall (fun sheet => plate_name sheet <> "") sheets ->
  import_extraction_sheets sheets samples = Ok samples' ->
  samples !! i = Some s -> plate s = None ->
  exists s' : Diatom_Sample,
    samples' !! i = Some s'
    /\ without_location s' = without_location s
    /\ ((Forall (fun c => ~ holds_id_of s c) (visited_cells sheets) /\ s' = s)
        \/ exists (before : list plate_cell) (c : plate_cell) (after : list plate_cell),
             visited_cells sheets = before ++ c :: after
             /\ Forall (fun c' => ~ holds_id_of s c') before
             /\ holds_id_of s c
             /\ 0 <= cell_row c /\ 1 <= cell_col c
             /\ plate s' = Some (cell_sheet c)
             /\ sur_samples s'
                = Some (get_surrounding_coords (cell_row c) (cell_col c))
             /\ plate_loc s'
                = (if cell_row c =? 0 then plate_loc s
                   else Some (cell_row c, cell_col c))).
Proof.
  intros Hnames Himport Hi Hplate.
  rewrite (import_extraction_sheets_visits sheets samples samples' Himport).
  exists (foldl visit s (visited_cells sheets)).
  split; [by rewrite list_lookup_fmap, Hi|].
  split; [apply visits_without_location|].
  pose proof (visited_cells_labels sheets Hnames) as Hlabels.
  destruct (visits_first_cell s (visited_cells sheets) Hlabels Hplate)
    as [?|(before & c & after & Hcells & Hbefore & Hc & Hp & Hs & Hl)]; [by left|].
  right. exists before, c, after.
  assert (0 <= cell_row c /\ 1 <= cell_col c) as [Hrow Hcol].
  { rewrite Hcells in Hlabels. apply Forall_app in Hlabels as [_ Hlabels].
    by inversion Hlabels as [|? ? (_ & ? & ?)]. }
  split_and!; done.
Qed.

Lemma import_extraction_sheets_first_cell_witness :
  exists (samples' : list Diatom_Sample) (s s' : Diatom_Sample),
    import_extraction_sheets [plate_A] registry_5_6 = Ok samples'
    /\ registry_5_6 !! 0%nat = Some s /\ plate s = None
    /\ samples' !! 0%nat = Some s'
    /\ plate s' = Some "PlateA"
    /\ sur_samples s' = Some (get_surrounding_coords 0 1)
    /\ plate_loc s' = None.
Proof.
  destruct (import_extraction_sheets [plate_A] registry_5_6) as [samples'|e] eqn:Hrun;
    [|by vm_compute in Hrun].
  destruct (registry_5_6 !! 0%nat) as [s|] eqn:Hs; [|by vm_compute in Hs].
  assert (plate s = None /\ plate_loc s = None /\ folder s = "5") as (Hplate & Hloc & Hfo).
  { vm_compute in Hs. by injection Hs as <-. }
  destruct (import_extraction_sheets_first_cell [plate_A] registry_5_6 samples' 0 s)
    as (s' & Hs' & _ & Hcases); [by repeat constructor|done|done|done|].
  exists samples', s, s'. split_and!; [done..| | |].
  all: destruct Hcases
         as [[Hnone _]|(before & c & after & Hcells & Hbefore & Hc & _ & _ & Hp & Hsur & Hl)];
    [exfalso; apply Forall_cons in Hnone as [Hnone _]; apply Hnone;
     unfold holds_id_of; rewrite Hfo; by vm_compute| ].
  all: assert (before = [] /\ c = mk_cell "PlateA" 0 1 (PyInt 5)) as [-> ->];
    [destruct before as [|c0 before];
     [by injection Hcells as <-
     |exfalso; injection Hcells as <- _; apply Forall_cons in Hbefore as [Hno _];
      apply Hno; unfold holds_id_of; rewrite Hfo; by vm_compute]| ].
  - done.
  - done.
  - by rewrite Hl.
Defined.

(** ** The counters as numbers of taxa *)

Lemma count_rows_snoc (P : Z -> Z -> Prop) `{!forall x y, Decision (P x y)}
    (df : list (string * Z * Z)) (taxon : string) (x y : Z) :
  count_rows P (df ++ [(taxon, x, y)])
  = count_rows P df + (if decide (P x y) then 1 else 0).
Proof.
  unfold count_rows. rewrite filter_app, length_app, Nat2Z.inj_add. f_equal.
  rewrite filter_cons, filter_nil. cbn [fst snd]. by destruct (decide (P x y)).
Qed.

(** X25: for counts that are not negative, the four counters are what the
    comments of the function say: a is the number of taxa present in both
    samples, b in sample 0 only, c in sample 1 only, d in neither; every
    taxon is counted exactly once. *)
Theorem bub_counts_meaning (df : table2) :
  nonneg_counts df ->
  bub_counts df
  = (count_rows (fun x y => present x /\ present y) df,
     count_rows (fun x y => present x /\ ~ present y) df,
     count_rows (fun x y => ~ present x /\ present y) df,
     count_rows (fun x y => ~ present x /\ ~ present y) df)
  /\ count_rows (fun x y => present x /\ present y) df
     + count_rows (fun x y => present x /\ ~ present y) df
     + count_rows (fun x y => ~ present x /\ present y) df
     + count_rows (fun x y => ~ present x /\ ~ present y) df
     = Z.of_nat (length df).
Proof.
  induction df as [|row df IH] using rev_ind; [done|].
  unfold nonneg_counts. rewrite Forall_app, Forall_singleton.
  intros [Hdf Hrow]. destruct (IH Hdf) as [Hcounts Hsum].
  destruct row as [[taxon x] y]. cbn [fst snd] in Hrow.
  rewrite bub_counts_snoc, Hcounts, !count_rows_snoc, length_app, Nat2Z.inj_add.
  cbn [length]. unfold tally_row. cbn [fst snd].
  repeat match goal with
         | |- context [decide ?P] => destruct (decide P)
         end;
    unfold present, binarize in *;
    repeat match goal with
           | H : context [?x >? ?y] |- _ => destruct (Z.gtb_spec x y)
           | |- context [?x >? ?y] => destruct (Z.gtb_spec x y)
           | |- context [?x =? ?y] => destruct (Z.eqb_spec x y)
           | |- context [?x <? ?y] => destruct (Z.ltb_spec x y)
           end;
    try lia; (split; [repeat f_equal; lia|lia]).
Qed.

Lemma bub_counts_meaning_witness :
  nonneg_counts (pd_merge slice_11 slice_12)
  /\ bub_counts (pd_merge slice_11 slice_12) = (2, 2, 0, 0)
  /\ bub_counts (pd_merge slice_11 slice_12)
     = (count_rows (fun x y => present x /\ present y) (pd_merge slice_11 slice_12),
        count_rows (fun x y => present x /\ ~ present y) (pd_merge slice_11 slice_12),
        count_rows (fun x y => ~ present x /\ present y) (pd_merge slice_11 slice_12),
        count_rows (fun x y => ~ present x /\ ~ present y)
                   (pd_merge slice_11 slice_12)).
Proof.
  assert (nonneg_counts (pd_merge slice_11 slice_12)) as Hnn.
  { apply (bool_decide_unpack _). by vm_compute. }
  split; [done|]. split; [by vm_compute|].
  exact (proj1 (bub_counts_meaning (pd_merge slice_11 slice_12) Hnn)).
Defined.

(** ** A table compared with itself *)

Lemma pd_merge_self_row (rows : list (string * Z)) (taxon : string) (count_0 : Z) :
  NoDup (fst <$> rows) -> (taxon, count_0) ∈ rows ->
  ('(taxon', count_1) ← rows;
   if bool_decide (taxon = taxon') then [(taxon, count_0, count_1)] else [])
  = [(taxon, count_0, count_0)].
Proof.
  induction rows as [|[t c] rows IH]; [by intros _ ?%elem_of_nil|].
  cbn [fmap list_fmap fst]. intros [Hnot Hnd]%NoDup_cons Hin.
  cbn [mbind list_bind]. apply elem_of_cons in Hin as [[= <- <-]|Hin].
  - rewrite bool_decide_eq_true_2 by done. cbn [app]. f_equal.
    clear IH. induction rows as [|[t' c'] rows IH]; [done|].
    cbn [mbind list_bind]. rewrite bool_decide_eq_false_2.
    + cbn [app]. apply IH.
      * intros Hin. apply Hnot. cbn [fmap list_fmap]. by right.
      * by apply NoDup_cons in Hnd as [_ ?].
    + intros ->. apply Hnot. cbn [fmap list_fmap fst]. by left.
  - rewrite bool_decide_eq_false_2.
    + cbn [app]. by apply IH.
    + intros ->. apply Hnot. by apply (list_elem_of_fmap_2 fst) in Hin.
Qed.

Lemma pd_merge_self (x : otu_slice) :
  NoDup (fst <$> slice_rows x) ->
  pd_merge x x = (fun row => (fst row, snd row, snd row)) <$> slice_rows x.
Proof.
  intros Hnd. unfold pd_merge.
  assert (forall part, part ⊆ slice_rows x ->
            ('(taxon, count_0) ← part;
             '(taxon', count_1) ← slice_rows x;
             if bool_decide (taxon = taxon') then [(taxon, count_0, count_1)] else [])
            = (fun row => (fst row, snd row, snd row)) <$> part) as H.
  { induction part as [|[t c] part IH]; intros Hsub; [done|].
    cbn [mbind list_bind fmap list_fmap fst snd].
    rewrite (pd_merge_self_row (slice_rows x) t c Hnd) by (apply Hsub; by left).
    cbn [app]. f_equal. apply IH. intros r Hr. apply Hsub. by right. }
  by apply H.
Qed.

(** X26: a table merged with itself scores 1.0: for distinct taxa, counts
    that are not negative and at least one taxon present, on a table of
    fewer than 2^53 taxa. *)
Theorem baroni_self_similarity (x : otu_slice) :
  NoDup (fst <$> slice_rows x) ->
  Forall (fun row => 0 <= snd row) (slice_rows x) ->
  Exists (fun row => 1 <= snd row) (slice_rows x) ->
  Z.of_nat (length (slice_rows x)) < 2 ^ 53 ->
  baroni_urbani_buser_coefficient (pd_merge x x) = Ok 1%float.
Proof.
  intros Hnd Hnn Hex Hlen. rewrite pd_merge_self by done.
  set (df := (fun row => (fst row, snd row, snd row)) <$> slice_rows x).
  assert (identical_presence df) as Hid.
  { apply Forall_fmap, Forall_forall. by intros. }
  assert (nonneg_counts df) as Hnn'.
  { apply Forall_fmap. eapply Forall_impl; [exact Hnn|]. by intros. }
  assert (Exists (fun row => present (snd (fst row)) \/ present (snd row)) df) as Hex'.
  { apply Exists_fmap. eapply Exists_impl; [exact Hex|]. intros [t c] Hc.
    left. unfold present, binarize. cbn [fst snd] in *.
    destruct (Z.gtb_spec c 1); lia. }
  unfold baroni_urbani_buser_coefficient.
  destruct (bub_counts df) as [[[a b] c] d] eqn:Hcounts.
  destruct (bub_counts_identical df a b c d Hcounts Hid Hnn') as [-> ->].
  pose proof (bub_counts_bounds df a 0 0 d Hcounts) as (Ha & _ & _ & Hd & Hsum).
  pose proof (bub_counts_some_present df a 0 0 d Hcounts Hex') as Hpos.
  assert (length df = length (slice_rows x)) as Hl by (unfold df; by rewrite length_fmap).
  apply bub_value_identical; lia.
Qed.

Lemma baroni_self_similarity_witness :
  baroni_urbani_buser_coefficient (pd_merge slice_11 slice_11) = Ok 1%float.
Proof.
  apply baroni_self_similarity.
  - apply (bool_decide_unpack _). by vm_compute.
  - repeat constructor; by vm_compute.
  - left. by vm_compute.
  - by vm_compute.
Defined.

(** ** The two orders of a comparison *)

Lemma tally_row_comm (acc : Z * Z * Z * Z) (r1 r2 : string * Z * Z) :
  tally_row (tally_row acc r1) r2 = tally_row (tally_row acc r2) r1.
Proof.
  destruct acc as [[[a b] c] d], r1 as [[t1 x1] y1], r2 as [[t2 x2] y2].
  unfold tally_row. cbn [fst snd].
  by destruct (binarize x1 =? binarize y1), (binarize x1 =? 1),
       (binarize x1 >? binarize y1), (binarize x1 <? binarize y1),
       (binarize x2 =? binarize y2), (binarize x2 =? 1),
       (binarize x2 >? binarize y2), (binarize x2 <? binarize y2).
Qed.

Lemma foldl_tally_row_perm (df df' : table2) :
  df ≡ₚ df' -> forall acc, foldl tally_row acc df = foldl tally_row acc df'.
Proof.
  induction 1 as [|r l l' _ IH|r1 r2 l|l1 l2 l3 _ IH1 _ IH2]; intros acc.
  - done.
  - cbn. apply IH.
  - cbn. by rewrite tally_row_comm.
  - by rewrite IH1.
Qed.

Lemma bind_nil_r {A B} (l : list A) : (l ≫= fun _ => @nil B) = [].
Proof. induction l as [|a l IH]; [done|]. cbn. by rewrite IH. Qed.

Lemma bind_app_perm {A B} (f g : A -> list B) (l : list A) :
  (l ≫= fun a => f a ++ g a) ≡ₚ (l ≫= f) ++ (l ≫= g).
Proof.
  induction l as [|a l IH]; [done|]. cbn [mbind list_bind].
  rewrite IH. rewrite <- !app_assoc. apply Permutation_app_head.
  rewrite !app_assoc. apply Permutation_app_tail, Permutation_app_comm.
Qed.

Lemma bind_swap_perm {A B C} (f : A -> B -> list C) (l1 : list A) (l2 : list B) :
  (l1 ≫= fun a => l2 ≫= f a) ≡ₚ (l2 ≫= fun b => l1 ≫= fun a => f a b).
Proof.
  induction l1 as [|a l1 IH].
  - cbn [mbind list_bind]. by rewrite bind_nil_r.
  - cbn [mbind list_bind]. rewrite IH. symmetry. apply bind_app_perm.
Qed.

Lemma fmap_bind_out {A B C} (g : B -> C) (f : A -> list B) (l : list A) :
  g <$> (l ≫= f) = l ≫= fun a => g <$> f a.
Proof.
  induction l as [|a l IH]; [done|]. cbn [mbind list_bind].
  by rewrite fmap_app, IH.
Qed.

Lemma pd_merge_swap_perm (x y : otu_slice) :
  pd_merge y x ≡ₚ swap_columns (pd_merge x y).
Proof.
  unfold pd_merge, swap_columns. rewrite fmap_bind_out.
  assert (forall (rows_x rows_y : list (string * Z)),
            (rows_x ≫= fun a =>
               (fun row : string * Z * Z => (fst (fst row), snd row, snd (fst row)))
               <$> (let '(taxon, count_0) := a in
                    '(taxon', count_1) ← rows_y;
                    if bool_decide (taxon = taxon') then [(taxon, count_0, count_1)]
                    else []))
            = (rows_x ≫= fun a => rows_y ≫= fun b =>
                 if bool_decide (fst b = fst a) then [(fst b, snd b, snd a)] else []))
    as Hshape.
  { intros rows_x rows_y. apply list_bind_ext; [|done]. intros [t c0].
    rewrite fmap_bind_out. apply list_bind_ext; [|done]. intros [t' c1].
    cbn [fst snd]. destruct (decide (t = t')) as [->|Hne].
    - by rewrite !bool_decide_eq_true_2.
    - rewrite !bool_decide_eq_false_2; [done|by intros ->|done]. }
  rewrite Hshape.
  transitivity
    (slice_rows y ≫= fun b => slice_rows x ≫= fun a =>
       if bool_decide (fst b = fst a) then [(fst b, snd b, snd a)] else []).
  - match goal with |- ?l ≡ₚ ?r => assert (l = r) as ->; [|done] end.
    apply list_bind_ext; [|done]. intros [t' c1].
    apply list_bind_ext; [|done]. by intros [t c0].
  - apply (bind_swap_perm
             (fun (b a : string * Z) =>
                if bool_decide (fst b = fst a) then [(fst b, snd b, snd a)] else [])
             (slice_rows y) (slice_rows x)).
Qed.

(** X27: comparing two tables in the other order exchanges the counters b and
    c and keeps a and d, so the coefficient of (y, x) is the quotient of
    (x, y) with b and c exchanged; the two calls agree whenever b = c. *)
Theorem baroni_merge_order (x y : otu_slice) (a b c d : Z) :
  bub_counts (pd_merge x y) = (a, b, c, d) ->
  bub_counts (pd_merge y x) = (a, c, b, d)
  /\ baroni_urbani_buser_coefficient (pd_merge y x) = bub_value a c b d
  /\ (b = c -> baroni_urbani_buser_coefficient (pd_merge y x)
               = baroni_urbani_buser_coefficient (pd_merge x y)).
Proof.
  intros Hcounts.
  assert (bub_counts (pd_merge y x) = (a, c, b, d)) as Hswap.
  { unfold bub_counts. rewrite (foldl_tally_row_perm _ _ (pd_merge_swap_perm x y)).
    by apply bub_counts_swap. }
  unfold baroni_urbani_buser_coefficient. rewrite Hswap, Hcounts.
  split; [done|]. split; [done|]. by intros ->.
Qed.

Lemma baroni_merge_order_witness :
  bub_counts (pd_merge slice_11 slice_12) = (2, 2, 0, 0)
  /\ bub_counts (pd_merge slice_12 slice_11) = (2, 0, 2, 0).
Proof.
  assert (bub_counts (pd_merge slice_11 slice_12) = (2, 2, 0, 0)) as Hrun
    by (by vm_compute).
  split; [done|].
  exact (proj1 (baroni_merge_order slice_11 slice_12 2 2 0 0 Hrun)).
Defined.

(** ** save_sample_info: the fields of a line *)

Lemma count_commas_app (s t : string) :
  count_commas (s +:+ t) = count_commas s + count_commas t.
Proof.
  induction s as [|c s IH]; [done|]. rewrite str_app_cons. cbn [count_commas].
  rewrite IH. lia.
Qed.

Lemma count_commas_nonneg (s : string) : 0 <= count_commas s.
Proof.
  induction s as [|c s IH]; [done|]. cbn [count_commas].
  destruct (Ascii.eqb c ","); lia.
Qed.

Lemma count_commas_pretty (z : Z) : count_commas (pretty z) = 0.
Proof.
  pose proof (pretty_Z_chars z) as Hchars.
  induction (pretty z) as [|c s IH]; [done|]. cbn [str_forall count_commas] in *.
  apply andb_prop in Hchars as [Hc Hs]. rewrite (IH Hs).
  by destruct c as [[] [] [] [] [] [] [] []].
Qed.

Lemma sample_info_line_commas (sample : Diatom_Sample) :
  count_commas (sample_info_line sample)
  = 13 + foldr Z.add 0 (count_commas <$> sample_info_texts sample).
Proof.
  unfold sample_info_line, sample_info_texts. rewrite !count_commas_app.
  rewrite count_commas_pretty. cbn [fmap list_fmap foldr].
  change (count_commas ",") with 1. change (count_commas newline) with 0. lia.
Qed.

Lemma amend_sample_note_twice (sample : Diatom_Sample) (first_note second_note : string) :
  first_note <> "" ->
  1 <= count_commas
         (note (amend_sample_note (amend_sample_note sample first_note) second_note)).
Proof.
  intros Hne.
  destruct sample as [fo sa si ar re ra pr sn sd ba bn co pf ad ot sm ss no pl su pt].
  unfold amend_sample_note. cbn [note with_note].
  destruct (bool_decide (no = "")) eqn:Hno; cbn [note with_note].
  - apply bool_decide_eq_true in Hno. subst no.
    rewrite bool_decide_eq_false_2 by done. unfold with_note. cbn [note].
    rewrite !count_commas_app. change (count_commas ",") with 1.
    pose proof (count_commas_nonneg first_note).
    pose proof (count_commas_nonneg second_note). lia.
  - assert (no +:+ "," +:+ first_note <> "") as Hne'.
    { apply bool_decide_eq_false in Hno. by destruct no. }
    rewrite bool_decide_eq_false_2 by done. unfold with_note. cbn [note].
    rewrite !count_commas_app. change (count_commas ",") with 1.
    pose proof (count_commas_nonneg no).
    pose proof (count_commas_nonneg first_note).
    pose proof (count_commas_nonneg second_note). lia.
Qed.

Lemma locate_sample_again (sheet_name : string) (row col : Z)
    (sur_coords : list (Z * Z)) (s : Diatom_Sample) (on_plate : string) :
  plate s = Some on_plate -> on_plate <> "" ->
  locate_sample sheet_name row col sur_coords (folder s) s
  = amend_sample_note s ("Sample also found on " +:+ sheet_name).
Proof.
  intros Hplate Hne. unfold locate_sample.
  rewrite bool_decide_eq_true_2 by done. rewrite Hplate.
  by rewrite bool_decide_eq_false_2.
Qed.

(** X28: the header of the interim file has 14 comma-separated fields; the
    line of a sample has 14 as well when none of its texts holds a comma,
    and one more for every comma in them.  A sample that has a plate and is
    found in two more cells of the extraction sheets gets a note with a
    comma, so its line has at least 15 fields. *)
Theorem save_sample_info_field_count (sample : Diatom_Sample) (on_plate : string)
    (sheet_1 sheet_2 : string) (row_1 col_1 row_2 col_2 : Z)
    (sur_1 sur_2 : list (Z * Z)) :
  count_commas sample_info_header = 13
  /\ count_commas (sample_info_line sample)
     = 13 + foldr Z.add 0 (count_commas <$> sample_info_texts sample)
  /\ (plate sample = Some on_plate -> on_plate <> "" ->
      14 <= count_commas
              (sample_info_line
                 (locate_sample sheet_2 row_2 col_2 sur_2 (folder sample)
                    (locate_sample sheet_1 row_1 col_1 sur_1 (folder sample) sample)))).
Proof.
  split; [done|]. split; [apply sample_info_line_commas|].
  intros Hplate Hne.
  rewrite (locate_sample_again sheet_1 row_1 col_1 sur_1 sample on_plate Hplate Hne).
  set (noted := amend_sample_note sample ("Sample also found on " +:+ sheet_1)).
  assert (folder noted = folder sample /\ plate noted = Some on_plate) as [Hfo Hpl].
  { unfold noted, amend_sample_note. by destruct (bool_decide _), sample. }
  rewrite <- Hfo.
  rewrite (locate_sample_again sheet_2 row_2 col_2 sur_2 noted on_plate Hpl Hne).
  rewrite sample_info_line_commas.
  pose proof (amend_sample_note_twice sample ("Sample also found on " +:+ sheet_1)
                ("Sample also found on " +:+ sheet_2) ltac:(done)) as Hnote.
  fold noted in Hnote.
  unfold sample_info_texts. cbn [fmap list_fmap foldr].
  repeat match goal with
         | |- context [count_commas ?t] =>
             lazymatch goal with
             | H : 0 <= count_commas t |- _ => fail
             | _ => pose proof (count_commas_nonneg t)
             end
         end.
  lia.
Qed.

(** ** __init__: the stored identifiers given back to the constructor *)

(** X3: building a sample again from the folder and the sample id that the
    constructor stored, with the other arguments unchanged, gives the same
    sample: the folder and sample id rules return their own results
    unchanged. *)
Theorem Diatom_Sample_init_identifiers_stable
    (sampleid0 siteid0 area0 region0 prn0 sitename0 sampledate0 barcode0 folder0 : pyval)
    (s : Diatom_Sample) :
  Diatom_Sample_init sampleid0 siteid0 area0 region0 prn0 sitename0 sampledate0
                     barcode0 folder0 = Ok s ->
  Diatom_Sample_init (PyStr (sampleid s)) siteid0 area0 region0 prn0 sitename0
                     sampledate0 barcode0 (PyStr (folder s)) = Ok s.
Proof.
  unfold Diatom_Sample_init.
  destruct (init_folder folder0) as [self_folder|] eqn:Hfolder; [|done].
  cbn [mbind result_bind].
  destruct (init_sampleid sampleid0 self_folder) as [self_sampleid|] eqn:Hsampleid;
    [|done].
  cbn [mbind result_bind].
  destruct (init_siteid siteid0) as [self_siteid|]; [|done]. cbn [mbind result_bind].
  destruct (init_reg_area _ _ _ _) as [self_reg_area|]; [|done].
  cbn [mbind result_bind].
  destruct (init_prn prn0) as [self_prn|]; [|done]. cbn [mbind result_bind].
  intros [= <-]. cbn [folder sampleid].
  rewrite (init_folder_idempotent folder0 self_folder Hfolder). cbn [mbind result_bind].
  rewrite (init_sampleid_idempotent sampleid0 self_folder self_folder self_sampleid
             Hsampleid).
  done.
Qed.

Lemma Diatom_Sample_init_identifiers_stable_witness :
  exists s : Diatom_Sample,
    sample_5 = Ok s
    /\ Diatom_Sample_init (PyStr (sampleid s)) (PyInt 7) (PyStr "north")
         (PyStr "anglian") (PyInt 7) (PyStr "River Wensum") (PyStr "01/02/19")
         (PyStr "BC1") (PyStr (folder s)) = Ok s.
Proof.
  destruct sample_5 as [s|e] eqn:Hs; [|by vm_compute in Hs].
  exists s. split; [done|].
  by apply (Diatom_Sample_init_identifiers_stable (PyInt 101) (PyInt 7) (PyStr "north")
              (PyStr "anglian") (PyInt 7) (PyStr "River Wensum") (PyStr "01/02/19")
              (PyStr "BC1") (PyInt 5)).
Defined.

(** ** filter_otus_by_region: a sheet or the diagnostic *)

Lemma merge_or_start_bound (df : dataframe) (t : otu_slice) :
  exists df', merge_or_start (Bound (Some df)) (Some (frame_of_slice t))
              = Ok (Bound (Some df')).
Proof. by eexists. Qed.

Lemma merge_or_start_frame (main_df : local (option dataframe)) (s : Diatom_Sample) :
  main_df = Unbound \/ (exists df, main_df = Bound (Some df)) ->
  otu_tab s <> None ->
  exists df', merge_or_start main_df (frame_of s) = Ok (Bound (Some df')).
Proof.
  intros Hmain Htab. unfold frame_of. destruct (otu_tab s) as [t|]; [|done].
  destruct Hmain as [->|[df ->]]; by eexists.
Qed.

Lemma merge_control_region_frame (reg : string) (samples_otus : list Diatom_Sample)
    (main_df : local (option dataframe)) :
  Forall (fun s => exported_in reg s -> otu_tab s <> None) samples_otus ->
  (exists df, main_df = Bound (Some df))
  \/ (main_df = Unbound /\ Exists (exported_in reg) samples_otus) ->
  exists df', merge_control_region reg samples_otus main_df = Ok (Bound (Some df')).
Proof.
  intros Htabs. revert main_df.
  induction Htabs as [|s rest Hs _ IH]; intros main_df Hmain.
  - destruct Hmain as [[df ->]|[_ Hex]]; [by eexists|by apply Exists_nil in Hex].
  - cbn [merge_control_region].
    destruct (bool_decide (region s = reg) && (3000 <=? count s)) eqn:Hq.
    + apply andb_prop in Hq as [Hr%bool_decide_eq_true Hc%Z.leb_le].
      destruct (merge_or_start_frame main_df s) as [df' ->];
        [destruct Hmain as [?|[? _]]; [by right|by left]|by apply Hs|].
      cbn [mbind result_bind]. apply IH. left. by eexists.
    + apply IH. destruct Hmain as [?|[-> Hex]]; [by left|]. right. split; [done|].
      apply Exists_cons in Hex as [[Hr Hc]|?]; [|done].
      apply andb_false_iff in Hq as [Hq|Hq].
      * by apply bool_decide_eq_false in Hq.
      * apply Z.leb_gt in Hq. lia.
Qed.

Lemma merge_site_region_frame (reg : string) (samples_otus : list Diatom_Sample)
    (biosys_siteid_dict : gmap string (string * string))
    (main_df : local (option dataframe)) :
  Forall (fun s => exported_in reg s -> otu_tab s <> None) samples_otus ->
  (exists df, main_df = Bound (Some df))
  \/ (main_df = Unbound /\ Exists (exported_in reg) samples_otus) ->
  exists dict' df',
    merge_site_region reg samples_otus biosys_siteid_dict main_df
    = Ok (dict', Bound (Some df')).
Proof.
  intros Htabs. revert main_df biosys_siteid_dict.
  induction Htabs as [|s rest Hs _ IH]; intros main_df dict Hmain.
  - destruct Hmain as [[df ->]|[_ Hex]]; [by eexists _, _|by apply Exists_nil in Hex].
  - cbn [merge_site_region].
    destruct (bool_decide (region s = reg) && (3000 <=? count s)) eqn:Hq.
    + apply andb_prop in Hq as [Hr%bool_decide_eq_true Hc%Z.leb_le].
      destruct (merge_or_start_frame main_df s) as [df' ->];
        [destruct Hmain as [?|[? _]]; [by right|by left]|by apply Hs|].
      cbn [mbind result_bind]. apply IH. left. by eexists.
    + apply IH. destruct Hmain as [?|[-> Hex]]; [by left|]. right. split; [done|].
      apply Exists_cons in Hex as [[Hr Hc]|?]; [|done].
      apply andb_false_iff in Hq as [Hq|Hq].
      * by apply bool_decide_eq_false in Hq.
      * apply Z.leb_gt in Hq. lia.
Qed.

(** X29: the per-region export prints the region first.  For a region that
    is neither the sentinel nor TR, and a registry in which every exported
    sample has a table and these tables have distinct count headers, it
    then either finds no sample of the region with 3000 reads, prints the
    diagnostic and leaves the writer as it was, or it appends exactly one
    sheet, named after the region, and prints nothing more. *)
Theorem filter_otus_by_region_sheet_or_diagnostic (reg : string)
    (samples_otus : list Diatom_Sample) (writer : list sheet) (crs : list string) :
  reg <> no_value -> reg <> "TR" ->
  Forall (fun s => exported_in reg s -> otu_tab s <> None) samples_otus ->
  NoDup (exported_headers reg samples_otus) ->
  (Forall (fun s => ~ exported_in reg s) samples_otus
   /\ filter_otus_by_region reg samples_otus writer crs
      = Ok (writer, [reg; "    Region " +:+ reg +:+ " had no passing samples."]))
  \/ (Exists (exported_in reg) samples_otus
      /\ exists new_sheet,
           filter_otus_by_region reg samples_otus writer crs
           = Ok (writer ++ [new_sheet], [reg])
           /\ sheet_name new_sheet = reg).
Proof.
  intros Hnv Htr Htabs _.
  destruct (decide (Exists (exported_in reg) samples_otus)) as [Hex|Hnone].
  - right. split; [done|]. unfold filter_otus_by_region. cbv zeta.
    rewrite !bool_decide_eq_false_2 by done.
    destruct (bool_decide (reg ∈ crs)).
    + destruct (merge_control_region_frame reg samples_otus Unbound Htabs)
        as [df' ->]; [by right|].
      cbn [mbind result_bind]. by eexists.
    + destruct (merge_site_region_frame reg samples_otus ∅ Unbound Htabs)
        as (dict' & df' & ->); [by right|].
      cbn [mbind result_bind]. by eexists.
  - left. apply not_Exists_Forall in Hnone; [|apply _]. split; [done|].
    by apply filter_otus_by_region_none.
Qed.

Lemma filter_otus_by_region_sheet_or_diagnostic_witness :
  Forall (fun s => exported_in "Anglian" s -> otu_tab s <> None) registry_after_run_5
  /\ NoDup (exported_headers "Anglian" registry_after_run_5)
  /\ exists new_sheet,
       filter_otus_by_region "Anglian" registry_after_run_5 [] control_regions
       = Ok ([new_sheet], ["Anglian"])
       /\ sheet_name new_sheet = "Anglian".
Proof.
  assert (Forall (fun s => exported_in "Anglian" s -> otu_tab s <> None)
                 registry_after_run_5) as Htabs.
  { repeat constructor; by intros _. }
  assert (NoDup (exported_headers "Anglian" registry_after_run_5)) as Hheaders.
  { apply (bool_decide_unpack _). by vm_compute. }
  split; [done|]. split; [done|].
  destruct (filter_otus_by_region_sheet_or_diagnostic "Anglian" registry_after_run_5
              [] control_regions ltac:(done) ltac:(done) Htabs Hheaders)
    as [[_ Hdiag]|[_ Hsheet]]; [by vm_compute in Hdiag|done].
Defined.
